(** * MentaCare admin backend: cache, pagination, enrichment and assignment

    A shallow embedding of the read path (TTL caches, cursor pagination,
    residual filters, batched foreign-key lookups) and of the patient and
    therapist mutations of [src/controllers/therapistController.js] (which
    holds both the therapist and the patient controller),
    [src/middleware/cacheMiddleware.js], [src/routes/therapistRoutes.js] and
    [src/routes/patientRoutes.js].

    Conventions of the embedding:
    - a request handler is a function of its inputs, the clock reading
      [now] (milliseconds, the value of [Date.now()]; a handler run is
      treated as instantaneous) and the state it touches (the [users]
      collection and the cache map of its module); it returns its response
      and the new state, and a read handler also the list of reads it sent
      to the store;
    - [new Date().toISOString()] is represented by the instant itself;
    - numbers are integers; strings are ASCII strings. *)

From stdpp Require Import base strings list gmap pretty sorting.
From Stdlib Require Import ZArith Lia Ascii String.

Local Open Scope string_scope.
Local Open Scope list_scope.
Local Open Scope Z_scope.

(** ** JavaScript strings *)

Module Js.

(** [String.prototype.toLowerCase], on ASCII. *)
Definition lower_ascii (c : ascii) : ascii :=
  let n := nat_of_ascii c in
  if ((65 <=? n)%nat && (n <=? 90)%nat)%bool then ascii_of_nat (n + 32) else c.

Fixpoint toLowerCase (s : string) : string :=
  match s with
  | EmptyString => EmptyString
  | String c s' => String (lower_ascii c) (toLowerCase s')
  end.

(** [s.startsWith(p)]. *)
Fixpoint startsWith (s p : string) {struct p} : bool :=
  match p, s with
  | EmptyString, _ => true
  | String _ _, EmptyString => false
  | String a p', String b s' =>
      if decide (a = b) then startsWith s' p' else false
  end.

(** [s.includes(p)]: [p] occurs in [s] at some position. *)
Fixpoint includes (s p : string) : bool :=
  startsWith s p ||
  match s with
  | EmptyString => false
  | String _ s' => includes s' p
  end.

(** Truthiness of a string value (the empty string is falsy). *)
Definition truthy (s : string) : bool :=
  match s with EmptyString => false | _ => true end.

(** Truthiness of a possibly undefined string. *)
Definition truthy_opt (o : option string) : bool :=
  match o with Some s => truthy s | None => false end.

(** [arr.slice(i, j)] for [i <= j]. *)
Definition slice {A} (i j : nat) (l : list A) : list A :=
  take (j - i) (drop i l).

(** [JSON.stringify] of an object whose values are strings (the shape of
    [req.query]); characters that need escaping are not treated. *)
Definition dquote : ascii := ascii_of_nat 34.

Definition quote (s : string) : string :=
  String dquote (s +:+ String dquote EmptyString).

Fixpoint stringify_fields (kvs : list (string * string)) : string :=
  match kvs with
  | [] => EmptyString
  | [(k, v)] => quote k +:+ ":" +:+ quote v
  | (k, v) :: rest => quote k +:+ ":" +:+ quote v +:+ "," +:+ stringify_fields rest
  end.

Definition stringify (kvs : list (string * string)) : string :=
  "{" +:+ stringify_fields kvs +:+ "}".

(** [Number.parseInt(s)] for a string that starts with decimal digits;
    [None] stands for [NaN]. The other strings [parseInt] reads a number
    from (a sign, leading blanks, a radix prefix) are outside the
    embedding and taken as [NaN] here. *)
Definition digit (c : ascii) : option nat :=
  let n := nat_of_ascii c in
  if ((48 <=? n)%nat && (n <=? 57)%nat)%bool then Some (n - 48)%nat else None.

Fixpoint digits (s : string) (acc : nat) (seen : bool) : option nat :=
  match s with
  | EmptyString => if seen then Some acc else None
  | String c s' =>
      match digit c with
      | Some d => digits s' (10 * acc + d)%nat true
      | None => if seen then Some acc else None
      end
  end.

Definition parseInt (s : string) : option nat := digits s 0%nat false.

(** [Number(s)] for a string of decimal digits; the empty string is [0]
    and [None] stands for [NaN]. The other numerals [Number] reads (signs,
    blanks, fractions, exponents, radix prefixes) are outside the
    embedding and taken as [NaN] here. *)
Fixpoint all_digits (s : string) (acc : nat) : option nat :=
  match s with
  | EmptyString => Some acc
  | String c s' =>
      match digit c with
      | Some d => all_digits s' (10 * acc + d)%nat
      | None => None
      end
  end.

Definition Number (s : string) : option nat := all_digits s 0%nat.

(** Property lookup in a parsed query string. *)
Fixpoint prop (k : string) (kvs : list (string * string)) : option string :=
  match kvs with
  | [] => None
  | (k', v) :: rest => if decide (k' = k) then Some v else prop k rest
  end.

(** Values of fields the controllers only copy and compare. Arrays and
    objects are compared by reference in JavaScript: a value parsed from a
    request body is never the same object as one read from the store. *)
Inductive value :=
| VNull
| VBool (b : bool)
| VNum (n : Z)
| VStr (s : string)
| VObj (fields : list (string * string)).

(** [a === b] for a request value [a] and a stored value [b]. *)
Definition strict_eq (a b : value) : bool :=
  match a, b with
  | VNull, VNull => true
  | VBool x, VBool y => bool_decide (x = y)
  | VNum x, VNum y => bool_decide (x = y)
  | VStr x, VStr y => bool_decide (x = y)
  | _, _ => false
  end.

(** Truthiness of a copied value. *)
Definition truthy_value (v : value) : bool :=
  match v with
  | VNull => false
  | VBool b => b
  | VNum n => negb (n =? 0)
  | VStr s => truthy s
  | VObj _ => true
  end.

(** [x || null] for a possibly undefined value. *)
Definition or_null (x : option value) : value :=
  match x with
  | Some v => if truthy_value v then v else VNull
  | None => VNull
  end.

(** [String.prototype.trim], on ASCII white space. *)
Definition is_space (c : ascii) : bool :=
  let n := nat_of_ascii c in
  (((9 <=? n)%nat && (n <=? 13)%nat) || (n =? 32)%nat)%bool.

Fixpoint trimStart (s : string) : string :=
  match s with
  | EmptyString => EmptyString
  | String c s' => if is_space c then trimStart s' else s
  end.

Definition trim (s : string) : string :=
  String.rev (trimStart (String.rev (trimStart s))).

(** [set.add(x)] on a [Set] of strings, kept in insertion order. *)
Definition set_add (x : string) (s : list string) : list string :=
  if bool_decide (x ∈ s) then s else s ++ [x].

(** [Array.prototype.sort()] without a comparator, on strings: ascending
    by character codes. *)
Definition sort (l : list string) : list string := merge_sort String.le l.

(** The property names every plain object inherits from
    [Object.prototype]. An object used as a map from strings answers a
    lookup of one of them with the inherited value; the maps of the model
    stand for such objects at all other keys. *)
Definition object_prototype_keys : list string :=
  ["constructor"; "__proto__"; "hasOwnProperty"; "isPrototypeOf";
   "propertyIsEnumerable"; "toLocaleString"; "toString"; "valueOf";
   "__defineGetter__"; "__defineSetter__"; "__lookupGetter__"; "__lookupSetter__"].

End Js.

(** ** Documents of the [users] collection

    Patients and therapists live in one collection and are told apart by
    [role]. A field that a document does not have is [None]; for the typed
    fields [null] is [None] as well, the fields that hold a [Js.value] have
    [Js.VNull]. The therapist-side controller reads and writes the assignment in
    [assignedTherapist] (a therapist [uid]); the patient-side controller in
    [assigned_therapist] (a therapist document id). The opaque therapist
    fields that are only passed through (availability, education,
    certifications, notification settings) are left out. *)

Record therapistInfo := TherapistInfo {
  info_uid : string;
  info_name : string;
  info_email : string;
  info_title : string;
  info_specialization : string;
}.

Record user := User {
  id : string;
  role : option string;
  uid : option string;
  name : option string;
  email : option string;
  title : option string;
  specialization : option string;
  bio : option string;
  experience : option Z;
  isVerified : option bool;
  isProfileComplete : option bool;
  assignedTherapist : option string;
  assignedTherapistInfo : option therapistInfo;
  assigned_therapist : option string;
  flags : option (list string);
  documents : option (list string);
  age : option Js.value;
  gender : option Js.value;
  concerns : option Js.value;
  emergencyContact : option Js.value;
  createdAt : option Z;
  updatedAt : option Z;
}.

(** What a handler answers: a JSON body, or a failure with its HTTP status
    and message. *)
Inductive outcome (A : Type) :=
| Ok (body : A)
| Failed (status : nat) (message : string).
Arguments Ok {A} body.
Arguments Failed {A} status message.

(** ** The document store

    The store is an external collaborator; this is the part of its contract
    the controllers rely on. A collection is the list of its documents, with
    pairwise distinct identifiers. *)

Module Firestore.

Inductive condition :=
| where_role (v : string)
| where_email (v : string)
| where_uid (v : string)
| where_specialization (v : string)
| where_isVerified (v : bool)
| where_isProfileComplete (v : bool)
| where_assignedTherapist (v : string)
| where_assignedTherapist_in (vs : list string)
| where_assigned_therapist (v : string)
| where_flags_not_empty.

Inductive ordering := createdAt_desc | updatedAt_desc.

Record query := Query {
  conditions : list condition;
  orderBy : option ordering;
  startAfter : option string;
  limit : option nat;
}.

Definition collection : query := Query [] None None None.
Definition where_ (c : condition) (q : query) : query :=
  Query (conditions q ++ [c]) (orderBy q) (startAfter q) (limit q).
Definition orderBy_ (o : ordering) (q : query) : query :=
  Query (conditions q) (Some o) (startAfter q) (limit q).
Definition startAfter_ (doc : string) (q : query) : query :=
  Query (conditions q) (orderBy q) (Some doc) (limit q).
Definition limit_ (n : nat) (q : query) : query :=
  Query (conditions q) (orderBy q) (startAfter q) (Some n).

Definition satisfies (d : user) (c : condition) : bool :=
  match c with
  | where_role v => bool_decide (role d = Some v)
  | where_email v => bool_decide (email d = Some v)
  | where_uid v => bool_decide (uid d = Some v)
  | where_specialization v => bool_decide (specialization d = Some v)
  | where_isVerified v => bool_decide (isVerified d = Some v)
  | where_isProfileComplete v => bool_decide (isProfileComplete d = Some v)
  | where_assignedTherapist v => bool_decide (assignedTherapist d = Some v)
  | where_assignedTherapist_in vs =>
      match assignedTherapist d with
      | Some t => bool_decide (t ∈ vs)
      | None => false
      end
  | where_assigned_therapist v => bool_decide (assigned_therapist d = Some v)
  | where_flags_not_empty =>
      match flags d with Some (_ :: _) => true | _ => false end
  end.

Definition matches (cs : list condition) (d : user) : bool :=
  forallb (satisfies d) cs.

Definition order_key (o : ordering) (d : user) : option Z :=
  match o with
  | createdAt_desc => createdAt d
  | updatedAt_desc => updatedAt d
  end.

(** Descending order on the ordering field; documents without the field
    are not returned by an ordered query, and documents with equal keys
    come in the order of the collection list, which stands for the store's
    own tie-break. *)
Fixpoint insert_desc (o : ordering) (d : user) (sorted : list user) : list user :=
  match sorted with
  | [] => [d]
  | x :: rest =>
      match order_key o x, order_key o d with
      | Some kx, Some kd =>
          if kx <=? kd then d :: x :: rest else x :: insert_desc o d rest
      | _, _ => d :: x :: rest
      end
  end.

Definition has_key (o : ordering) (d : user) : bool :=
  match order_key o d with Some _ => true | None => false end.

Definition sort_desc (o : ordering) (docs : list user) : list user :=
  foldr (insert_desc o) [] (List.filter (has_key o) docs).

(** The documents that come after the cursor document. *)
Fixpoint after (cursor : string) (docs : list user) : list user :=
  match docs with
  | [] => []
  | d :: rest => if decide (id d = cursor) then rest else after cursor rest
  end.

(** [query.get()]: order, position after the cursor, filter, cut. *)
Definition get (q : query) (db : list user) : list user :=
  let ordered :=
    match orderBy q with Some o => sort_desc o db | None => db end in
  let positioned :=
    match startAfter q with Some c => after c ordered | None => ordered end in
  let selected := List.filter (matches (conditions q)) positioned in
  match limit q with Some n => take n selected | None => selected end.

(** [collection.doc(id).get()]: [None] when the document does not exist. *)
Definition doc (i : string) (db : list user) : option user :=
  List.find (fun d => bool_decide (id d = i)) db.

(** [query.startAfter(snapshot)] takes the cursor values from the
    snapshot, one for each ordering field of the query, and throws when
    the snapshot has no value for one of them. *)
Definition accepts_cursor (q : query) (snapshot : user) : bool :=
  match orderBy q with
  | Some o => has_key o snapshot
  | None => true
  end.

Definition exists_ (i : string) (db : list user) : bool :=
  match doc i db with Some _ => true | None => false end.

(** [ref.update(fields)] on an existing document. *)
Definition update (i : string) (f : user -> user) (db : list user) : list user :=
  map (fun d => if decide (id d = i) then f d else d) db.

(** A write batch: updates applied in the order they were added. The
    commit is atomic and fails as a whole when one of the documents does
    not exist. *)
Definition batch := list (string * (user -> user)).

Definition commit (b : batch) (db : list user) : option (list user) :=
  if forallb (fun w => exists_ (fst w) db) b
  then Some (foldl (fun acc w => update (fst w) (snd w) acc) db b)
  else None.

(** [ref.delete()]. *)
Definition delete (i : string) (db : list user) : list user :=
  List.filter (fun d => negb (bool_decide (id d = i))) db.

End Firestore.

(** ** Cache maps

    Each of the three modules keeps its own [Map] from a key to
    [{ data, timestamp }]. *)

Record entry (A : Type) := Entry { data : A; timestamp : Z }.
Arguments Entry {A} data timestamp.
Arguments data {A} e.
Arguments timestamp {A} e.

(** What a handler has asked of the store. *)
Inductive read :=
| doc_get (i : string)
| query_get (q : Firestore.query).

(** The sizes of the arrays of the [in] filters a handler has sent, one per
    filter, in order. *)
Definition membership_size (c : Firestore.condition) : list nat :=
  match c with
  | Firestore.where_assignedTherapist_in vs => [List.length vs]
  | _ => []
  end.

Definition membership_sizes (log : list read) : list nat :=
  List.concat (map (fun r =>
                 match r with
                 | query_get q =>
                     List.concat (map membership_size (Firestore.conditions q))
                 | doc_get _ => []
                 end) log).

(** ** src/middleware/cacheMiddleware.js *)

Module CacheMiddleware.

Definition CACHE_TTL : Z := 5 * 60 * 1000.

Record request := Request {
  method : string;
  originalUrl : string;
  query : list (string * string);
}.

Definition cache_key (req : request) : string :=
  originalUrl req +:+ "_" +:+ Js.stringify (query req).

(** [cacheMiddleware(ttl)] in front of the rest of the chain [next], which
    computes the response body and the new state of everything else. The
    overridden [res.json] stores the body before it is sent. *)
Definition cacheMiddleware {B S : Type} (ttl : Z) (req : request) (now : Z)
    (next : S -> B * S) (cache : gmap string (entry B)) (s : S)
    : B * gmap string (entry B) * S :=
  if negb (bool_decide (method req = "GET")) then
    let '(body, s') := next s in (body, cache, s')
  else
    let key := cache_key req in
    let miss :=
      let '(body, s') := next s in
      (body, <[key := Entry body now]> cache, s') in
    match cache !! key with
    | Some cached =>
        if now - timestamp cached <? ttl then (data cached, cache, s) else miss
    | None => miss
    end.

(** [clearCache(pattern)]: the loop over [cache.keys()]. *)
Definition clearCache {B : Type} (pattern : string)
    (cache : gmap string (entry B)) : gmap string (entry B) :=
  foldl (fun c key => if Js.includes key pattern then base.delete key c else c)
        cache (map fst (map_to_list cache)).

End CacheMiddleware.

(** ** src/controllers/therapistController.js, therapist part *)

Module TherapistController.

Import Firestore.

Definition CACHE_TTL : Z := 5 * 60 * 1000.

(** The object [transformTherapistData] builds, with the
    [assignedPatientsCount] the list endpoint adds to it. *)
Record therapist := Therapist {
  t_id : string;
  t_uid : option string;
  t_name : option string;
  t_email : option string;
  t_title : string;
  t_specialization : option string;
  t_bio : string;
  t_experience : Z;
  t_isVerified : bool;
  t_isProfileComplete : bool;
  t_role : option string;
  t_createdAt : option Z;
  t_updatedAt : option Z;
  assignedPatientsCount : option nat;
}.

Record page := Page {
  therapists : list therapist;
  hasMore : bool;
  lastDocId : option string;
  total : nat;
}.

(** The summary object, without its two floating-point averages (and
    without the experience total only they use). *)
Record summary := Summary {
  s_total : nat;
  s_verified : nat;
  s_unverified : nat;
  s_profileComplete : nat;
  s_profileIncomplete : nat;
  s_totalPatients : nat;
  s_specializationBreakdown : gmap string nat;
}.

Inductive payload :=
| page_data (p : page)
| summary_data (s : summary).

Definition getCachedData (key : string) (now : Z)
    (cache : gmap string (entry payload)) : option payload :=
  match cache !! key with
  | Some cached =>
      if now - timestamp cached <? CACHE_TTL then Some (data cached) else None
  | None => None
  end.

Definition setCachedData (key : string) (d : payload) (now : Z)
    (cache : gmap string (entry payload)) : gmap string (entry payload) :=
  <[key := Entry d now]> cache.

Definition transformTherapistData (d : user) : therapist :=
  {| t_id := id d;
     t_uid := uid d;
     t_name := name d;
     t_email := email d;
     t_title := default EmptyString (title d);
     t_specialization := specialization d;
     t_bio := default EmptyString (bio d);
     t_experience := default 0 (experience d);
     t_isVerified := default false (isVerified d);
     t_isProfileComplete := default false (isProfileComplete d);
     t_role := role d;
     t_createdAt := createdAt d;
     t_updatedAt := updatedAt d;
     assignedPatientsCount := None |}.

(** [field?.toLowerCase().includes(keywordLower)]. *)
Definition field_includes (f : option string) (keywordLower : string) : bool :=
  match f with
  | Some s => Js.includes (Js.toLowerCase s) keywordLower
  | None => false
  end.

Definition keyword_filter (keyword : string) (t : therapist) : bool :=
  let keywordLower := Js.toLowerCase keyword in
  field_includes (t_name t) keywordLower
  || field_includes (t_email t) keywordLower
  || field_includes (t_specialization t) keywordLower
  || Js.includes (Js.toLowerCase (t_title t)) keywordLower
  || Js.includes (Js.toLowerCase (t_bio t)) keywordLower.

(** The [switch] over the experience bucket. The years of experience are
    whole numbers here; the source compares whatever number is stored. *)
Definition experience_filter (experience : string) (t : therapist) : bool :=
  if decide (experience = "0-2") then (0 <=? t_experience t) && (t_experience t <=? 2)
  else if decide (experience = "3-5") then (3 <=? t_experience t) && (t_experience t <=? 5)
  else if decide (experience = "6-10") then (6 <=? t_experience t) && (t_experience t <=? 10)
  else if decide (experience = "10+") then 10 <? t_experience t
  else true.

(** The client-side pass over the transformed page. *)
Definition residual_filter (keyword experience : string)
    (ts : list therapist) : list therapist :=
  let ts1 := if Js.truthy keyword then List.filter (keyword_filter keyword) ts else ts in
  if Js.truthy experience && negb (bool_decide (experience = "all"))
  then List.filter (experience_filter experience) ts1
  else ts1.

(** [for (let i = 0; i < ids.length; i += 10) chunks.push(ids.slice(i, i + 10))];
    [fuel] bounds the number of iterations. *)
Fixpoint chunk_loop {A} (fuel i : nat) (ids : list A)
    (chunks : list (list A)) : list (list A) :=
  match fuel with
  | O => chunks
  | S fuel' =>
      if (i <? List.length ids)%nat
      then chunk_loop fuel' (i + 10) ids (chunks ++ [Js.slice i (i + 10) ids])
      else chunks
  end.

Definition make_chunks {A} (ids : list A) : list (list A) :=
  chunk_loop (List.length ids) 0 ids [].

(** The store rejects [undefined] inside the array of an [in] filter. *)
Fixpoint all_defined {A} (l : list (option A)) : option (list A) :=
  match l with
  | [] => Some []
  | None :: _ => None
  | Some x :: rest =>
      match all_defined rest with Some xs => Some (x :: xs) | None => None end
  end.

Definition patients_of (chunk : list string) : query :=
  where_ (where_assignedTherapist_in chunk)
    (where_ (where_role "patient") collection).

(** [patientCounts[a] = (patientCounts[a] || 0) + 1] for a truthy [a]. *)
Definition count_doc (patientCounts : gmap string nat) (d : user) : gmap string nat :=
  match assignedTherapist d with
  | Some a =>
      if Js.truthy a
      then <[a := S (default 0%nat (patientCounts !! a))]> patientCounts
      else patientCounts
  | None => patientCounts
  end.

(** [for (const chunk of chunks)]: one [in] query per chunk, all results
    merged into [patientCounts]. [None] when the store rejects a chunk. *)
Fixpoint count_patients (chunks : list (list (option string))) (db : list user)
    (patientCounts : gmap string nat) (log : list read)
    : option (gmap string nat) * list read :=
  match chunks with
  | [] => (Some patientCounts, log)
  | chunk :: rest =>
      match all_defined chunk with
      | None => (None, log)
      | Some ids =>
          let q := patients_of ids in
          count_patients rest db (foldl count_doc patientCounts (get q db))
            (log ++ [query_get q])
      end
  end.

Definition lookup_count (patientCounts : gmap string nat) (u : option string) : nat :=
  default 0%nat (patientCounts !! default "undefined" u).

Definition with_count (patientCounts : gmap string nat) (t : therapist) : therapist :=
  {| t_id := t_id t; t_uid := t_uid t; t_name := t_name t; t_email := t_email t;
     t_title := t_title t; t_specialization := t_specialization t;
     t_bio := t_bio t; t_experience := t_experience t;
     t_isVerified := t_isVerified t;
     t_isProfileComplete := t_isProfileComplete t; t_role := t_role t;
     t_createdAt := t_createdAt t; t_updatedAt := t_updatedAt t;
     assignedPatientsCount := Some (lookup_count patientCounts (t_uid t)) |}.

(** The store query of the list endpoint, before cursor and limit. *)
Definition list_query (specialization isVerified isProfileComplete : string) : query :=
  let q := where_ (where_role "professional") collection in
  let q :=
    if Js.truthy specialization && negb (bool_decide (specialization = "all"))
    then where_ (where_specialization specialization) q else q in
  let q :=
    if negb (bool_decide (isVerified = EmptyString))
       && negb (bool_decide (isVerified = "all"))
    then where_ (where_isVerified (bool_decide (isVerified = "true"))) q else q in
  let q :=
    if negb (bool_decide (isProfileComplete = EmptyString))
       && negb (bool_decide (isProfileComplete = "all"))
    then where_ (where_isProfileComplete (bool_decide (isProfileComplete = "true"))) q
    else q in
  orderBy_ updatedAt_desc q.

(** [hasMore], and [snapshot.docs.pop()] when the extra document came
    back; [snapshot.docs] is one array, so the later uses see it without
    that document. *)
Definition drop_extra {A} (pageSize : nat) (docs : list A) : bool * list A :=
  if (pageSize <? List.length docs)%nat then (true, removelast docs) else (false, docs).

Definition failure : string := "Failed to fetch therapists".

(** The list query positioned after the cursor document, when [lastDocId]
    names an existing document; the second component is the document read
    that resolves the cursor. Whether the store takes the document as a
    cursor is [cursor_refused]. *)
Definition with_cursor (lastDocId : option string) (db : list user) (q : query)
    : query * list read :=
  match lastDocId with
  | Some c =>
      if Js.truthy c
      then ((if exists_ c db then startAfter_ c q else q), [doc_get c])
      else (q, [])
  | None => (q, [])
  end.

(** [query.startAfter(lastDoc)] throws: the cursor document exists and
    has no value for the field the list is ordered by. *)
Definition cursor_refused (lastDocId : option string) (db : list user) (q : query)
    : bool :=
  match lastDocId with
  | Some c =>
      Js.truthy c
      && match doc c db with
         | Some lastDoc => negb (accepts_cursor q lastDoc)
         | None => false
         end
  | None => false
  end.

(** [getTherapists]: the body of the [try] block. [pageSize] is
    [Number.parseInt(pageSize)]. *)
Definition fetchTherapists (pageSize : option nat) (lastDocId : option string)
    (keyword specialization isVerified isProfileComplete experience : string)
    (db : list user) : outcome page * list read :=
  let '(q, log) :=
    with_cursor lastDocId db (list_query specialization isVerified isProfileComplete) in
  if cursor_refused lastDocId db
       (list_query specialization isVerified isProfileComplete)
  then (Failed 500 failure, log)
  else
  match pageSize with
  | None => (Failed 500 failure, log)
  | Some k =>
      let q := limit_ (k + 1) q in
      let '(hasMore, docs) := drop_extra k (get q db) in
      let log := log ++ [query_get q] in
      let therapists :=
        residual_filter keyword experience (map transformTherapistData docs) in
      let therapistIds := map t_uid therapists in
      match count_patients (make_chunks therapistIds) db ∅ log with
      | (None, log) => (Failed 500 failure, log)
      | (Some patientCounts, log) =>
          let therapists := map (with_count patientCounts) therapists in
          (Ok {| therapists := therapists;
                 hasMore := hasMore;
                 lastDocId := id <$> last docs;
                 total := List.length therapists |},
           log)
      end
  end.

(** [getTherapists]. *)
Definition getTherapists (query : list (string * string)) (now : Z)
    (cache : gmap string (entry payload)) (db : list user)
    : outcome payload * gmap string (entry payload) * list read :=
  let pageSize :=
    match Js.prop "pageSize" query with
    | Some s => Js.parseInt s
    | None => Some 15%nat
    end in
  let lastDocId := Js.prop "lastDocId" query in
  let keyword := default EmptyString (Js.prop "keyword" query) in
  let specialization := default EmptyString (Js.prop "specialization" query) in
  let isVerified := default EmptyString (Js.prop "isVerified" query) in
  let isProfileComplete := default EmptyString (Js.prop "isProfileComplete" query) in
  let experience := default EmptyString (Js.prop "experience" query) in
  let cacheKey := "therapists_" +:+ Js.stringify query in
  match getCachedData cacheKey now cache, Js.truthy_opt lastDocId with
  | Some cachedResult, false => (Ok cachedResult, cache, [])
  | _, _ =>
      match fetchTherapists pageSize lastDocId keyword specialization isVerified
              isProfileComplete experience db with
      | (Ok result, log) =>
          let cache :=
            if Js.truthy_opt lastDocId then cache
            else setCachedData cacheKey (page_data result) now cache in
          (Ok (page_data result), cache, log)
      | (Failed status msg, log) => (Failed status msg, cache, log)
      end
  end.

(** [getTherapistsSummary]. *)
Definition summary_failure : string := "Failed to fetch therapists summary".

Definition bump (k : string) (m : gmap string nat) : gmap string nat :=
  <[k := S (default 0%nat (m !! k))]> m.

Definition tally (acc : summary) (d : user) : summary :=
  let v := default false (isVerified d) in
  let c := default false (isProfileComplete d) in
  let spec :=
    match specialization d with
    | Some s => if Js.truthy s then s else "Other"
    | None => "Other"
    end in
  {| s_total := S (s_total acc);
     s_verified := if v then S (s_verified acc) else s_verified acc;
     s_unverified := if v then s_unverified acc else S (s_unverified acc);
     s_profileComplete := if c then S (s_profileComplete acc) else s_profileComplete acc;
     s_profileIncomplete := if c then s_profileIncomplete acc else S (s_profileIncomplete acc);
     s_totalPatients := s_totalPatients acc;
     s_specializationBreakdown := bump spec (s_specializationBreakdown acc) |}.

(** [totalPatients += patientsSnapshot.size], one [in] query per chunk. *)
Fixpoint total_patients (chunks : list (list (option string))) (db : list user)
    (totalPatients : nat) (log : list read) : option nat * list read :=
  match chunks with
  | [] => (Some totalPatients, log)
  | chunk :: rest =>
      match all_defined chunk with
      | None => (None, log)
      | Some ids =>
          let q := patients_of ids in
          total_patients rest db (totalPatients + List.length (get q db))%nat
            (log ++ [query_get q])
      end
  end.

Definition getTherapistsSummary (now : Z)
    (cache : gmap string (entry payload)) (db : list user)
    : outcome payload * gmap string (entry payload) * list read :=
  let cacheKey := "therapists_summary" in
  match getCachedData cacheKey now cache with
  | Some cachedResult => (Ok cachedResult, cache, [])
  | None =>
      let therapistsQuery := where_ (where_role "professional") collection in
      let docs := get therapistsQuery db in
      let acc := foldl tally (Summary 0 0 0 0 0 0 ∅) docs in
      let therapistUids := map uid docs in
      match total_patients (make_chunks therapistUids) db 0 [query_get therapistsQuery] with
      | (None, log) => (Failed 500 summary_failure, cache, log)
      | (Some totalPatients, log) =>
          let s :=
            {| s_total := s_total acc; s_verified := s_verified acc;
               s_unverified := s_unverified acc;
               s_profileComplete := s_profileComplete acc;
               s_profileIncomplete := s_profileIncomplete acc;
               s_totalPatients := totalPatients;
               s_specializationBreakdown := s_specializationBreakdown acc |} in
          (Ok (summary_data s), setCachedData cacheKey (summary_data s) now cache, log)
      end
  end.

(** [assignPatientsToTherapist]: the writes of the batch. *)
Definition unassign (now : Z) (d : user) : user :=
  {| id := id d; role := role d; uid := uid d; name := name d; email := email d;
     title := title d; specialization := specialization d; bio := bio d;
     experience := experience d; isVerified := isVerified d;
     isProfileComplete := isProfileComplete d;
     assignedTherapist := None;
     assignedTherapistInfo := None;
     assigned_therapist := assigned_therapist d; flags := flags d;
     documents := documents d; age := age d; gender := gender d;
     concerns := concerns d; emergencyContact := emergencyContact d;
     createdAt := createdAt d;
     updatedAt := Some now |}.

Definition assign (u : string) (info : therapistInfo) (now : Z) (d : user) : user :=
  {| id := id d; role := role d; uid := uid d; name := name d; email := email d;
     title := title d; specialization := specialization d; bio := bio d;
     experience := experience d; isVerified := isVerified d;
     isProfileComplete := isProfileComplete d;
     assignedTherapist := Some u;
     assignedTherapistInfo := Some info;
     assigned_therapist := assigned_therapist d; flags := flags d;
     documents := documents d; age := age d; gender := gender d;
     concerns := concerns d; emergencyContact := emergencyContact d;
     createdAt := createdAt d;
     updatedAt := Some now |}.

Definition touch (now : Z) (d : user) : user :=
  {| id := id d; role := role d; uid := uid d; name := name d; email := email d;
     title := title d; specialization := specialization d; bio := bio d;
     experience := experience d; isVerified := isVerified d;
     isProfileComplete := isProfileComplete d;
     assignedTherapist := assignedTherapist d;
     assignedTherapistInfo := assignedTherapistInfo d;
     assigned_therapist := assigned_therapist d; flags := flags d;
     documents := documents d; age := age d; gender := gender d;
     concerns := concerns d; emergencyContact := emergencyContact d;
     createdAt := createdAt d;
     updatedAt := Some now |}.

(** The snapshot written next to the reference; the store rejects an
    update that holds an [undefined] value. *)
Definition snapshot_of (u : string) (therapistData : user) : option therapistInfo :=
  match name therapistData, email therapistData, title therapistData,
        specialization therapistData with
  | Some n, Some e, Some t, Some s => Some (TherapistInfo u n e t s)
  | _, _, _, _ => None
  end.

Record assigned := Assigned { message : string; assignedCount : nat }.

Definition assign_failure : string := "Failed to assign patients".

Definition currently_assigned (u : string) : query :=
  where_ (where_assignedTherapist u) (where_ (where_role "patient") collection).

Definition assignPatientsToTherapist (i : string) (patientIds : option (list string))
    (now : Z) (cache : gmap string (entry payload)) (db : list user)
    : outcome assigned * gmap string (entry payload) * list user :=
  match doc i db with
  | None => (Failed 404 "Therapist not found", cache, db)
  | Some therapistData =>
      if negb (bool_decide (role therapistData = Some "professional"))
      then (Failed 404 "Therapist not found", cache, db)
      else
        match uid therapistData with
        | None => (Failed 500 assign_failure, cache, db)
        | Some u =>
            let currentPatients := get (currently_assigned u) db in
            let clears : batch := map (fun d => (id d, unassign now)) currentPatients in
            let ids := default [] patientIds in
            let assigns : option batch :=
              match ids with
              | [] => Some []
              | _ =>
                  match snapshot_of u therapistData with
                  | Some info => Some (map (fun p => (p, assign u info now)) ids)
                  | None => None
                  end
              end in
            match assigns with
            | None => (Failed 500 assign_failure, cache, db)
            | Some assigns =>
                match commit (clears ++ assigns ++ [(i, touch now)]) db with
                | None => (Failed 500 assign_failure, cache, db)
                | Some db' =>
                    (Ok {| message :=
                             "Successfully " +:+
                             (match ids with [] => "unassigned" | _ => "assigned" end)
                             +:+ " patients";
                           assignedCount := List.length ids |},
                     ∅, db')
                end
            end
        end
  end.

(** [createTherapist]; [newId] is the identifier the store generates for
    the added document. *)
Record newTherapist := NewTherapist {
  n_uid : option string;
  n_name : option string;
  n_email : option string;
  n_title : option string;
  n_specialization : option string;
  n_bio : option string;
  n_experience : option Z;
}.

Definition create_failure : string := "Failed to create therapist".

Definition createTherapist (body : newTherapist) (newId : string) (now : Z)
    (cache : gmap string (entry payload)) (db : list user)
    : outcome therapist * gmap string (entry payload) * list user :=
  match n_email body with
  | None => (Failed 500 create_failure, cache, db)
  | Some e =>
      match get (where_ (where_email e) collection) db with
      | _ :: _ => (Failed 400 "Email already exists", cache, db)
      | [] =>
          let taken :=
            match n_uid body with
            | Some u =>
                if Js.truthy u
                then negb (bool_decide (get (where_ (where_uid u) collection) db = []))
                else false
            | None => false
            end in
          if taken then (Failed 400 "UID already exists", cache, db)
          else
            match n_name body, n_specialization body with
            | Some n, Some sp =>
                let therapistData :=
                  {| id := newId;
                     role := Some "professional";
                     uid := Some (if Js.truthy_opt (n_uid body)
                                  then default EmptyString (n_uid body)
                                  else "therapist_" +:+ pretty now);
                     name := Some n;
                     email := Some e;
                     title := Some (default EmptyString (n_title body));
                     specialization := Some sp;
                     bio := Some (default EmptyString (n_bio body));
                     experience := Some (default 0 (n_experience body));
                     isVerified := Some false;
                     isProfileComplete := Some false;
                     assignedTherapist := None;
                     assignedTherapistInfo := None;
                     assigned_therapist := None;
                     flags := None;
                     documents := None;
                     age := None; gender := None; concerns := None;
                     emergencyContact := None;
                     createdAt := Some now;
                     updatedAt := Some now |} in
                (Ok (transformTherapistData therapistData), ∅, db ++ [therapistData])
            | _, _ => (Failed 500 create_failure, cache, db)
            end
      end
  end.

(** [getTherapistById]. The patients are read with
    [select('name', 'email', 'createdAt', 'phone')]; [phone] is not a
    field of the model. *)
Record patientInfo := PatientInfo {
  pi_id : string;
  pi_name : option string;
  pi_email : option string;
  pi_createdAt : option Z;
}.

Record detail := Detail {
  d_therapist : therapist;
  assignedPatientsInfo : list patientInfo;
}.

Definition detail_failure : string := "Failed to fetch therapist".

Definition set_count (n : nat) (t : therapist) : therapist :=
  {| t_id := t_id t; t_uid := t_uid t; t_name := t_name t; t_email := t_email t;
     t_title := t_title t; t_specialization := t_specialization t;
     t_bio := t_bio t; t_experience := t_experience t;
     t_isVerified := t_isVerified t;
     t_isProfileComplete := t_isProfileComplete t; t_role := t_role t;
     t_createdAt := t_createdAt t; t_updatedAt := t_updatedAt t;
     assignedPatientsCount := Some n |}.

Definition getTherapistById (i : string) (db : list user)
    : outcome detail * list read :=
  match doc i db with
  | None => (Failed 404 "Therapist not found", [doc_get i])
  | Some therapistDoc =>
      let therapistData := transformTherapistData therapistDoc in
      if negb (bool_decide (t_role therapistData = Some "professional"))
      then (Failed 404 "Therapist not found", [doc_get i])
      else
        match t_uid therapistData with
        | None => (Failed 500 detail_failure, [doc_get i])
        | Some u =>
            let patientsQuery := limit_ 20 (currently_assigned u) in
            let docs := get patientsQuery db in
            (Ok {| d_therapist := set_count (List.length docs) therapistData;
                   assignedPatientsInfo :=
                     map (fun d => PatientInfo (id d) (name d) (email d) (createdAt d))
                         docs |},
             [doc_get i; query_get patientsQuery])
        end
  end.

(** [deleteTherapist]: its four answers, with status 200, 404, 400
    and 500. *)
Inductive deletion :=
| deleted
| therapist_not_found
| has_assigned_patients (assignedPatientsCount : nat)
| delete_failed.

Definition deleteTherapist (i : string)
    (cache : gmap string (entry payload)) (db : list user)
    : deletion * gmap string (entry payload) * list user :=
  match doc i db with
  | None => (therapist_not_found, cache, db)
  | Some therapistData =>
      if negb (bool_decide (role therapistData = Some "professional"))
      then (therapist_not_found, cache, db)
      else
        match uid therapistData with
        | None => (delete_failed, cache, db)
        | Some u =>
            match get (currently_assigned u) db with
            | [] => (deleted, ∅, delete i db)
            | patients => (has_assigned_patients (List.length patients), cache, db)
            end
        end
  end.

(** [batchUpdateTherapists]. The fields of [updateData] the model has;
    [None] is a field the body does not have. [therapistIds] is [None]
    when the body has no such array. *)
Record therapistUpdate := TherapistUpdate {
  b_name : option string;
  b_email : option string;
  b_title : option string;
  b_specialization : option string;
  b_bio : option string;
  b_experience : option Z;
  b_isVerified : option bool;
  b_isProfileComplete : option bool;
}.

Definition over {A} (new old : option A) : option A :=
  match new with Some v => Some v | None => old end.

Definition apply_update (upd : therapistUpdate) (now : Z) (d : user) : user :=
  {| id := id d; role := role d; uid := uid d;
     name := over (b_name upd) (name d);
     email := over (b_email upd) (email d);
     title := over (b_title upd) (title d);
     specialization := over (b_specialization upd) (specialization d);
     bio := over (b_bio upd) (bio d);
     experience := over (b_experience upd) (experience d);
     isVerified := over (b_isVerified upd) (isVerified d);
     isProfileComplete := over (b_isProfileComplete upd) (isProfileComplete d);
     assignedTherapist := assignedTherapist d;
     assignedTherapistInfo := assignedTherapistInfo d;
     assigned_therapist := assigned_therapist d; flags := flags d;
     documents := documents d; age := age d; gender := gender d;
     concerns := concerns d; emergencyContact := emergencyContact d;
     createdAt := createdAt d;
     updatedAt := Some now |}.

Definition batch_failure : string := "Failed to update therapists".

Definition batchUpdateTherapists (therapistIds : option (list string))
    (updateData : option therapistUpdate) (now : Z)
    (cache : gmap string (entry payload)) (db : list user)
    : outcome string * gmap string (entry payload) * list user :=
  match therapistIds with
  | None | Some [] => (Failed 400 "Invalid therapist IDs provided", cache, db)
  | Some ids =>
      match updateData with
      | None => (Failed 500 batch_failure, cache, db)
      | Some upd =>
          match commit (map (fun i => (i, apply_update upd now)) ids) db with
          | None => (Failed 500 batch_failure, cache, db)
          | Some db' =>
              (Ok ("Successfully updated " +:+ pretty (List.length ids)
                   +:+ " therapists"),
               ∅, db')
          end
      end
  end.

(** [getTherapistSpecializations]: the body of the [try] block, which
    computes the array the handler caches and returns. *)
Definition add_specialization (specializations : list string) (d : user)
    : list string :=
  match specialization d with
  | Some s =>
      if Js.truthy s then Js.set_add (Js.trim s) specializations
      else specializations
  | None => specializations
  end.

Definition fetchSpecializations (db : list user) : list string * list read :=
  let therapistsQuery := where_ (where_role "professional") collection in
  (Js.sort (foldl add_specialization [] (get therapistsQuery db)),
   [query_get therapistsQuery]).

End TherapistController.

(** ** src/controllers/therapistController.js, patient part *)

Module PatientController.

Import Firestore.

Definition CACHE_TTL : Z := 5 * 60 * 1000.

Record therapistRef := TherapistRef {
  r_id : string;
  r_full_name : option string;
  r_email : option string;
}.

(** A patient as the endpoints return it: the stored fields (with the
    identifier) and the compatibility fields added to them. The constant
    or calendar-derived shims ([phone], [notes], [dob]) are left out. *)
Record patient := Patient {
  stored : user;
  full_name : option string;
  created_at : option Z;
  updated_at : option Z;
  assigned_therapist_info : option therapistRef;
}.

Record page := Page {
  patients : list patient;
  hasMore : bool;
  lastDocId : option string;
  total : nat;
}.

Record summary := Summary {
  s_total : nat;
  s_complete : nat;
  s_flagged : nat;
  s_incomplete : nat;
  s_active : nat;
  s_inactive : nat;
}.

Inductive payload :=
| page_data (p : page)
| summary_data (s : summary).

(** A thrown error reaches the error middleware, which answers with the
    status set so far (none here, hence 500) and the message. *)
Definition throw {A} (msg : string) : outcome A := Failed 500 msg.

(** [getCachedData(key, fetchFunction, ttl)]; [fetched] is what
    [fetchFunction()] yields in the current store: its result and the
    reads it performs. *)
Definition getCachedData (key : string) (fetched : outcome payload * list read)
    (ttl : Z) (now : Z) (cache : gmap string (entry payload))
    : outcome payload * gmap string (entry payload) * list read :=
  let run :=
    match fetched with
    | (Ok d, log) => (Ok d, <[key := Entry d now]> cache, log)
    | (Failed st msg, log) => (Failed st msg, cache, log)
    end in
  match cache !! key with
  | Some cached =>
      if now - timestamp cached <? ttl then (Ok (data cached), cache, []) else run
  | None => run
  end.

(** [clearCache(pattern)]. *)
Definition clearCache (pattern : string)
    (cache : gmap string (entry payload)) : gmap string (entry payload) :=
  foldl (fun c key => if Js.includes key pattern then base.delete key c else c)
        cache (map fst (map_to_list cache)).

(** [getPatients]. *)
Definition list_query (profileComplete therapistId : option string) : query :=
  let q := where_ (where_role "patient") collection in
  let q :=
    match profileComplete with
    | Some pc =>
        if negb (bool_decide (pc = EmptyString))
        then where_ (where_isProfileComplete (bool_decide (pc = "true"))) q
        else q
    | None => q
    end in
  let q :=
    match therapistId with
    | Some t => if Js.truthy t then where_ (where_assigned_therapist t) q else q
    | None => q
    end in
  orderBy_ createdAt_desc q.

Definition to_patient (d : user) : patient :=
  {| stored := d;
     full_name := name d;
     created_at := createdAt d;
     updated_at := updatedAt d;
     assigned_therapist_info := None |}.

(** [therapistIds.add(x)] on a [Set], kept in insertion order. *)
Definition set_add (x : string) (s : list string) : list string :=
  if bool_decide (x ∈ s) then s else s ++ [x].

Definition collect (therapistIds : list string) (d : user) : list string :=
  match assigned_therapist d with
  | Some t => if Js.truthy t then set_add t therapistIds else therapistIds
  | None => therapistIds
  end.

Definition attach (therapistMap : gmap string therapistRef) (p : patient) : patient :=
  match assigned_therapist (stored p) with
  | Some t =>
      if Js.truthy t then
        match therapistMap !! t with
        | Some r =>
            {| stored := stored p; full_name := full_name p;
               created_at := created_at p; updated_at := updated_at p;
               assigned_therapist_info := Some r |}
        | None => p
        end
      else p
  | None => p
  end.

(** [patient.name.toLowerCase().includes(searchTerm) ||
     patient.email.toLowerCase().includes(searchTerm)]; [None] when the
    field read is [undefined] and the call throws. *)
Definition keyword_filter (searchTerm : string) (p : patient) : option bool :=
  match name (stored p) with
  | None => None
  | Some n =>
      if Js.includes (Js.toLowerCase n) searchTerm then Some true
      else
        match email (stored p) with
        | None => None
        | Some e => Some (Js.includes (Js.toLowerCase e) searchTerm)
        end
  end.

(** [Array.prototype.filter] with a callback that may throw. *)
Fixpoint filter_throwing {A} (f : A -> option bool) (l : list A) : option (list A) :=
  match l with
  | [] => Some []
  | x :: rest =>
      match f x with
      | None => None
      | Some b =>
          match filter_throwing f rest with
          | None => None
          | Some ys => Some (if b then x :: ys else ys)
          end
      end
  end.

Definition drop_extra {A} (pageSize : nat) (docs : list A) : bool * list A :=
  if (pageSize <? List.length docs)%nat then (true, removelast docs) else (false, docs).

(** The messages of the two errors thrown inside [fetchPatients], without
    the name of the property or field they end with. *)
Definition type_error : string := "Cannot read properties of undefined".

Definition cursor_error : string := "Field is missing in the provided DocumentSnapshot".

(** The list query positioned after the cursor document, when [lastDocId]
    names an existing document; the second component is the document read
    that resolves the cursor. Whether the store takes the document as a
    cursor is [cursor_refused]. *)
Definition with_cursor (lastDocId : option string) (db : list user) (q : query)
    : query * list read :=
  match lastDocId with
  | Some c =>
      if Js.truthy c
      then ((if exists_ c db then startAfter_ c q else q), [doc_get c])
      else (q, [])
  | None => (q, [])
  end.

(** [query.startAfter(lastDoc)] throws: the cursor document exists and
    has no value for the field the list is ordered by. *)
Definition cursor_refused (lastDocId : option string) (db : list user) (q : query)
    : bool :=
  match lastDocId with
  | Some c =>
      Js.truthy c
      && match doc c db with
         | Some lastDoc => negb (accepts_cursor q lastDoc)
         | None => false
         end
  | None => false
  end.

(** [getPatients]: the function [fetchPatients] that it hands to
    [getCachedData]; [pageSize] is [Number(req.query.pageSize) || 10], a
    natural number here. Its errors leave the handler as they are thrown. *)
Definition fetchPatients (pageSize : nat)
    (lastDocId keyword profileComplete therapistId : option string)
    (db : list user) : outcome payload * list read :=
  let '(q, log) := with_cursor lastDocId db (list_query profileComplete therapistId) in
  if cursor_refused lastDocId db (list_query profileComplete therapistId)
  then (throw cursor_error, log)
  else
  let q := limit_ (pageSize + 1) q in
  let '(hasMore, docs) := drop_extra pageSize (get q db) in
  let log := log ++ [query_get q] in
  let patientData := map to_patient docs in
  let therapistIds := foldl collect [] docs in
  let therapistMap : gmap string therapistRef := ∅ in
  match therapistIds with
  | _ :: _ =>
      (* [db.FieldPath.documentId()]: [db] is the Firestore instance that
         [config/firebase.js] exports, [FieldPath] is a static of the
         module and no property of the instance, so the argument of
         [where] throws a TypeError before the lookup is built or sent. *)
      (throw type_error, log)
  | [] =>
      let patientData := map (attach therapistMap) patientData in
      let filteredPatients :=
        match keyword with
        | Some kw =>
            if Js.truthy kw
            then filter_throwing (keyword_filter (Js.toLowerCase kw)) patientData
            else Some patientData
        | None => Some patientData
        end in
      match filteredPatients with
      | None => (throw type_error, log)
      | Some filteredPatients =>
          (Ok (page_data
                 {| patients := filteredPatients;
                    hasMore := hasMore;
                    lastDocId := (fun p => id (stored p)) <$> last patientData;
                    total := List.length filteredPatients |}),
           log)
      end
  end.

Definition or_else (o : option string) (d : string) : string :=
  match o with
  | Some s => if Js.truthy s then s else d
  | None => d
  end.

Definition getPatients (query : list (string * string)) (now : Z)
    (cache : gmap string (entry payload)) (db : list user)
    : outcome payload * gmap string (entry payload) * list read :=
  let pageSize :=
    match Js.prop "pageSize" query with
    | Some s =>
        match Js.Number s with
        | Some (S n) => S n
        | _ => 10%nat
        end
    | None => 10%nat
    end in
  let lastDocId := Js.prop "lastDocId" query in
  let keyword := Js.prop "keyword" query in
  let profileComplete := Js.prop "profileComplete" query in
  let therapistId := Js.prop "therapistId" query in
  let cacheKey :=
    "patients_" +:+ pretty pageSize +:+ "_" +:+ or_else lastDocId "start"
    +:+ "_" +:+ or_else keyword EmptyString
    +:+ "_" +:+ or_else profileComplete EmptyString
    +:+ "_" +:+ or_else therapistId EmptyString in
  getCachedData cacheKey
    (fetchPatients pageSize lastDocId keyword profileComplete therapistId db)
    CACHE_TTL now cache.

(** [getPatientsSummary]: cached for ten minutes. *)
Definition fetchSummary (db : list user) : outcome payload * list read :=
  let totalQuery := where_ (where_role "patient") collection in
  let completeQuery := where_ (where_isProfileComplete true) totalQuery in
  let flaggedQuery := where_ where_flags_not_empty totalQuery in
  let total := List.length (get totalQuery db) in
  let complete := List.length (get completeQuery db) in
  let flagged := List.length (get flaggedQuery db) in
  (Ok (summary_data
         {| s_total := total; s_complete := complete; s_flagged := flagged;
            s_incomplete := total - complete;
            s_active := complete; s_inactive := total - complete |}),
   [query_get totalQuery; query_get completeQuery; query_get flaggedQuery]).

Definition getPatientsSummary (now : Z)
    (cache : gmap string (entry payload)) (db : list user)
    : outcome payload * gmap string (entry payload) * list read :=
  getCachedData "patients_summary" (fetchSummary db) (10 * 60 * 1000) now cache.

(** The cache invalidation every patient mutation ends with. *)
Definition clear_patient (i : string)
    (cache : gmap string (entry payload)) : gmap string (entry payload) :=
  clearCache "patients" (clearCache ("patient_" +:+ i) cache).

Definition is_patient (d : user) : bool := bool_decide (role d = Some "patient").

(** [updatePatient]. The request body; [None] is a field the body does
    not have, and [Some None] for [assigned_therapist] is [null]. *)
Record patientUpdate := PatientUpdate {
  u_name : option string;
  u_email : option string;
  u_age : option Js.value;
  u_gender : option Js.value;
  u_concerns : option Js.value;
  u_emergencyContact : option Js.value;
  u_assigned_therapist : option (option string);
  u_flags : option (list string);
  u_documents : option (list string);
}.

(** [x !== undefined && x !== current] for a string field. *)
Definition changed_str (x cur : option string) : option string :=
  match x with
  | Some v => if bool_decide (cur = Some v) then None else Some v
  | None => None
  end.

(** The same for a field that holds an arbitrary value. *)
Definition changed_val (x cur : option Js.value) : option Js.value :=
  match x with
  | Some v =>
      match cur with
      | Some c => if Js.strict_eq v c then None else Some v
      | None => Some v
      end
  | None => None
  end.

(** [updateData] without its [updatedAt]. *)
Definition updateData (body : patientUpdate) (currentData : user) : patientUpdate :=
  {| u_name := changed_str (u_name body) (name currentData);
     u_email := changed_str (u_email body) (email currentData);
     u_age := changed_val (u_age body) (age currentData);
     u_gender := changed_val (u_gender body) (gender currentData);
     u_concerns := changed_val (u_concerns body) (concerns currentData);
     u_emergencyContact :=
       changed_val (u_emergencyContact body) (emergencyContact currentData);
     u_assigned_therapist := u_assigned_therapist body;
     u_flags := u_flags body;
     u_documents := u_documents body |}.

Definition count_if {A} (o : option A) : nat :=
  match o with Some _ => 1 | None => 0 end.

(** [Object.keys(updateData).length], [updatedAt] included. *)
Definition keys_length (upd : patientUpdate) : nat :=
  (1 + count_if (u_name upd) + count_if (u_email upd) + count_if (u_age upd)
   + count_if (u_gender upd) + count_if (u_concerns upd)
   + count_if (u_emergencyContact upd) + count_if (u_assigned_therapist upd)
   + count_if (u_flags upd) + count_if (u_documents upd))%nat.

Definition over {A} (new old : option A) : option A :=
  match new with Some v => Some v | None => old end.

(** [{ ...d, ...updateData }]: what [transaction.update] writes, and what
    the response is built from. *)
Definition merge_update (upd : patientUpdate) (now : Z) (d : user) : user :=
  {| id := id d; role := role d; uid := uid d;
     name := over (u_name upd) (name d);
     email := over (u_email upd) (email d);
     title := title d; specialization := specialization d; bio := bio d;
     experience := experience d; isVerified := isVerified d;
     isProfileComplete := isProfileComplete d;
     assignedTherapist := assignedTherapist d;
     assignedTherapistInfo := assignedTherapistInfo d;
     assigned_therapist :=
       match u_assigned_therapist upd with
       | Some v => v
       | None => assigned_therapist d
       end;
     flags := over (u_flags upd) (flags d);
     documents := over (u_documents upd) (documents d);
     age := over (u_age upd) (age d);
     gender := over (u_gender upd) (gender d);
     concerns := over (u_concerns upd) (concerns d);
     emergencyContact := over (u_emergencyContact upd) (emergencyContact d);
     createdAt := createdAt d;
     updatedAt := Some now |}.

Definition updatePatient (i : string) (body : patientUpdate) (now : Z)
    (cache : gmap string (entry payload)) (db : list user)
    : outcome patient * gmap string (entry payload) * list user :=
  match doc i db with
  | None => (throw "Patient not found", cache, db)
  | Some currentData =>
      if negb (is_patient currentData) then (throw "Patient not found", cache, db)
      else
        let upd := updateData body currentData in
        let db' :=
          if (1 <? keys_length upd)%nat then update i (merge_update upd now) db
          else db in
        let resultData := merge_update upd now currentData in
        (Ok {| stored := resultData;
               full_name := name resultData;
               created_at := createdAt resultData;
               updated_at := updatedAt resultData;
               assigned_therapist_info := None |},
         clear_patient i cache, db')
  end.

(** [assignTherapistToPatient]. *)
Definition set_assigned_therapist (t : string) (updated : option Z) (d : user) : user :=
  {| id := id d; role := role d; uid := uid d; name := name d; email := email d;
     title := title d; specialization := specialization d; bio := bio d;
     experience := experience d; isVerified := isVerified d;
     isProfileComplete := isProfileComplete d;
     assignedTherapist := assignedTherapist d;
     assignedTherapistInfo := assignedTherapistInfo d;
     assigned_therapist := Some t;
     flags := flags d; documents := documents d; age := age d;
     gender := gender d; concerns := concerns d;
     emergencyContact := emergencyContact d;
     createdAt := createdAt d;
     updatedAt := updated |}.

Definition assignTherapistToPatient (i : string) (therapistId : option string)
    (now : Z) (cache : gmap string (entry payload)) (db : list user)
    : outcome patient * gmap string (entry payload) * list user :=
  match doc i db with
  | None => (throw "Patient not found", cache, db)
  | Some patientData =>
      if negb (is_patient patientData) then (throw "Patient not found", cache, db)
      else
        match therapistId with
        | None => (throw "Invalid document path", cache, db)
        | Some EmptyString => (throw "Invalid document path", cache, db)
        | Some t =>
            match doc t db with
            | None => (throw "Invalid therapist ID", cache, db)
            | Some therapistData =>
                if negb (bool_decide (role therapistData = Some "professional"))
                then (throw "Invalid therapist ID", cache, db)
                else
                  let resultData :=
                    set_assigned_therapist t (updatedAt patientData) patientData in
                  (Ok {| stored := resultData;
                         full_name := name resultData;
                         created_at := createdAt resultData;
                         updated_at := Some now;
                         assigned_therapist_info := None |},
                   clear_patient i cache,
                   update i (fun d => set_assigned_therapist t (Some now) d) db)
            end
        end
  end.

(** [flagPatient]. *)
Definition set_flags (fl : list string) (updated : option Z) (d : user) : user :=
  {| id := id d; role := role d; uid := uid d; name := name d; email := email d;
     title := title d; specialization := specialization d; bio := bio d;
     experience := experience d; isVerified := isVerified d;
     isProfileComplete := isProfileComplete d;
     assignedTherapist := assignedTherapist d;
     assignedTherapistInfo := assignedTherapistInfo d;
     assigned_therapist := assigned_therapist d;
     flags := Some fl;
     documents := documents d; age := age d;
     gender := gender d; concerns := concerns d;
     emergencyContact := emergencyContact d;
     createdAt := createdAt d;
     updatedAt := updated |}.

Definition flagPatient (i : string) (flag : string)
    (now : Z) (cache : gmap string (entry payload)) (db : list user)
    : outcome patient * gmap string (entry payload) * list user :=
  match doc i db with
  | None => (throw "Patient not found", cache, db)
  | Some patientData =>
      if negb (is_patient patientData) then (throw "Patient not found", cache, db)
      else
        let currentFlags := default [] (flags patientData) in
        let db' :=
          if negb (bool_decide (flag ∈ currentFlags))
          then update i (set_flags (currentFlags ++ [flag]) (Some now)) db
          else db in
        let resultData :=
          set_flags (currentFlags ++ [flag]) (updatedAt patientData) patientData in
        (Ok {| stored := resultData;
               full_name := name resultData;
               created_at := createdAt resultData;
               updated_at := Some now;
               assigned_therapist_info := None |},
         clear_patient i cache, db')
  end.

(** [createPatient]; [newId] is the identifier the store generates for the
    added document. The answer has status 201. *)
Record newPatient := NewPatient {
  c_name : option string;
  c_email : option string;
  c_age : option Js.value;
  c_gender : option Js.value;
  c_concerns : option Js.value;
  c_emergencyContact : option Js.value;
}.

Definition undefined_value : string := "Cannot use undefined as a Firestore value".

Definition patient_with_email (e : string) : query :=
  limit_ 1 (where_ (where_email e) (where_ (where_role "patient") collection)).

Definition createPatient (body : newPatient) (newId : string) (now : Z)
    (cache : gmap string (entry payload)) (db : list user)
    : outcome user * gmap string (entry payload) * list user :=
  match c_email body with
  | None => (throw undefined_value, cache, db)
  | Some e =>
      match get (patient_with_email e) db with
      | _ :: _ => (Failed 400 "Patient with this email already exists", cache, db)
      | [] =>
          match c_name body with
          | None => (throw undefined_value, cache, db)
          | Some n =>
              let patientData :=
                {| id := newId;
                   role := Some "patient";
                   uid := None;
                   name := Some n;
                   email := Some e;
                   title := None; specialization := None; bio := None;
                   experience := None; isVerified := None;
                   isProfileComplete := Some true;
                   assignedTherapist := None;
                   assignedTherapistInfo := None;
                   assigned_therapist := None;
                   flags := Some [];
                   documents := Some [];
                   age := Some (Js.or_null (c_age body));
                   gender := Some (Js.or_null (c_gender body));
                   concerns := Some (Js.or_null (c_concerns body));
                   emergencyContact := Some (Js.or_null (c_emergencyContact body));
                   createdAt := Some now;
                   updatedAt := Some now |} in
              (Ok patientData, clearCache "patients" cache, db ++ [patientData])
          end
      end
  end.

(** [deletePatient]. *)
Definition deletePatient (i : string)
    (cache : gmap string (entry payload)) (db : list user)
    : outcome string * gmap string (entry payload) * list user :=
  match doc i db with
  | None => (throw "Patient not found", cache, db)
  | Some patientData =>
      if negb (is_patient patientData) then (throw "Patient not found", cache, db)
      else (Ok "Patient removed", clear_patient i cache, delete i db)
  end.

(** [uploadPatientDocument]. *)
Definition set_documents (docs : list string) (updated : option Z) (d : user) : user :=
  {| id := id d; role := role d; uid := uid d; name := name d; email := email d;
     title := title d; specialization := specialization d; bio := bio d;
     experience := experience d; isVerified := isVerified d;
     isProfileComplete := isProfileComplete d;
     assignedTherapist := assignedTherapist d;
     assignedTherapistInfo := assignedTherapistInfo d;
     assigned_therapist := assigned_therapist d;
     flags := flags d;
     documents := Some docs; age := age d;
     gender := gender d; concerns := concerns d;
     emergencyContact := emergencyContact d;
     createdAt := createdAt d;
     updatedAt := updated |}.

Definition uploadPatientDocument (i : string) (documentUrl : string)
    (now : Z) (cache : gmap string (entry payload)) (db : list user)
    : outcome patient * gmap string (entry payload) * list user :=
  match doc i db with
  | None => (throw "Patient not found", cache, db)
  | Some patientData =>
      if negb (is_patient patientData) then (throw "Patient not found", cache, db)
      else
        let currentDocuments := default [] (documents patientData) in
        let resultData :=
          set_documents (currentDocuments ++ [documentUrl]) (updatedAt patientData)
            patientData in
        (Ok {| stored := resultData;
               full_name := name resultData;
               created_at := createdAt resultData;
               updated_at := Some now;
               assigned_therapist_info := None |},
         clear_patient i cache,
         update i (set_documents (currentDocuments ++ [documentUrl]) (Some now)) db)
  end.

(** [batchUpdatePatients]. [patientIds] is [None] when the body has no
    such array; [updateData] is a body of the shape [updatePatient] takes,
    [None] when the body has none. *)
Record batchResult := BatchResult { b_message : string; updatedCount : nat }.

Definition no_update : patientUpdate :=
  PatientUpdate None None None None None None None None None.

Definition batchUpdatePatients (patientIds : option (list string))
    (updateData : option patientUpdate) (now : Z)
    (cache : gmap string (entry payload)) (db : list user)
    : outcome batchResult * gmap string (entry payload) * list user :=
  match patientIds with
  | None | Some [] => (Failed 400 "Patient IDs array is required", cache, db)
  | Some ids =>
      let fields := default no_update updateData in
      match commit (map (fun i => (i, merge_update fields now)) ids) db with
      | None => (throw "No document to update", cache, db)
      | Some db' =>
          (Ok {| b_message :=
                   "Successfully updated " +:+ pretty (List.length ids)
                   +:+ " patients";
                 updatedCount := List.length ids |},
           clearCache "patients" cache, db')
      end
  end.

End PatientController.

(** ** src/routes/therapistRoutes.js

    The list and summary routes put [cacheMiddleware] in front of the
    controller; the mutating routes call the controller directly. The
    authentication and authorization middlewares are taken to let the
    request through. *)

Module TherapistRoutes.

Import CacheMiddleware.

Record state := State {
  users : list user;
  controller_cache : gmap string (entry TherapistController.payload);
  route_cache : gmap string (entry (outcome TherapistController.payload));
}.

(** The arguments the router passes to [cacheMiddleware]. *)
Definition list_ttl : Z := 300.
Definition summary_ttl : Z := 600.
Definition specializations_ttl : Z := 1800.
Definition detail_ttl : Z := 300.

(** [res.json(cached.data)] on a hit: the middleware stored the body
    only, and sends it with the status of a fresh response, 200, also when
    it is the body of a failure. *)
Definition replayed {A} (body : outcome A) : outcome A :=
  match body with
  | Ok d => Ok d
  | Failed _ msg => Failed 200 msg
  end.

(** A cached route; [ran] tells whether the controller was reached or the
    middleware answered from its cache. *)
Definition behind_cache (ttl : Z) (req : request) (now : Z)
    (handler : gmap string (entry TherapistController.payload) -> list user ->
               outcome TherapistController.payload
               * gmap string (entry TherapistController.payload) * list read)
    (st : state) : outcome TherapistController.payload * list read * state :=
  let '(body, rc, (cc, log, ran)) :=
    cacheMiddleware ttl req now
      (fun s =>
         let '(body, cc, log) := handler (fst (fst s)) (users st) in
         (body, (cc, log, true)))
      (route_cache st) (controller_cache st, [], false) in
  ((if ran then body else replayed body), log, State (users st) cc rc).

(** [GET /api/therapists]. *)
Definition get_therapists (req : request) (now : Z) (st : state)
    : outcome TherapistController.payload * list read * state :=
  behind_cache list_ttl req now
    (TherapistController.getTherapists (query req) now) st.

(** [GET /api/therapists/summary]. *)
Definition get_summary (req : request) (now : Z) (st : state)
    : outcome TherapistController.payload * list read * state :=
  behind_cache summary_ttl req now
    (TherapistController.getTherapistsSummary now) st.

(** [POST /api/therapists]. *)
Definition post_therapist (body : TherapistController.newTherapist)
    (newId : string) (now : Z) (st : state)
    : outcome TherapistController.therapist * state :=
  let '(r, cc, db) :=
    TherapistController.createTherapist body newId now
      (controller_cache st) (users st) in
  (r, State db cc (route_cache st)).

(** [PUT /api/therapists/:id/assign-patients]. *)
Definition put_assign_patients (i : string) (patientIds : option (list string))
    (now : Z) (st : state) : outcome TherapistController.assigned * state :=
  let '(r, cc, db) :=
    TherapistController.assignPatientsToTherapist i patientIds now
      (controller_cache st) (users st) in
  (r, State db cc (route_cache st)).

End TherapistRoutes.

(** ** The route tables and the authorization middleware

    [authorize] is the second half of [src/middleware/cacheMiddleware.js];
    the tables are those of [src/routes/patientRoutes.js] and
    [src/routes/therapistRoutes.js], in the order in which the routes are
    registered. [protect] has put the authenticated administrator, if any,
    in [req.user]. A path is the list of its segments below the mount
    point of the router. *)

Module Router.

(** [authorize(...roles)]: the request goes on to the handler, or is
    refused with status 403. *)
Definition authorize (roles : list string) (user : option string) : outcome unit :=
  match user with
  | Some userRole =>
      if bool_decide (userRole ∈ roles) then Ok tt
      else Failed 403 "Not authorized to access this route"
  | None => Failed 403 "Not authorized to access this route"
  end.

Inductive segment :=
| lit (s : string)
| param (name : string).

Record route := Route {
  r_method : string;
  r_path : list segment;
  r_roles : list string;
  r_handler : string;
}.

Definition admins : list string := ["admin"; "super_admin"].
Definition staff : list string := ["admin"; "super_admin"; "professional"].

Definition patientRoutes : list route :=
  [ Route "GET" [lit "summary"] staff "getPatientsSummary";
    Route "GET" [lit "analytics"] admins "getPatientAnalytics";
    Route "GET" [lit "search"] staff "searchPatients";
    Route "PUT" [lit "batch-update"] admins "batchUpdatePatients";
    Route "POST" [] admins "createPatient";
    Route "GET" [] staff "getPatients";
    Route "GET" [param "id"] staff "getPatientById";
    Route "PUT" [param "id"] admins "updatePatient";
    Route "DELETE" [param "id"] admins "deletePatient";
    Route "PUT" [param "id"; lit "assign-therapist"] admins "assignTherapistToPatient";
    Route "PUT" [param "id"; lit "flag"] admins "flagPatient";
    Route "PUT" [param "id"; lit "documents"] admins "uploadPatientDocument" ].

Definition therapistRoutes : list route :=
  [ Route "GET" [] admins "getTherapists";
    Route "POST" [] admins "createTherapist";
    Route "GET" [lit "summary"] admins "getTherapistsSummary";
    Route "GET" [lit "specializations"] admins "getTherapistSpecializations";
    Route "PUT" [lit "batch-update"] admins "batchUpdateTherapists";
    Route "GET" [param "id"] admins "getTherapistById";
    Route "PUT" [param "id"] admins "updateTherapist";
    Route "DELETE" [param "id"] admins "deleteTherapist";
    Route "PUT" [param "id"; lit "assign-patients"] admins "assignPatientsToTherapist";
    Route "PUT" [param "id"; lit "availability"] admins "updateTherapistAvailability" ].

(** A route path matches a request path segment by segment; a parameter
    matches any segment. *)
Fixpoint matches_path (pattern : list segment) (path : list string) : bool :=
  match pattern, path with
  | [], [] => true
  | lit s :: pattern', x :: path' => bool_decide (s = x) && matches_path pattern' path'
  | param _ :: pattern', _ :: path' => matches_path pattern' path'
  | _, _ => false
  end.

(** The router hands the request to the first registered route that
    matches its path and handles its method. *)
Definition dispatch (routes : list route) (method : string) (path : list string)
    : option route :=
  List.find (fun r => bool_decide (r_method r = method) && matches_path (r_path r) path)
            routes.

(** What the request gets: the name of the handler it reaches, or the
    refusal of [authorize]; [None] when no route matches. *)
Definition serve (routes : list route) (method : string) (path : list string)
    (user : option string) : option (outcome string) :=
  match dispatch routes method path with
  | Some r =>
      match authorize (r_roles r) user with
      | Ok _ => Some (Ok (r_handler r))
      | Failed st msg => Some (Failed st msg)
      end
  | None => None
  end.

End Router.

(** ** Sample collections used by the scenarios below *)

Module Scenario.

Definition therapist_doc (i u n : string) (exp updated : Z) : user :=
  {| id := i; role := Some "professional"; uid := Some u;
     name := Some n; email := Some (n +:+ "@clinic.example");
     title := Some "Dr"; specialization := Some "CBT";
     bio := Some "Therapist"; experience := Some exp;
     isVerified := Some true; isProfileComplete := Some true;
     assignedTherapist := None; assignedTherapistInfo := None;
     assigned_therapist := None; flags := None; documents := None;
     age := None; gender := None; concerns := None;
     emergencyContact := None;
     createdAt := Some updated; updatedAt := Some updated |}.

Definition patient_doc (i n : string) (created : Z)
    (camel snake : option string) (fl : list string) : user :=
  {| id := i; role := Some "patient"; uid := None;
     name := Some n; email := Some (n +:+ "@mail.example");
     title := None; specialization := None; bio := None;
     experience := None; isVerified := None;
     isProfileComplete := Some true;
     assignedTherapist := camel; assignedTherapistInfo := None;
     assigned_therapist := snake; flags := Some fl; documents := Some [];
     age := Some (Js.VNum 30); gender := Some (Js.VStr "Other");
     concerns := Some Js.VNull; emergencyContact := Some Js.VNull;
     createdAt := Some created; updatedAt := Some created |}.

(** Twenty-five patients, each assigned (patient-side field) to a
    different therapist, and those therapists. *)
Definition numbered (prefix : string) (n : nat) : string := prefix +:+ pretty n.

Definition ward : list user :=
  map (fun n => patient_doc (numbered "p" n) (numbered "patient" n) (Z.of_nat n)
                  None (Some (numbered "t" n)) []) (seq 1 25)
  ++ map (fun n => therapist_doc (numbered "t" n) (numbered "u" n)
                     (numbered "therapist" n) 5 (Z.of_nat n)) (seq 1 25).

(** Twenty-five therapists. *)
Definition staff : list user :=
  map (fun n => therapist_doc (numbered "t" n) (numbered "u" n)
                 (numbered "therapist" n) 5 (Z.of_nat n)) (seq 1 25).

(** A small clinic: three therapists and three patients. Patient [P1] is
    assigned to [T1] through the therapist-side field. *)
Definition clinic : list user :=
  [ therapist_doc "T1" "u1" "Alice" 1 30;
    therapist_doc "T2" "u2" "Bashir" 7 20;
    therapist_doc "T3" "u3" "Carmen" 11 10;
    patient_doc "P1" "Dana" 3 (Some "u1") None ["High Risk"];
    patient_doc "P2" "Emeka" 2 None None [];
    patient_doc "P3" "Farid" 1 None None [] ].

Definition cold : TherapistRoutes.state := TherapistRoutes.State clinic ∅ ∅.

(** Eleven therapists and eleven patients. *)
Definition eleven : list user :=
  map (fun n => therapist_doc (numbered "t" n) (numbered "u" n)
                 (numbered "therapist" n) 5 (Z.of_nat n)) (seq 1 11)
  ++ map (fun n => patient_doc (numbered "p" n) (numbered "patient" n) (Z.of_nat n)
                     None None []) (seq 1 11).

End Scenario.

(** ** Vocabulary of the statements *)

(** The therapists, and the patients, a list request without filters ranges
    over, in the order of the endpoint. *)
Definition professionals (db : list user) : list user :=
  Firestore.get (TherapistController.list_query EmptyString EmptyString EmptyString) db.

Definition patients_of_store (db : list user) : list user :=
  Firestore.get (PatientController.list_query None None) db.

(** The document names no therapist in its [assigned_therapist] field. *)
Definition no_therapist_reference (d : user) : Prop :=
  Js.truthy_opt (assigned_therapist d) = false.

(** Two runs of a handler give the same answer: the same response and the
    same reads of the store. *)
Definition same_answer {A C} (r1 r2 : outcome A * C * list read) : Prop :=
  r1.1.1 = r2.1.1 /\ r1.2 = r2.2.

(** How often a flag occurs in a list of flags. *)
Definition occurrences (f : string) (fl : list string) : nat :=
  List.length (List.filter (fun x => bool_decide (x = f)) fl).

(** A field of an update request is either not supplied or strictly equal
    to what the document holds. *)
Definition same_string (supplied held : option string) : Prop :=
  forall v, supplied = Some v -> held = Some v.

Definition same_value (supplied held : option Js.value) : Prop :=
  forall v, supplied = Some v -> exists c, held = Some c /\ Js.strict_eq v c = true.

(** The writes of a batch, as they apply to one document. *)
Definition apply_writes (b : Firestore.batch) (d : user) : user :=
  foldl (fun acc w => if decide (id acc = w.1) then w.2 acc else acc) d b.

(** The key under which the summary counts a therapist's specialization. *)
Definition specialization_key (d : user) : string :=
  match specialization d with
  | Some s => if Js.truthy s then s else "Other"
  | None => "Other"
  end.

(** The sum of the counters of a breakdown. *)
Definition breakdown_sum (m : gmap string nat) : nat :=
  map_fold (fun _ n acc => (n + acc)%nat) 0%nat m.

(** All therapists of the collection, as the summary and the
    specializations endpoint read them. *)
Definition all_professionals (db : list user) : list user :=
  Firestore.get (Firestore.where_ (Firestore.where_role "professional")
                   Firestore.collection) db.

(** No entry is left under a key that contains [patients]. *)
Definition lists_cleared (cache : gmap string (entry PatientController.payload)) : Prop :=
  forall k, Js.includes k "patients" = true -> cache !! k = None.

(** All patients of the collection, as the patient summary reads them. *)
Definition all_patients (db : list user) : list user :=
  Firestore.get (Firestore.where_ (Firestore.where_role "patient")
                   Firestore.collection) db.

(** A client that reads the patient list to its end: it asks for the first
    page and then, as long as the answer has [hasMore] set, for the page
    after the cursor it was given; [fuel] bounds the number of requests.
    The result is the sequence of the records it was sent. *)
Fixpoint read_all_patients (fuel pageSize : nat) (cursor : option string)
    (profileComplete therapistId : option string) (db : list user)
    : option (list user) :=
  match fuel with
  | O => None
  | S fuel' =>
      match PatientController.fetchPatients pageSize cursor None profileComplete
              therapistId db with
      | (Ok (PatientController.page_data p), _) =>
          let records := map PatientController.stored (PatientController.patients p) in
          if PatientController.hasMore p then
            match read_all_patients fuel' pageSize (PatientController.lastDocId p)
                    profileComplete therapistId db with
            | Some rest => Some (records ++ rest)
            | None => None
            end
          else Some records
      | _ => None
      end
  end.

(** The text fields the therapist list searches a keyword in. *)
Definition searched_fields (t : TherapistController.therapist) : list string :=
  option_list (TherapistController.t_name t)
  ++ option_list (TherapistController.t_email t)
  ++ option_list (TherapistController.t_specialization t)
  ++ [TherapistController.t_title t; TherapistController.t_bio t].

(** [s] contains [keyword], letter case ignored. *)
Definition contains_ignoring_case (s keyword : string) : Prop :=
  exists pre post, Js.toLowerCase s = pre +:+ Js.toLowerCase keyword +:+ post.

(** The request path that a route without parameters is registered for. *)
Fixpoint literal_path (pattern : list Router.segment) : option (list string) :=
  match pattern with
  | [] => Some []
  | Router.lit s :: rest =>
      match literal_path rest with Some p => Some (s :: p) | None => None end
  | Router.param _ :: _ => None
  end.

(** The handlers that only read patients. *)
Definition patient_reads : list string :=
  ["getPatientsSummary"; "searchPatients"; "getPatients"; "getPatientById"].

(** ** Substrings *)

Lemma startsWith_iff (s p : string) :
  Js.startsWith s p = true <-> exists post, s = p +:+ post.
Proof.
  revert s. induction p as [|a p IH]; intros s; simpl.
  - split; [intros _; by exists s | done].
  - destruct s as [|b s]; simpl.
    + split; [done | intros [post H]; discriminate H].
    + destruct (decide (a = b)) as [->|Hne].
      * rewrite IH. split; intros [post H]; exists post.
        -- by rewrite H.
        -- by injection H.
      * split; [done | intros [post H]; injection H; congruence].
Qed.

Lemma includes_iff (s p : string) :
  Js.includes s p = true <-> exists pre post, s = pre +:+ p +:+ post.
Proof.
  induction s as [|b s IH]; simpl.
  - rewrite orb_false_r, startsWith_iff. split.
    + intros [post H]. by exists EmptyString, post.
    + intros [pre [post H]]. destruct pre; [by exists post | discriminate H].
  - rewrite orb_true_iff, startsWith_iff, IH. split.
    + intros [[post H]|[pre [post H]]].
      * by exists EmptyString, post.
      * exists (String b pre), post. simpl. by rewrite H.
    + intros [pre [post H]]. destruct pre as [|c pre]; simpl in H.
      * left. by exists post.
      * right. injection H as _ H. by exists pre, post.
Qed.

(** ** The invalidation loop *)

Section clear.
Context {B : Type}.
Implicit Types (c : gmap string (entry B)) (k pattern : string).

Lemma clear_loop_lookup pattern (keys : list string) c k :
  foldl (fun c key => if Js.includes key pattern then base.delete key c else c)
        c keys !! k
  = if Js.includes k pattern && bool_decide (k ∈ keys) then None else c !! k.
Proof.
  revert c. induction keys as [|key keys IH]; intros c; simpl.
  - by rewrite andb_false_r.
  - rewrite IH. destruct (Js.includes k pattern) eqn:Hk; simpl.
    + destruct (decide (k ∈ keys)) as [Hin|Hin].
      * rewrite !bool_decide_eq_true_2; [done | by apply elem_of_cons; right | done].
      * rewrite (bool_decide_eq_false_2 _ Hin).
        destruct (decide (k = key)) as [->|Hne].
        -- rewrite Hk, lookup_delete_eq.
           by rewrite bool_decide_eq_true_2 by (apply elem_of_cons; by left).
        -- rewrite bool_decide_eq_false_2
             by (rewrite elem_of_cons; intros [?|?]; done).
           destruct (Js.includes key pattern); [by rewrite lookup_delete_ne | done].
    + destruct (Js.includes key pattern) eqn:Hkey; [|done].
      rewrite lookup_delete_ne; [done | congruence].
Qed.

Lemma clear_keys_lookup pattern c k :
  foldl (fun c key => if Js.includes key pattern then base.delete key c else c)
        c (map fst (map_to_list c)) !! k
  = if Js.includes k pattern then None else c !! k.
Proof.
  rewrite clear_loop_lookup. destruct (Js.includes k pattern); simpl; [|done].
  case_bool_decide as Hin; [done|].
  destruct (c !! k) as [e|] eqn:He; [|done].
  exfalso. apply Hin. apply list_elem_of_fmap. exists (k, e). split; [done|].
  by apply elem_of_map_to_list.
Qed.

End clear.

(** ** C7: invalidation by substring *)

(** C7. [clearCache(pattern)], in the cache middleware and in the patient
    controller alike, removes exactly the keys that contain [pattern]: such a
    key is absent afterwards, and every other key keeps its entry (value and
    timestamp). [Js.includes] is containment as a substring. *)
Theorem clearCache_removes_exactly_the_matching_keys :
  (forall (B : Type) (pattern : string) (cache : gmap string (entry B)) (key : string),
      CacheMiddleware.clearCache pattern cache !! key
      = if Js.includes key pattern then None else cache !! key)
  /\ (forall (pattern : string) (cache : gmap string (entry PatientController.payload))
             (key : string),
      PatientController.clearCache pattern cache !! key
      = if Js.includes key pattern then None else cache !! key)
  /\ (forall key pattern : string,
      Js.includes key pattern = true
      <-> exists pre post, key = pre +:+ pattern +:+ post).
Proof.
  split; [|split].
  - intros B pattern cache key. apply clear_keys_lookup.
  - intros pattern cache key. apply clear_keys_lookup.
  - intros key pattern. apply includes_iff.
Qed.

(** ** C4: reading a cache entry *)

(** Each of the three lookups returns the stored value exactly while the
    entry is younger than the time-to-live it is compared with, and is a
    plain miss otherwise. *)
Lemma therapist_getCachedData_set (key : string) (v : TherapistController.payload)
    (stored now : Z) (cache : gmap string (entry TherapistController.payload)) :
  TherapistController.getCachedData key now
    (TherapistController.setCachedData key v stored cache)
  = if now - stored <? TherapistController.CACHE_TTL then Some v else None.
Proof.
  unfold TherapistController.getCachedData, TherapistController.setCachedData.
  by rewrite lookup_insert_eq.
Qed.

Lemma therapist_getCachedData_absent (key : string) (now : Z)
    (cache : gmap string (entry TherapistController.payload)) :
  cache !! key = None -> TherapistController.getCachedData key now cache = None.
Proof. unfold TherapistController.getCachedData. by intros ->. Qed.

Lemma patient_getCachedData_hit (key : string) fetched (ttl now : Z)
    (cache : gmap string (entry PatientController.payload)) (e : entry PatientController.payload) :
  cache !! key = Some e -> now - timestamp e < ttl ->
  PatientController.getCachedData key fetched ttl now cache = (Ok (data e), cache, []).
Proof.
  intros He Hage. unfold PatientController.getCachedData. rewrite He.
  by rewrite (proj2 (Z.ltb_lt _ _) Hage).
Qed.

Lemma patient_getCachedData_miss (key : string) fetched (ttl now : Z)
    (cache : gmap string (entry PatientController.payload)) :
  (forall e, cache !! key = Some e -> ttl <= now - timestamp e) ->
  PatientController.getCachedData key fetched ttl now cache
  = match fetched with
    | (Ok d, log) => (Ok d, <[key := Entry d now]> cache, log)
    | (Failed st msg, log) => (Failed st msg, cache, log)
    end.
Proof.
  intros Hold. unfold PatientController.getCachedData.
  destruct (cache !! key) as [e|] eqn:He; [|done].
  by rewrite (proj2 (Z.ltb_ge _ _) (Hold e eq_refl)).
Qed.

Lemma middleware_hit {B S : Type} (ttl now : Z) (req : CacheMiddleware.request)
    (next : S -> B * S) (cache : gmap string (entry B)) (s : S) (e : entry B) :
  CacheMiddleware.method req = "GET" ->
  cache !! CacheMiddleware.cache_key req = Some e ->
  now - timestamp e < ttl ->
  CacheMiddleware.cacheMiddleware ttl req now next cache s = (data e, cache, s).
Proof.
  intros Hm He Hage. unfold CacheMiddleware.cacheMiddleware.
  rewrite bool_decide_eq_true_2 by done. simpl. rewrite He.
  by rewrite (proj2 (Z.ltb_lt _ _) Hage).
Qed.

Lemma middleware_miss {B S : Type} (ttl now : Z) (req : CacheMiddleware.request)
    (next : S -> B * S) (cache : gmap string (entry B)) (s : S) :
  CacheMiddleware.method req = "GET" ->
  (forall e, cache !! CacheMiddleware.cache_key req = Some e -> ttl <= now - timestamp e) ->
  CacheMiddleware.cacheMiddleware ttl req now next cache s
  = (fst (next s), <[CacheMiddleware.cache_key req := Entry (fst (next s)) now]> cache,
     snd (next s)).
Proof.
  intros Hm Hold. unfold CacheMiddleware.cacheMiddleware.
  rewrite bool_decide_eq_true_2 by done. simpl.
  destruct (cache !! CacheMiddleware.cache_key req) as [e|] eqn:He.
  - rewrite (proj2 (Z.ltb_ge _ _) (Hold e eq_refl)). by destruct (next s).
  - by destruct (next s).
Qed.

(** The controllers pass their times-to-live in milliseconds: five minutes
    by default, ten for the patient summary. *)
Lemma controller_ttl_is_five_minutes :
  TherapistController.CACHE_TTL = 300000 /\ PatientController.CACHE_TTL = 300000.
Proof. split; reflexivity. Qed.

Lemma patient_summary_served_for_ten_minutes now cache db e :
  cache !! "patients_summary" = Some e ->
  now - timestamp e < 10 * 60 * 1000 ->
  PatientController.getPatientsSummary now cache db = (Ok (data e), cache, []).
Proof. intros He Hage. by apply patient_getCachedData_hit. Qed.

(** C4. The router configures the cache middleware of the therapist
    summary route with [600], which the middleware compares with an age in
    milliseconds: an entry stored at time 0 is not served one second later
    (the middleware runs the handler and stores the body again), and six
    minutes later, when the controller's own five-minute entry has expired
    too, the endpoint queries the store again: the ten minutes the route
    announces are not reached. *)
Theorem therapist_summary_expires_before_ten_minutes :
  let req := CacheMiddleware.Request "GET" "/api/therapists/summary" [] in
  let key := CacheMiddleware.cache_key req in
  let first := TherapistRoutes.get_summary req 0 Scenario.cold in
  let after_second := TherapistRoutes.get_summary req 1000 (snd first) in
  let after_minutes := TherapistRoutes.get_summary req (6 * 60 * 1000) (snd first) in
  TherapistRoutes.summary_ttl = 600
  /\ timestamp <$> (TherapistRoutes.route_cache (snd first) !! key) = Some 0
  /\ timestamp <$> (TherapistRoutes.route_cache (snd after_second) !! key) = Some 1000
  /\ snd (fst first) <> []
  /\ snd (fst after_minutes) = snd (fst first).
Proof. vm_compute. repeat split; discriminate. Qed.

(** ** C8: a mutation and the route cache *)

(** C8. [POST /api/therapists] empties the controller's cache map but
    leaves the cache middleware's map as it is: a list request 200 ms after
    a first one, with a therapist created in between, is answered from the
    middleware's map with the page produced before the creation, without
    reading the store, although the store now holds one more therapist. *)
Theorem list_page_stale_after_createTherapist :
  let req := CacheMiddleware.Request "GET" "/api/therapists" [] in
  let body :=
    TherapistController.NewTherapist None (Some "Grace") (Some "grace@clinic.example")
      None (Some "Trauma") None None in
  let first := TherapistRoutes.get_therapists req 0 Scenario.cold in
  let created := TherapistRoutes.post_therapist body "T4" 100 (snd first) in
  let second := TherapistRoutes.get_therapists req 200 (snd created) in
  let fresh :=
    TherapistRoutes.get_therapists req 200
      (TherapistRoutes.State (TherapistRoutes.users (snd created)) ∅ ∅) in
  (exists t, fst created = Ok t)
  /\ TherapistRoutes.controller_cache (snd created) = ∅
  /\ TherapistRoutes.route_cache (snd created) = TherapistRoutes.route_cache (snd first)
  /\ fst (fst second) = fst (fst first)
  /\ snd (fst second) = []
  /\ fst (fst fresh) <> fst (fst first).
Proof.
  vm_compute. split; [eexists; reflexivity|]. repeat split. discriminate.
Qed.

(** The same request after [PUT /api/therapists/T2/assign-patients]: the
    page still counts no patient for [T2]. *)
Lemma list_page_stale_after_assignPatients :
  let req := CacheMiddleware.Request "GET" "/api/therapists" [] in
  let first := TherapistRoutes.get_therapists req 0 Scenario.cold in
  let assigned := TherapistRoutes.put_assign_patients "T2" (Some ["P2"]) 100 first.2 in
  let second := TherapistRoutes.get_therapists req 200 assigned.2 in
  let fresh :=
    TherapistRoutes.get_therapists req 200
      (TherapistRoutes.State (TherapistRoutes.users assigned.2) ∅ ∅) in
  (exists a, assigned.1 = Ok a)
  /\ second.1.1 = first.1.1
  /\ second.1.2 = []
  /\ fresh.1.1 <> first.1.1.
Proof.
  vm_compute. split; [eexists; reflexivity|]. repeat split. discriminate.
Qed.

(** The therapist-side reassignment rewrites patient documents, and the
    patient controller keeps its own cache map, which the therapist
    controller cannot reach: the patient list requested before is served
    again afterwards. *)
Lemma patient_list_stale_after_assignPatients :
  let first := PatientController.getPatients [] 0 ∅ Scenario.clinic in
  let assigned :=
    TherapistController.assignPatientsToTherapist "T2" (Some ["P2"]) 100 ∅ Scenario.clinic in
  let second := PatientController.getPatients [] 200 first.1.2 assigned.2 in
  let fresh := PatientController.getPatients [] 200 ∅ assigned.2 in
  (exists a, assigned.1.1 = Ok a)
  /\ second.1.1 = first.1.1
  /\ second.2 = []
  /\ fresh.1.1 <> first.1.1.
Proof.
  vm_compute. split; [eexists; reflexivity|]. repeat split. discriminate.
Qed.

(** ** The store *)

Lemma insert_desc_perm o d l : Firestore.insert_desc o d l ≡ₚ d :: l.
Proof.
  induction l as [|x l IH]; simpl; [done|].
  destruct (Firestore.order_key o x), (Firestore.order_key o d); try done.
  case_match; [done|]. rewrite IH. apply Permutation_swap.
Qed.

Lemma sort_desc_perm o db :
  Firestore.sort_desc o db ≡ₚ List.filter (Firestore.has_key o) db.
Proof.
  unfold Firestore.sort_desc.
  induction (List.filter (Firestore.has_key o) db) as [|d l IH]; simpl; [done|].
  by rewrite insert_desc_perm, IH.
Qed.

Lemma filter_map_sublist {A B} (g : A -> B) (f : A -> bool) (l : list A) :
  sublist (map g (List.filter f l)) (map g l).
Proof.
  induction l as [|d l IH]; simpl; [done|].
  destruct (f d); simpl; by constructor.
Qed.

Lemma sort_desc_NoDup o db :
  NoDup (map id db) -> NoDup (map id (Firestore.sort_desc o db)).
Proof.
  intros Hnd.
  assert (map id (Firestore.sort_desc o db)
          ≡ₚ map id (List.filter (Firestore.has_key o) db)) as ->.
  { apply Permutation_map, sort_desc_perm. }
  eapply sublist_NoDup; [done | apply filter_map_sublist].
Qed.

Lemma sort_desc_elem o db d : d ∈ Firestore.sort_desc o db -> d ∈ db.
Proof.
  rewrite sort_desc_perm. rewrite list_elem_of_In, filter_In, <- list_elem_of_In. tauto.
Qed.

Lemma doc_elem i db d : d ∈ db -> id d = i -> Firestore.exists_ i db = true.
Proof.
  intros Hin Hid. unfold Firestore.exists_, Firestore.doc.
  destruct (List.find _ db) eqn:Hf; [done|].
  apply list_elem_of_In in Hin.
  pose proof (find_none _ _ Hf _ Hin) as Hn. simpl in Hn.
  by rewrite bool_decide_eq_true_2 in Hn.
Qed.

Lemma doc_NoDup db d : NoDup (map id db) -> d ∈ db -> Firestore.doc (id d) db = Some d.
Proof.
  unfold Firestore.doc. induction db as [|x db IH]; simpl; intros Hnd Hd.
  - by apply elem_of_nil in Hd.
  - apply NoDup_cons in Hnd as [Hx Hnd].
    apply elem_of_cons in Hd as [->|Hd].
    + by rewrite bool_decide_eq_true_2.
    + rewrite bool_decide_eq_false_2; [by apply IH|].
      intros Heq. apply Hx. rewrite Heq. apply list_elem_of_fmap. eauto.
Qed.

Lemma sort_desc_has_key o db d :
  d ∈ Firestore.sort_desc o db -> Firestore.has_key o d = true.
Proof.
  rewrite sort_desc_perm. rewrite list_elem_of_In, filter_In. tauto.
Qed.

(** A document of the ordered list is taken as a cursor. *)
Lemma therapist_cursor_accepted db q o d :
  NoDup (map id db) -> Firestore.orderBy q = Some o ->
  d ∈ Firestore.sort_desc o db ->
  TherapistController.cursor_refused (Some (id d)) db q = false.
Proof.
  intros Hnd Ho Hd. unfold TherapistController.cursor_refused.
  rewrite (doc_NoDup db d Hnd (sort_desc_elem _ _ _ Hd)).
  unfold Firestore.accepts_cursor. rewrite Ho, (sort_desc_has_key _ _ _ Hd).
  apply andb_false_r.
Qed.

Lemma patient_cursor_accepted db q o d :
  NoDup (map id db) -> Firestore.orderBy q = Some o ->
  d ∈ Firestore.sort_desc o db ->
  PatientController.cursor_refused (Some (id d)) db q = false.
Proof. exact (therapist_cursor_accepted db q o d). Qed.

(** Filtering what comes after a document of the filtered list. *)
Lemma filter_after (f : user -> bool) (l : list user) (i : nat) (d : user) :
  NoDup (map id l) ->
  List.filter f l !! i = Some d ->
  List.filter f (Firestore.after (id d) l) = drop (S i) (List.filter f l).
Proof.
  revert i. induction l as [|x l IH]; intros i Hnd Hi; simpl in *; [done|].
  apply NoDup_cons in Hnd as [Hx Hnd].
  destruct (decide (id x = id d)) as [Heq|Hne].
  - assert (List.filter f l !! i = Some d -> False) as Hno.
    { intros Hl. apply Hx. rewrite Heq. apply list_elem_of_fmap. exists d. split; [done|].
      apply list_elem_of_lookup_2 in Hl.
      apply list_elem_of_In, filter_In in Hl as [Hl _]. by apply list_elem_of_In. }
    destruct (f x) eqn:Hfx.
    + destruct i as [|i]; simpl in Hi; [done | ].
      exfalso. assert (List.filter f l !! i = Some d) as Hl by done.
      apply Hx. rewrite Heq. apply list_elem_of_fmap. exists d. split; [done|].
      apply list_elem_of_lookup_2 in Hl.
      apply list_elem_of_In, filter_In in Hl as [Hl _]. by apply list_elem_of_In.
    + by destruct (Hno Hi).
  - destruct (f x) eqn:Hfx.
    + destruct i as [|i]; simpl in Hi.
      * congruence.
      * rewrite (IH i) by done. done.
    + by apply IH.
Qed.

Section chunks.
Context {A : Type}.
Implicit Types (ids : list A) (chunks : list (list A)).

Lemma slice_length i ids :
  List.length (Js.slice i (i + 10) ids) = (Nat.min 10 (List.length ids - i))%nat.
Proof.
  unfold Js.slice. rewrite length_take, length_drop.
  replace (i + 10 - i)%nat with 10%nat by lia. done.
Qed.

Lemma chunk_loop_concat fuel i ids chunks :
  (List.length ids - i <= fuel)%nat ->
  List.concat (TherapistController.chunk_loop fuel i ids chunks)
  = List.concat chunks ++ drop i ids.
Proof.
  revert i chunks. induction fuel as [|fuel IH]; intros i chunks Hfuel; simpl.
  - rewrite drop_ge by lia. by rewrite app_nil_r.
  - destruct (i <? List.length ids)%nat eqn:Hi.
    + apply Nat.ltb_lt in Hi. rewrite IH by lia.
      rewrite concat_app. simpl. rewrite app_nil_r, <- app_assoc. f_equal.
      unfold Js.slice. replace (i + 10 - i)%nat with 10%nat by lia.
      etrans; [|apply (take_drop 10 (drop i ids))].
      f_equal. by rewrite drop_drop.
    + apply Nat.ltb_ge in Hi. rewrite drop_ge by lia. by rewrite app_nil_r.
Qed.

Lemma chunk_loop_length fuel i ids chunks :
  (List.length ids - i <= fuel)%nat ->
  List.length (TherapistController.chunk_loop fuel i ids chunks)
  = (List.length chunks + (List.length ids - i + 9) / 10)%nat.
Proof.
  revert i chunks. induction fuel as [|fuel IH]; intros i chunks Hfuel;
    cbn [TherapistController.chunk_loop].
  - replace (List.length ids - i)%nat with 0%nat by lia.
    change ((0 + 9) / 10)%nat with 0%nat. lia.
  - destruct (i <? List.length ids)%nat eqn:Hi.
    + apply Nat.ltb_lt in Hi. rewrite IH by lia.
      rewrite length_app.
      change (List.length [Js.slice i (i + 10) ids]) with 1%nat.
      destruct (decide (List.length ids - i < 10)%nat) as [Hs|Hs].
      * replace (List.length ids - (i + 10))%nat with 0%nat by lia.
        assert ((List.length ids - i + 9) / 10 = 1)%nat as ->.
        { symmetry. apply Nat.div_unique with (List.length ids - i - 1)%nat; lia. }
        change ((0 + 9) / 10)%nat with 0%nat. lia.
      * replace (List.length ids - i + 9)%nat
          with ((List.length ids - (i + 10) + 9) + 1 * 10)%nat by lia.
        rewrite Nat.div_add by lia. lia.
    + apply Nat.ltb_ge in Hi.
      replace (List.length ids - i)%nat with 0%nat by lia.
      change ((0 + 9) / 10)%nat with 0%nat. lia.
Qed.

Lemma chunk_loop_bounded fuel i ids chunks :
  Forall (fun c => 1 <= List.length c <= 10)%nat chunks ->
  Forall (fun c => 1 <= List.length c <= 10)%nat
         (TherapistController.chunk_loop fuel i ids chunks).
Proof.
  revert i chunks. induction fuel as [|fuel IH]; intros i chunks Hc; simpl; [done|].
  destruct (i <? List.length ids)%nat eqn:Hi; [|done].
  apply Nat.ltb_lt in Hi. apply IH. apply Forall_app. split; [done|].
  apply Forall_singleton. rewrite slice_length. lia.
Qed.
End chunks.

Lemma make_chunks_concat {A} (ids : list A) :
  List.concat (TherapistController.make_chunks ids) = ids.
Proof.
  unfold TherapistController.make_chunks. rewrite chunk_loop_concat by lia. done.
Qed.

Lemma make_chunks_length {A} (ids : list A) :
  List.length (TherapistController.make_chunks ids) = ((List.length ids + 9) / 10)%nat.
Proof.
  unfold TherapistController.make_chunks. rewrite chunk_loop_length by lia.
  by rewrite Nat.sub_0_r.
Qed.

Lemma make_chunks_bounded {A} (ids : list A) :
  Forall (fun c => 1 <= List.length c <= 10)%nat (TherapistController.make_chunks ids).
Proof. apply chunk_loop_bounded. constructor. Qed.

Lemma all_defined_length {A} (l : list (option A)) xs :
  TherapistController.all_defined l = Some xs -> List.length xs = List.length l.
Proof.
  revert xs. induction l as [|[x|] l IH]; intros xs; simpl; [by intros [= <-]| |done].
  destruct (TherapistController.all_defined l); [|done].
  intros [= <-]. simpl. by rewrite (IH _ eq_refl).
Qed.

Lemma membership_sizes_app (a b : list read) :
  membership_sizes (a ++ b) = membership_sizes a ++ membership_sizes b.
Proof. unfold membership_sizes. by rewrite map_app, concat_app. Qed.

Lemma membership_sizes_patients_of ids :
  membership_sizes [query_get (TherapistController.patients_of ids)] = [List.length ids].
Proof. done. Qed.

Lemma count_patients_sizes chunks db counts log r log' :
  TherapistController.count_patients chunks db counts log = (r, log') ->
  exists n, (n <= List.length chunks)%nat
    /\ membership_sizes log' = membership_sizes log ++ map List.length (take n chunks)
    /\ (is_Some r -> n = List.length chunks).
Proof.
  revert counts log. induction chunks as [|chunk chunks IH]; intros counts log; simpl.
  - intros [= <- <-]. exists 0%nat. by rewrite app_nil_r.
  - destruct (TherapistController.all_defined chunk) as [ids|] eqn:Hids.
    + intros H. destruct (IH _ _ H) as (n & Hn & Hs & Hr).
      exists (S n). split; [lia|]. split.
      * rewrite Hs, membership_sizes_app, membership_sizes_patients_of.
        rewrite (all_defined_length _ _ Hids). simpl. by rewrite <- app_assoc.
      * intros Hsome. by rewrite (Hr Hsome).
    + intros [= <- <-]. exists 0%nat. split; [lia|]. split.
      * by rewrite app_nil_r.
      * by intros [? ?].
Qed.

Lemma total_patients_sizes chunks db total log r log' :
  TherapistController.total_patients chunks db total log = (r, log') ->
  exists n, (n <= List.length chunks)%nat
    /\ membership_sizes log' = membership_sizes log ++ map List.length (take n chunks)
    /\ (is_Some r -> n = List.length chunks).
Proof.
  revert total log. induction chunks as [|chunk chunks IH]; intros total log; simpl.
  - intros [= <- <-]. exists 0%nat. by rewrite app_nil_r.
  - destruct (TherapistController.all_defined chunk) as [ids|] eqn:Hids.
    + intros H. destruct (IH _ _ H) as (n & Hn & Hs & Hr).
      exists (S n). split; [lia|]. split.
      * rewrite Hs, membership_sizes_app, membership_sizes_patients_of.
        rewrite (all_defined_length _ _ Hids). simpl. by rewrite <- app_assoc.
      * intros Hsome. by rewrite (Hr Hsome).
    + intros [= <- <-]. exists 0%nat. split; [lia|]. split.
      * by rewrite app_nil_r.
      * by intros [? ?].
Qed.

Lemma list_query_no_membership sp v pc :
  List.concat (map membership_size
    (Firestore.conditions (TherapistController.list_query sp v pc))) = [].
Proof.
  unfold TherapistController.list_query.
  repeat (case_match; simpl); done.
Qed.

(** ** The therapist list fetch *)

Section therapist_list.

Import TherapistController.

Lemma get_limit n q db :
Firestore.limit q = None ->
Firestore.get (Firestore.limit_ n q) db = take n (Firestore.get q db).
Proof. unfold Firestore.get. simpl. by intros ->. Qed.

Lemma get_ordered q o db :
Firestore.orderBy q = Some o -> Firestore.startAfter q = None ->
Firestore.limit q = None ->
Firestore.get q db
= List.filter (Firestore.matches (Firestore.conditions q)) (Firestore.sort_desc o db).
Proof. unfold Firestore.get. by intros -> -> ->. Qed.

Lemma get_startAfter q o c db :
Firestore.orderBy q = Some o -> Firestore.limit q = None ->
Firestore.get (Firestore.startAfter_ c q) db
= List.filter (Firestore.matches (Firestore.conditions q))
    (Firestore.after c (Firestore.sort_desc o db)).
Proof. unfold Firestore.get. simpl. by intros -> ->. Qed.


Lemma drop_extra_eq {A} k (l : list A) :
drop_extra k l
= ((k <? List.length l)%nat, if (k <? List.length l)%nat then removelast l else l).
Proof. unfold drop_extra. by destruct (k <? List.length l)%nat. Qed.

Lemma all_defined_Some {A} (l : list (option A)) :
Forall is_Some l -> is_Some (all_defined l).
Proof.
induction 1 as [|x l [y ->] _ [ys IH]]; simpl; [done|]. by rewrite IH.
Qed.

Lemma count_patients_defined chunks db counts log :
Forall (Forall is_Some) chunks ->
exists counts' log', count_patients chunks db counts log = (Some counts', log').
Proof.
intros H. revert counts log.
induction H as [|chunk chunks Hc _ IH]; intros counts log; simpl; [by eauto|].
destruct (all_defined_Some _ Hc) as [ids ->]. apply IH.
Qed.

Lemma make_chunks_defined {A} (ids : list (option A)) :
Forall is_Some ids -> Forall (Forall is_Some) (make_chunks ids).
Proof.
intros H. rewrite <- (make_chunks_concat ids) in H.
revert H. generalize (make_chunks ids). intros ls.
induction ls as [|l ls IH]; simpl; [done|].
rewrite Forall_app. intros [Hl Hls]. constructor; [done | by apply IH].
Qed.

Lemma count_patients_prefix chunks db counts log r log' :
count_patients chunks db counts log = (r, log') -> exists more, log' = log ++ more.
Proof.
revert counts log. induction chunks as [|chunk chunks IH]; intros counts log; simpl.
- intros [= <- <-]. exists []. by rewrite app_nil_r.
- destruct (all_defined chunk) as [ids|].
  + intros H. destruct (IH _ _ H) as [more ->]. eexists. by rewrite <- app_assoc.
  + intros [= <- <-]. exists []. by rewrite app_nil_r.
Qed.

Lemma with_count_id counts ts : map t_id (map (with_count counts) ts) = map t_id ts.
Proof. rewrite map_map. by apply map_ext. Qed.

Lemma transform_id docs : map t_id (map transformTherapistData docs) = map id docs.
Proof. rewrite map_map. by apply map_ext. Qed.

Lemma fetchTherapists_inv k c kw sp v pc ex db p log :
fetchTherapists (Some k) c kw sp v pc ex db = (Ok p, log) ->
let q := Firestore.limit_ (k + 1) (with_cursor c db (list_query sp v pc)).1 in
let docs := (drop_extra k (Firestore.get q db)).2 in
query_get q ∈ log
/\ hasMore p = (k <? List.length (Firestore.get q db))%nat
/\ lastDocId p = id <$> last docs
/\ map t_id (therapists p)
   = map t_id (residual_filter kw ex (map transformTherapistData docs))
/\ total p = List.length (therapists p).
Proof.
unfold fetchTherapists.
destruct (with_cursor c db (list_query sp v pc)) as [q0 log0]. simpl.
destruct (cursor_refused c db (list_query sp v pc)); [done|].
rewrite drop_extra_eq.
destruct (count_patients _ db ∅ (log0 ++ _)) as [[counts|] log1] eqn:Hc; [|done].
intros [= <- <-]. simpl.
destruct (count_patients_prefix _ _ _ _ _ _ Hc) as [more ->].
repeat split.
- rewrite !elem_of_app, list_elem_of_singleton. by left; right.
- by rewrite with_count_id.
Qed.

Lemma fetchTherapists_ok k c kw sp v pc ex db q0 log0 returned :
with_cursor c db (list_query sp v pc) = (q0, log0) ->
cursor_refused c db (list_query sp v pc) = false ->
Firestore.get (Firestore.limit_ (k + 1) q0) db = returned ->
let docs := if (k <? List.length returned)%nat then removelast returned else returned in
let shown := residual_filter kw ex (map transformTherapistData docs) in
Forall (fun t => is_Some (t_uid t)) shown ->
exists counts log,
  fetchTherapists (Some k) c kw sp v pc ex db
  = (Ok {| therapists := map (with_count counts) shown;
           hasMore := (k <? List.length returned)%nat;
           lastDocId := id <$> last docs;
           total := List.length (map (with_count counts) shown) |}, log).
Proof.
intros Hq Hacc Hr docs shown Hs.
unfold fetchTherapists. rewrite Hq, Hacc, Hr, drop_extra_eq.
match goal with |- context [count_patients ?ch db ∅ ?l] =>
  destruct (count_patients_defined ch db ∅ l) as (counts & log' & ->) end.
- apply make_chunks_defined. by apply Forall_fmap.
- by exists counts, log'.
Qed.




End therapist_list.

(** ** The patient list fetch *)

Section patient_list.

Import PatientController.

Lemma p_drop_extra_eq {A} k (l : list A) :
  drop_extra k l
  = ((k <? List.length l)%nat, if (k <? List.length l)%nat then removelast l else l).
Proof. unfold drop_extra. by destruct (k <? List.length l)%nat. Qed.

Lemma filter_throwing_sublist {A} (f : A -> option bool) (l ys : list A) :
  filter_throwing f l = Some ys -> sublist ys l.
Proof.
  revert ys. induction l as [|x l IH]; intros ys; simpl; [by intros [= <-]|].
  destruct (f x) as [b|]; [|done].
  destruct (filter_throwing f l) as [zs|]; [|done].
  intros [= <-]. destruct b; constructor; by apply IH.
Qed.

Lemma attach_stored m p : stored (attach m p) = stored p.
Proof. unfold attach. by repeat case_match. Qed.

Lemma patient_ids m docs :
  map (fun p => id (stored p)) (map (attach m) (map to_patient docs)) = map id docs.
Proof.
  rewrite !map_map. apply map_ext. intros d. by rewrite attach_stored.
Qed.

Lemma collect_nil ids docs :
  foldl collect ids docs = [] <-> ids = [] /\ Forall no_therapist_reference docs.
Proof.
  revert ids. induction docs as [|d docs IH]; intros ids; simpl.
  - split; [by intros ->|by intros [-> _]].
  - rewrite IH, Forall_cons. unfold collect, no_therapist_reference, set_add, Js.truthy_opt.
    destruct (assigned_therapist d) as [t|]; [destruct (Js.truthy t)|]; [|tauto|tauto].
    split; [|by intros (_ & ? & _)].
    intros [H _]. exfalso. case_bool_decide as Hin; [|by destruct ids].
    rewrite H in Hin. by apply elem_of_nil in Hin.
Qed.

Lemma fetchPatients_inv k c kw pc tid db p log :
  fetchPatients k c kw pc tid db = (Ok (page_data p), log) ->
  let q := Firestore.limit_ (k + 1) (with_cursor c db (list_query pc tid)).1 in
  let docs := (drop_extra k (Firestore.get q db)).2 in
  query_get q ∈ log
  /\ hasMore p = (k <? List.length (Firestore.get q db))%nat
  /\ lastDocId p = id <$> last docs
  /\ sublist (map (fun x => id (stored x)) (patients p)) (map id docs)
  /\ (Js.truthy_opt kw = false ->
      map (fun x => id (stored x)) (patients p) = map id docs)
  /\ total p = List.length (patients p).
Proof.
  unfold fetchPatients.
  destruct (with_cursor c db (list_query pc tid)) as [q0 log0]. simpl.
  destruct (cursor_refused c db (list_query pc tid)); [done|].
  rewrite p_drop_extra_eq.
  set (docs := if (k <? _)%nat then _ else _).
  destruct (foldl collect [] docs); [|done].
  set (tm := ∅ : gmap string therapistRef).
  set (fp := match kw with Some _ => _ | None => _ end).
  destruct fp as [fp'|] eqn:Hfp; [|done].
  intros [= <- <-]. simpl. repeat split.
  - rewrite !elem_of_app, list_elem_of_singleton. by right.
  - change (map (attach tm) (map to_patient docs))
      with (attach tm <$> (to_patient <$> docs)).
    rewrite !fmap_last. destruct (last docs); simpl; [|done].
    by rewrite attach_stored.
  - rewrite <- (patient_ids tm docs). apply (fmap_sublist _).
    subst fp. destruct kw as [kw|]; [destruct (Js.truthy kw)|].
    + by eapply filter_throwing_sublist.
    + by injection Hfp as <-.
    + by injection Hfp as <-.
  - intros Hkw. rewrite <- (patient_ids tm docs). f_equal.
    subst fp. destruct kw as [kw|]; simpl in Hkw; [rewrite Hkw in Hfp|];
      by injection Hfp as <-.
Qed.

Lemma fetchPatients_ok k c kw pc tid db q0 log0 returned :
  with_cursor c db (list_query pc tid) = (q0, log0) ->
  cursor_refused c db (list_query pc tid) = false ->
  Firestore.get (Firestore.limit_ (k + 1) q0) db = returned ->
  Js.truthy_opt kw = false ->
  let docs := if (k <? List.length returned)%nat then removelast returned else returned in
  Forall no_therapist_reference docs ->
  exists p log,
    fetchPatients k c kw pc tid db = (Ok (page_data p), log)
    /\ map stored (patients p) = docs
    /\ hasMore p = (k <? List.length returned)%nat
    /\ lastDocId p = id <$> last docs
    /\ total p = List.length docs.
Proof.
  intros Hq Hacc Hr Hkw docs Hnone.
  unfold fetchPatients. rewrite Hq, Hacc, Hr, p_drop_extra_eq.
  fold docs. rewrite (proj2 (collect_nil [] docs) (conj eq_refl Hnone)).
  set (tm := ∅ : gmap string therapistRef).
  assert (match kw with
          | Some kw0 =>
              if Js.truthy kw0
              then filter_throwing (keyword_filter (Js.toLowerCase kw0))
                     (map (attach tm) (map to_patient docs))
              else Some (map (attach tm) (map to_patient docs))
          | None => Some (map (attach tm) (map to_patient docs))
          end = Some (map (attach tm) (map to_patient docs))) as ->.
  { destruct kw as [kw|]; simpl in Hkw; [by rewrite Hkw | done]. }
  eexists _, _. split; [reflexivity|]. simpl. repeat split.
  - rewrite !map_map. rewrite <- (map_id docs) at 2. apply map_ext.
    intros d. by rewrite attach_stored.
  - change (map (attach tm) (map to_patient docs))
      with (attach tm <$> (to_patient <$> docs)).
    rewrite !fmap_last. destruct (last docs); simpl; [|done].
    by rewrite attach_stored.
  - by rewrite !length_map.
Qed.

Lemma patients_two_pages (db : list user) :
  NoDup (map id db) ->
  (forall d, d ∈ db -> id d <> EmptyString) ->
  List.length (patients_of_store db) = 11%nat ->
  Forall no_therapist_reference (patients_of_store db) ->
  exists p1 log1 c p2 log2,
    fetchPatients 10 None None None None db = (Ok (page_data p1), log1)
    /\ map stored (patients p1) = take 10 (patients_of_store db)
    /\ List.length (patients p1) = 10%nat
    /\ hasMore p1 = true
    /\ lastDocId p1 = Some c
    /\ fetchPatients 10 (Some c) None None None db = (Ok (page_data p2), log2)
    /\ map stored (patients p2) = drop 10 (patients_of_store db)
    /\ List.length (patients p2) = 1%nat
    /\ hasMore p2 = false.
Proof.
  intros Hnd Hids Hlen Hnone.
  set (lq := list_query None None).
  assert (patients_of_store db
          = List.filter (Firestore.matches (Firestore.conditions lq))
              (Firestore.sort_desc Firestore.createdAt_desc db)) as Hm
    by (by apply get_ordered).
  destruct (lookup_lt_is_Some_2 (patients_of_store db) 9) as [d10 Hd10]; [lia|].
  assert (d10 ∈ Firestore.sort_desc Firestore.createdAt_desc db) as Hsorted.
  { apply list_elem_of_lookup_2 in Hd10. rewrite Hm in Hd10.
    apply list_elem_of_In, filter_In in Hd10 as [Hd10 _].
    by apply list_elem_of_In in Hd10. }
  assert (d10 ∈ db) as Hin by (by eapply sort_desc_elem).
  assert (Js.truthy (id d10) = true) as Ht.
  { specialize (Hids _ Hin). by destruct (id d10). }
  destruct (fetchPatients_ok 10 None None None None db lq [] (patients_of_store db))
    as (p1 & log1 & Hf1 & Hs1 & Hh1 & Hl1 & _); [done|done| |done| |].
  { rewrite get_limit by done. apply take_ge. lia. }
  { rewrite Hlen. simpl. rewrite removelast_firstn_len, Hlen. by apply Forall_take. }
  destruct (fetchPatients_ok 10 (Some (id d10)) None None None db
              (Firestore.startAfter_ (id d10) lq)
              [doc_get (id d10)] (drop 10 (patients_of_store db)))
    as (p2 & log2 & Hf2 & Hs2 & Hh2 & _); [| | |done| |].
  { unfold with_cursor. by rewrite Ht, (doc_elem (id d10) db d10). }
  { by apply (patient_cursor_accepted db lq Firestore.createdAt_desc). }
  { rewrite get_limit by done.
    rewrite (get_startAfter lq Firestore.createdAt_desc) by done.
    rewrite (filter_after _ _ 9 d10); [|by apply sort_desc_NoDup|by rewrite <- Hm].
    rewrite <- Hm. apply take_ge. rewrite length_drop. lia. }
  { rewrite length_drop, Hlen. simpl. by apply Forall_drop. }
  rewrite Hlen in Hs1, Hh1, Hl1. rewrite length_drop, Hlen in Hs2, Hh2.
  change (10 <? 11)%nat with true in *. change (10 <? 11 - 10)%nat with false in *.
  rewrite removelast_firstn_len, Hlen in Hs1, Hl1.
  exists p1, log1, (id d10), p2, log2.
  split; [done|]. split; [done|]. split.
  { rewrite <- (length_map stored), Hs1, length_take. lia. }
  split; [done|]. split.
  { rewrite Hl1, last_lookup, length_take, Hlen. simpl.
    rewrite lookup_take_lt by lia. by rewrite Hd10. }
  split; [done|]. split; [done|]. split; [|done].
  rewrite <- (length_map stored), Hs2, length_drop. lia.
Qed.

(** ** The patient list behind its cache *)

Lemma append_length (a b : string) :
  String.length (a +:+ b) = (String.length a + String.length b)%nat.
Proof.
  induction a as [|x a IH]; [done|].
  change (String.length (String x (a +:+ b)) = S (String.length a + String.length b)).
  simpl. by rewrite IH.
Qed.

Lemma append_inj_r (a b s : string) : a +:+ s = b +:+ s -> a = b.
Proof.
  intros H.
  assert (String.length a = String.length b) as Hlen.
  { apply (f_equal String.length) in H. rewrite !append_length in H. lia. }
  revert b H Hlen. induction a as [|x a IH]; intros [|y b] H Hlen; simpl in Hlen; try done.
  change (String x (a +:+ s) = String y (b +:+ s)) in H.
  injection H as -> H. f_equal. apply IH; [done|lia].
Qed.

Lemma getPatients_first_key now cache db :
  getPatients [("pageSize", "10")] now cache db
  = getCachedData "patients_10_start___"
      (fetchPatients 10 None None None None db)
      CACHE_TTL now cache.
Proof. reflexivity. Qed.

Lemma getPatients_next_key c now cache db :
  c <> EmptyString ->
  getPatients [("pageSize", "10"); ("lastDocId", c)] now cache db
  = getCachedData ("patients_10_" +:+ c +:+ "___")
      (fetchPatients 10 (Some c) None None None db)
      CACHE_TTL now cache.
Proof.
  intros Hc. unfold getPatients. simpl.
  assert (Js.truthy c = true) as -> by (by destruct c). done.
Qed.

(** Through [getPatients] the fetch sits behind the cache, and the key of a
    request without cursor holds [start] where the cursor would be: the two
    calls are the two fetches as long as the cursor document is not named
    [start]. *)
Lemma patients_two_calls (db : list user) (now1 now2 : Z) :
  NoDup (map id db) ->
  (forall d, d ∈ db -> id d <> EmptyString /\ id d <> "start") ->
  List.length (patients_of_store db) = 11%nat ->
  Forall no_therapist_reference (patients_of_store db) ->
  exists p1 cache1 log1 c p2 cache2 log2,
    getPatients [("pageSize", "10")] now1 ∅ db
    = (Ok (page_data p1), cache1, log1)
    /\ List.length (patients p1) = 10%nat
    /\ hasMore p1 = true
    /\ lastDocId p1 = Some c
    /\ getPatients [("pageSize", "10"); ("lastDocId", c)] now2 cache1 db
       = (Ok (page_data p2), cache2, log2)
    /\ List.length (patients p2) = 1%nat
    /\ hasMore p2 = false.
Proof.
  intros Hnd Hids Hlen Hnone.
  destruct (patients_two_pages db Hnd (fun d Hd => proj1 (Hids d Hd)) Hlen Hnone)
    as (p1 & log1 & c & p2 & log2 & Hf1 & Hs1 & Hl1 & Hh1 & Hc & Hf2 & Hs2 & Hl2 & Hh2).
  assert (exists d, d ∈ db /\ id d = c) as (d & Hd & Hdc).
  { assert (Some c = id <$> last (take 10 (patients_of_store db))) as Hlast.
    { destruct (fetchPatients_inv _ _ _ _ _ _ _ _ Hf1) as (_ & Hh & Hl & _).
      cbv zeta in Hl. rewrite p_drop_extra_eq in Hl. cbn [snd] in Hl.
      rewrite <- Hc, Hl.
      assert (Firestore.get (Firestore.limit_ (10 + 1)
                (with_cursor None db
                   (list_query None None)).1) db
              = patients_of_store db) as ->.
      { cbn [with_cursor fst]. rewrite get_limit by done.
        apply take_ge. fold (patients_of_store db). lia. }
      rewrite Hlen. change (10 <? 11)%nat with true. cbv iota.
      by rewrite removelast_firstn_len, Hlen. }
    destruct (last (take 10 (patients_of_store db))) as [d|] eqn:Hl; [|done].
    injection Hlast as ->. exists d. split; [|done].
    apply last_Some_elem_of in Hl. apply elem_of_take in Hl as (i & Hl & _).
    apply list_elem_of_lookup_2 in Hl.
    unfold patients_of_store in Hl.
    rewrite (get_ordered _ Firestore.createdAt_desc) in Hl by done.
    apply list_elem_of_In, filter_In in Hl as [Hl _].
    apply list_elem_of_In in Hl. by eapply sort_desc_elem. }
  destruct (Hids d Hd) as [Hne Hstart]. rewrite Hdc in Hne, Hstart.
  eexists p1, _, log1, c, p2, _, log2.
  rewrite getPatients_first_key. unfold getCachedData at 1.
  rewrite lookup_empty, Hf1. split; [reflexivity|].
  split; [done|]. split; [done|]. split; [done|].
  rewrite getPatients_next_key by done. unfold getCachedData.
  rewrite lookup_insert_ne, lookup_empty, Hf2; [done|].
  intros Hk. apply Hstart.
  change "patients_10_start___" with ("patients_10_" +:+ ("start" +:+ "___")) in Hk.
  apply (inj (String.app "patients_10_")) in Hk.
  symmetry. by apply (append_inj_r _ _ "___").
Qed.

End patient_list.

(** ** C1: batched lookups *)

Section therapist_batches.
Import TherapistController.

Lemma with_cursor_sizes c db q :
  membership_sizes (with_cursor c db q).2 = []
  /\ Firestore.conditions (with_cursor c db q).1 = Firestore.conditions q.
Proof.
  unfold with_cursor. destruct c as [c|]; [|done].
  destruct (Js.truthy c); [|done]. by destruct (Firestore.exists_ c db).
Qed.

Lemma sizes_page_query n q :
  membership_sizes [query_get (Firestore.limit_ n q)]
  = List.concat (map membership_size (Firestore.conditions q)).
Proof. unfold membership_sizes. simpl. by rewrite app_nil_r. Qed.

Lemma take_chunks_bounded {A} n (ids : list A) :
  Forall (fun m => 1 <= m <= 10)%nat (map List.length (take n (make_chunks ids))).
Proof.
  apply Forall_fmap, Forall_take. apply make_chunks_bounded.
Qed.

(** Every [in] filter the therapist list sends holds between one and ten
    identifiers. *)
Lemma fetchTherapists_batches_bounded k c kw sp v pc ex db :
  Forall (fun m => 1 <= m <= 10)%nat
         (membership_sizes (fetchTherapists k c kw sp v pc ex db).2).
Proof.
  unfold fetchTherapists.
  destruct (with_cursor_sizes c db (list_query sp v pc)) as [Hlog Hcond].
  destruct (with_cursor c db (list_query sp v pc)) as [q0 log0].
  cbn [fst snd] in Hlog, Hcond.
  destruct (cursor_refused c db (list_query sp v pc)); [simpl; by rewrite Hlog|].
  destruct k as [k|]; simpl; [|by rewrite Hlog].
  rewrite drop_extra_eq.
  match goal with |- context [count_patients ?ch db ∅ ?l] =>
    destruct (count_patients ch db ∅ l) as [r log'] eqn:Hc end.
  destruct (count_patients_sizes _ _ _ _ _ _ Hc) as (n & _ & Hs & _).
  assert (membership_sizes log' = map List.length (take n (make_chunks
            (map t_uid (residual_filter kw ex (map transformTherapistData
               (if (k <? List.length (Firestore.get (Firestore.limit_ (k + 1) q0) db))%nat
                then removelast (Firestore.get (Firestore.limit_ (k + 1) q0) db)
                else Firestore.get (Firestore.limit_ (k + 1) q0) db))))))) as Hs'.
  { rewrite Hs, membership_sizes_app, Hlog, sizes_page_query.
    by rewrite Hcond, list_query_no_membership. }
  destruct r; simpl; rewrite Hs'; apply take_chunks_bounded.
Qed.

Lemma getTherapists_batches_bounded query now cache db :
  Forall (fun m => 1 <= m <= 10)%nat
         (membership_sizes (getTherapists query now cache db).2).
Proof.
  unfold getTherapists.
  destruct (getCachedData _ now cache); destruct (Js.truthy_opt _); simpl; try done.
  all: match goal with |- context [fetchTherapists ?k ?c ?kw ?sp ?v ?pc ?ex ?d] =>
         pose proof (fetchTherapists_batches_bounded k c kw sp v pc ex d) as H;
         destruct (fetchTherapists k c kw sp v pc ex d) as [[?|? ?] ?] end; done.
Qed.

(** So does every [in] filter of the summary. *)
Lemma getTherapistsSummary_batches_bounded now cache db :
  Forall (fun m => 1 <= m <= 10)%nat
         (membership_sizes (getTherapistsSummary now cache db).2).
Proof.
  unfold getTherapistsSummary. destruct (getCachedData _ now cache); [done|].
  match goal with |- context [total_patients ?ch db 0 ?l] =>
    destruct (total_patients ch db 0 l) as [r log'] eqn:Hc end.
  destruct (total_patients_sizes _ _ _ _ _ _ Hc) as (n & _ & Hs & _).
  destruct r; simpl; rewrite Hs; apply take_chunks_bounded.
Qed.

(** The number of lookups of a page that was served. *)
Lemma fetchTherapists_lookups k c kw sp v pc ex db p log :
  fetchTherapists (Some k) c kw sp v pc ex db = (Ok p, log) ->
  List.length (membership_sizes log) = ((List.length (therapists p) + 9) / 10)%nat.
Proof.
  unfold fetchTherapists.
  destruct (with_cursor_sizes c db (list_query sp v pc)) as [Hlog Hcond].
  destruct (with_cursor c db (list_query sp v pc)) as [q0 log0].
  cbn [fst snd] in Hlog, Hcond.
  destruct (cursor_refused c db (list_query sp v pc)); [done|].
  rewrite drop_extra_eq.
  match goal with |- context [count_patients ?ch db ∅ ?l] =>
    destruct (count_patients ch db ∅ l) as [[counts|] log'] eqn:Hc; [|done] end.
  destruct (count_patients_sizes _ _ _ _ _ _ Hc) as (n & _ & Hs & Hn).
  intros [= <- <-]. simpl.
  rewrite Hs, membership_sizes_app, Hlog, sizes_page_query.
  rewrite Hcond, list_query_no_membership. simpl.
  rewrite Hn by done. rewrite firstn_all, !length_map, make_chunks_length.
  by rewrite !length_map.
Qed.

(** All batch results end up in one mapping. *)
Lemma count_patients_merged chunks db counts log counts' log' :
  count_patients chunks db counts log = (Some counts', log') ->
  exists sent,
    Forall2 (fun chunk ids => all_defined chunk = Some ids) chunks sent
    /\ counts' = foldl count_doc counts
                   (List.concat (map (fun ids => Firestore.get (patients_of ids) db) sent)).
Proof.
  revert counts log. induction chunks as [|chunk chunks IH]; intros counts log; simpl.
  - intros [= <- <-]. exists []. split; [constructor|done].
  - destruct (all_defined chunk) as [ids|] eqn:Hids; [|done].
    intros H. destruct (IH _ _ H) as (sent & Hsent & ->).
    exists (ids :: sent). split; [by constructor|]. simpl. by rewrite foldl_app.
Qed.
End therapist_batches.

Section patient_lookups.
Import PatientController.

Lemma patient_list_query_no_membership pc tid :
  List.concat (map membership_size (Firestore.conditions (list_query pc tid))) = [].
Proof.
  unfold list_query. repeat (case_match; simpl); done.
Qed.

Lemma patient_with_cursor_sizes c db q :
  membership_sizes (with_cursor c db q).2 = []
  /\ Firestore.conditions (with_cursor c db q).1 = Firestore.conditions q.
Proof.
  unfold with_cursor. destruct c as [c|]; [|done].
  destruct (Js.truthy c); [|done]. by destruct (Firestore.exists_ c db).
Qed.

(** The patient list fetch sends no [in] filter, whatever the request and
    the store. *)
Lemma fetchPatients_no_lookup k c kw pc tid db :
  membership_sizes (fetchPatients k c kw pc tid db).2 = [].
Proof.
  unfold fetchPatients.
  destruct (patient_with_cursor_sizes c db (list_query pc tid)) as [Hlog Hcond].
  destruct (with_cursor c db (list_query pc tid)) as [q0 log0].
  cbn [fst snd] in Hlog, Hcond.
  destruct (cursor_refused c db (list_query pc tid)); [done|].
  rewrite p_drop_extra_eq.
  assert (membership_sizes (log0 ++ [query_get (Firestore.limit_ (k + 1) q0)]) = [])
    as Hpage.
  { rewrite membership_sizes_app, Hlog, sizes_page_query.
    by rewrite Hcond, patient_list_query_no_membership. }
  destruct (foldl collect [] _); [|done].
  by repeat case_match.
Qed.

End patient_lookups.

(** C1. With [pageSize=25] and a page of twenty-five patients assigned to
    twenty-five different therapists, [getPatients] sends no [in] filter at
    all: the call [db.FieldPath.documentId()] that would build the filter
    throws, and the request is answered with status 500. No fetch of the
    patient list sends an [in] filter, whatever the request and the store.
    The therapist list endpoint, for a page of twenty-five therapists,
    sends three filters of ten, ten and five identifiers, and no fetch of
    the therapist list sends a filter of more than ten. *)
Theorem getPatients_fails_before_the_lookup_of_25_ids :
  (PatientController.getPatients [("pageSize", "25")] 0 ∅ Scenario.ward).1.1
  = Failed 500 PatientController.type_error
  /\ membership_sizes
       (PatientController.getPatients [("pageSize", "25")] 0 ∅ Scenario.ward).2
     = []
  /\ (forall k c kw pc tid db,
        membership_sizes (PatientController.fetchPatients k c kw pc tid db).2 = [])
  /\ membership_sizes
       (TherapistController.getTherapists [("pageSize", "25")] 0 ∅ Scenario.staff).2
     = [10%nat; 10%nat; 5%nat]
  /\ (forall k c kw sp v pc ex db,
        Forall (fun m => 1 <= m <= 10)%nat
          (membership_sizes
             (TherapistController.fetchTherapists k c kw sp v pc ex db).2)).
Proof.
  split; [by vm_compute|]. split; [by vm_compute|].
  split; [exact fetchPatients_no_lookup|].
  split; [by vm_compute|]. exact fetchTherapists_batches_bounded.
Qed.

(** ** C3: one record more than the page *)




Lemma after_elem c l d : d ∈ Firestore.after c l -> d ∈ l.
Proof.
  induction l as [|x l IH]; simpl; [done|].
  destruct (decide (id x = c)); intros H; apply elem_of_cons; right; [done|by apply IH].
Qed.

Lemma get_elem q db d : d ∈ Firestore.get q db -> d ∈ db.
Proof.
  unfold Firestore.get. intros H.
  assert (d ∈ List.filter (Firestore.matches (Firestore.conditions q))
            (match Firestore.startAfter q with
             | Some c =>
                 Firestore.after c
                   (match Firestore.orderBy q with
                    | Some o => Firestore.sort_desc o db
                    | None => db
                    end)
             | None =>
                 match Firestore.orderBy q with
                 | Some o => Firestore.sort_desc o db
                 | None => db
                 end
             end)) as H1.
  { destruct (Firestore.limit q); [|done].
    apply elem_of_take in H as (i & H & _). by eapply list_elem_of_lookup_2. }
  apply list_elem_of_In, filter_In in H1 as [H1 _]. apply list_elem_of_In in H1.
  assert (d ∈ match Firestore.orderBy q with
              | Some o => Firestore.sort_desc o db
              | None => db
              end) as H2.
  { destruct (Firestore.startAfter q); [by eapply after_elem|done]. }
  destruct (Firestore.orderBy q); [by eapply sort_desc_elem|done].
Qed.




(** A cursor document that has the ordering field is taken as a cursor. *)
Lemma therapist_cursor_with_key c db q o :
  Firestore.orderBy q = Some o ->
  (forall i d, c = Some i -> Firestore.doc i db = Some d ->
               is_Some (Firestore.order_key o d)) ->
  TherapistController.cursor_refused c db q = false.
Proof.
  intros Ho H. unfold TherapistController.cursor_refused.
  destruct c as [i|]; [|done].
  destruct (Firestore.doc i db) as [d|] eqn:Hd; [|apply andb_false_r].
  unfold Firestore.accepts_cursor, Firestore.has_key. rewrite Ho.
  destruct (H i d eq_refl Hd) as [x ->]. apply andb_false_r.
Qed.

Lemma patient_cursor_with_key c db q o :
  Firestore.orderBy q = Some o ->
  (forall i d, c = Some i -> Firestore.doc i db = Some d ->
               is_Some (Firestore.order_key o d)) ->
  PatientController.cursor_refused c db q = false.
Proof. exact (therapist_cursor_with_key c db q o). Qed.






Lemma eleven_NoDup : NoDup (map id Scenario.eleven).
Proof. apply (bool_decide_unpack _). vm_compute. exact I. Qed.

Lemma eleven_ids d : d ∈ Scenario.eleven -> id d <> EmptyString.
Proof.
  intros Hd. assert (Forall (fun d => id d <> EmptyString) Scenario.eleven) as H.
  { apply (bool_decide_unpack _). vm_compute. exact I. }
  by eapply Forall_forall in H.
Qed.


(** ** C6: the cursor *)

Lemma residual_filter_app kw ex l1 l2 :
  TherapistController.residual_filter kw ex (l1 ++ l2)
  = TherapistController.residual_filter kw ex l1
    ++ TherapistController.residual_filter kw ex l2.
Proof.
  unfold TherapistController.residual_filter.
  destruct (Js.truthy kw); destruct (_ && _)%bool; by rewrite ?List.filter_app.
Qed.

Lemma residual_filter_last kw ex l x :
  last l = Some x ->
  TherapistController.residual_filter kw ex [x] = [x] ->
  last (TherapistController.residual_filter kw ex l) = Some x.
Proof.
  intros Hl Hx. apply last_Some in Hl as [l' ->].
  by rewrite residual_filter_app, Hx, last_snoc.
Qed.

Lemma filter_throwing_last {A} (f : A -> option bool) l ys x :
  PatientController.filter_throwing f l = Some ys ->
  last l = Some x -> f x = Some true -> last ys = Some x.
Proof.
  revert ys. induction l as [|y l IH]; intros ys; simpl; [done|].
  destruct (f y) as [b|] eqn:Hy; [|done].
  destruct (PatientController.filter_throwing f l) as [zs|] eqn:Hz; [|done].
  intros [= <-] Hl Hx. destruct l as [|y' l].
  - simpl in Hz. injection Hz as <-. simpl in Hl. injection Hl as ->.
    rewrite Hx in Hy. by injection Hy as <-.
  - assert (last zs = Some x) as Hzs by (by apply IH).
    destruct b; [|done]. destruct zs; [done|]. done.
Qed.

Lemma keyword_filter_attach s tm p :
  PatientController.keyword_filter s (PatientController.attach tm p)
  = PatientController.keyword_filter s p.
Proof. unfold PatientController.keyword_filter. by rewrite attach_stored. Qed.

Lemma fetchPatients_last k c kw pc tid db p log d :
  PatientController.fetchPatients k c kw pc tid db
  = (Ok (PatientController.page_data p), log) ->
  let q := Firestore.limit_ (k + 1)
             (PatientController.with_cursor c db (PatientController.list_query pc tid)).1 in
  let docs := (PatientController.drop_extra k (Firestore.get q db)).2 in
  last docs = Some d ->
  (Js.truthy_opt kw = false
   \/ exists s, kw = Some s
        /\ PatientController.keyword_filter (Js.toLowerCase s)
             (PatientController.to_patient d) = Some true) ->
  (fun x => id (PatientController.stored x)) <$> last (PatientController.patients p)
  = Some (id d).
Proof.
  unfold PatientController.fetchPatients.
  destruct (PatientController.with_cursor c db (PatientController.list_query pc tid))
    as [q0 log0]. simpl.
  destruct (PatientController.cursor_refused c db (PatientController.list_query pc tid));
    [done|].
  rewrite p_drop_extra_eq.
  set (docs := if (k <? _)%nat then _ else _).
  destruct (foldl PatientController.collect [] docs); [|done].
  set (tm := ∅ : gmap string PatientController.therapistRef).
  set (all := map (PatientController.attach tm) (map PatientController.to_patient docs)).
  assert (last all = Some (PatientController.attach tm (PatientController.to_patient d))
          <-> last docs = Some d) as Hall.
  { subst all.
    change (map (PatientController.attach tm) (map PatientController.to_patient docs))
      with (PatientController.attach tm <$> (PatientController.to_patient <$> docs)).
    rewrite !fmap_last. split.
    - destruct (last docs) as [d'|]; simpl; [|done].
      intros [= H]. f_equal.
      assert (PatientController.stored
                (PatientController.attach tm (PatientController.to_patient d'))
              = PatientController.stored
                  (PatientController.attach tm (PatientController.to_patient d))) as Hs
        by (by rewrite H).
      by rewrite !attach_stored in Hs.
    - by intros ->. }
  set (fp := match kw with Some _ => _ | None => _ end).
  destruct fp as [fp'|] eqn:Hfp; [|done].
  intros [= <- <-] Hd Hkeep. simpl. apply Hall in Hd.
  assert (last fp' = Some (PatientController.attach tm (PatientController.to_patient d)))
    as ->; [|simpl; by rewrite attach_stored].
  subst fp. destruct Hkeep as [Hkw|(s & -> & Hs)].
  - destruct kw as [kw|]; simpl in Hkw; [rewrite Hkw in Hfp|]; by injection Hfp as <-.
  - destruct (Js.truthy s); [|by injection Hfp as <-].
    eapply filter_throwing_last; [exact Hfp|exact Hd|].
    by rewrite keyword_filter_attach.
Qed.

(** C6, as amended. The cursor of a served page is the identifier of the
    last record of the store-level page, after the extra record is dropped
    (and [null] when that page is empty); it is the identifier of the last
    returned item whenever the client-side filter keeps that record, in
    particular when no such filter is given. *)
Theorem cursor_is_last_record_of_store_page :
  (forall k c kw sp v pc ex db p log,
      TherapistController.fetchTherapists (Some k) c kw sp v pc ex db = (Ok p, log) ->
      let q := Firestore.limit_ (k + 1)
                 (TherapistController.with_cursor c db
                    (TherapistController.list_query sp v pc)).1 in
      let returned := Firestore.get q db in
      let kept := if TherapistController.hasMore p then removelast returned else returned in
      TherapistController.lastDocId p = id <$> last kept
      /\ (forall d, last kept = Some d ->
            TherapistController.residual_filter kw ex
              [TherapistController.transformTherapistData d]
            = [TherapistController.transformTherapistData d] ->
            TherapistController.lastDocId p
            = TherapistController.t_id <$> last (TherapistController.therapists p)))
  /\ (forall k c kw pc tid db p log,
      PatientController.fetchPatients k c kw pc tid db
      = (Ok (PatientController.page_data p), log) ->
      let q := Firestore.limit_ (k + 1)
                 (PatientController.with_cursor c db
                    (PatientController.list_query pc tid)).1 in
      let returned := Firestore.get q db in
      let kept := if PatientController.hasMore p then removelast returned else returned in
      PatientController.lastDocId p = id <$> last kept
      /\ (forall d, last kept = Some d ->
            (Js.truthy_opt kw = false
             \/ exists s, kw = Some s
                  /\ PatientController.keyword_filter (Js.toLowerCase s)
                       (PatientController.to_patient d) = Some true) ->
            PatientController.lastDocId p
            = (fun x => id (PatientController.stored x))
                <$> last (PatientController.patients p))).
Proof.
  split.
  - intros k c kw sp v pc ex db p log H.
    destruct (fetchTherapists_inv _ _ _ _ _ _ _ _ _ _ H) as (_ & Hh & Hl & Hi & _).
    intros q returned kept. subst kept. fold q in Hh, Hl, Hi. fold returned in Hh, Hl, Hi.
    rewrite drop_extra_eq in Hl, Hi. simpl in Hl, Hi. rewrite <- Hh in Hl, Hi.
    split; [done|]. intros d Hd Hkeep. rewrite Hl, Hd. simpl.
    rewrite <- fmap_last.
    change (TherapistController.t_id <$> TherapistController.therapists p)
      with (map TherapistController.t_id (TherapistController.therapists p)).
    rewrite Hi.
    change (map TherapistController.t_id ?l) with (TherapistController.t_id <$> l).
    rewrite fmap_last.
    rewrite (residual_filter_last kw ex _ (TherapistController.transformTherapistData d));
      [done| |done].
    change (map TherapistController.transformTherapistData ?l)
      with (TherapistController.transformTherapistData <$> l).
    by rewrite fmap_last, Hd.
  - intros k c kw pc tid db p log H.
    destruct (fetchPatients_inv _ _ _ _ _ _ _ _ H) as (_ & Hh & Hl & _).
    cbv zeta in *. rewrite p_drop_extra_eq in Hl. cbn [snd] in Hl. rewrite <- Hh in Hl.
    split; [done|]. intros d Hd Hkeep.
    pose proof (fetchPatients_last _ _ _ _ _ _ _ _ d H) as Hlast.
    cbv zeta in Hlast. rewrite p_drop_extra_eq in Hlast. cbn [snd] in Hlast.
    rewrite <- Hh in Hlast. rewrite Hl, Hd. simpl. symmetry. by apply Hlast.
Qed.

(** C6, as stated, fails: with the keyword [alice] only the first of the
    three therapists of the page is returned, and the cursor names the
    third. *)
Lemma cursor_differs_from_last_item_under_keyword :
  exists p cache log,
    TherapistController.getTherapists [("keyword", "alice")] 0 ∅ Scenario.clinic
    = (Ok (TherapistController.page_data p), cache, log)
    /\ TherapistController.lastDocId p = Some "T3"
    /\ TherapistController.t_id <$> last (TherapistController.therapists p) = Some "T1"
    /\ TherapistController.lastDocId p
       <> TherapistController.t_id <$> last (TherapistController.therapists p).
Proof.
  eexists _, _, _. split; [vm_compute; reflexivity|]. vm_compute.
  repeat split. discriminate.
Qed.

(** A page of two of the three therapists, without filters. *)
Lemma cursor_is_last_record_witness :
  exists p log,
    TherapistController.fetchTherapists (Some 2%nat) None EmptyString EmptyString
      EmptyString EmptyString EmptyString Scenario.clinic = (Ok p, log)
    /\ TherapistController.lastDocId p = Some "T2"
    /\ TherapistController.lastDocId p
       = TherapistController.t_id <$> last (TherapistController.therapists p).
Proof.
  eexists _, _. split; [vm_compute; reflexivity|].
  split; [vm_compute; reflexivity|].
  refine (proj2 (proj1 cursor_is_last_record_of_store_page 2%nat None EmptyString
                   EmptyString EmptyString EmptyString EmptyString Scenario.clinic
                   _ _ _) (Scenario.therapist_doc "T2" "u2" "Bashir" 7 20) _ _).
  - vm_compute. reflexivity.
  - vm_compute. reflexivity.
  - vm_compute. reflexivity.
Defined.

(** ** C5: filters that do nothing *)

Lemma prop_app_ne g f v q : f <> g -> Js.prop g (q ++ [(f, v)]) = Js.prop g q.
Proof.
  intros Hne. induction q as [|[k x] q IH]; simpl.
  - by rewrite decide_False.
  - by rewrite IH.
Qed.

Lemma prop_app_eq f v q : Js.prop f q = None -> Js.prop f (q ++ [(f, v)]) = Some v.
Proof.
  induction q as [|[k x] q IH]; simpl.
  - by rewrite decide_True.
  - destruct (decide (k = f)); [done|]. exact IH.
Qed.

Section therapist_filters.
Import TherapistController.

Lemma getTherapists_cold query now db :
  getTherapists query now ∅ db
  = match fetchTherapists
            (match Js.prop "pageSize" query with
             | Some s => Js.parseInt s
             | None => Some 15%nat
             end)
            (Js.prop "lastDocId" query)
            (default EmptyString (Js.prop "keyword" query))
            (default EmptyString (Js.prop "specialization" query))
            (default EmptyString (Js.prop "isVerified" query))
            (default EmptyString (Js.prop "isProfileComplete" query))
            (default EmptyString (Js.prop "experience" query)) db with
    | (Ok result, log) =>
        (Ok (page_data result),
         if Js.truthy_opt (Js.prop "lastDocId" query) then ∅
         else setCachedData ("therapists_" +:+ Js.stringify query) (page_data result) now ∅,
         log)
    | (Failed status msg, log) => (Failed status msg, ∅, log)
    end.
Proof. unfold getTherapists, getCachedData. by rewrite lookup_empty. Qed.

Lemma fetch_specialization_all k c kw v pc ex db :
  fetchTherapists k c kw "all" v pc ex db
  = fetchTherapists k c kw EmptyString v pc ex db.
Proof. reflexivity. Qed.

Lemma fetch_isVerified_all k c kw sp pc ex db :
  fetchTherapists k c kw sp "all" pc ex db
  = fetchTherapists k c kw sp EmptyString pc ex db.
Proof.
  unfold fetchTherapists, list_query. by destruct (_ && _)%bool.
Qed.

Lemma fetch_isProfileComplete_all k c kw sp v ex db :
  fetchTherapists k c kw sp v "all" ex db
  = fetchTherapists k c kw sp v EmptyString ex db.
Proof.
  unfold fetchTherapists, list_query.
  by destruct (Js.truthy sp && _)%bool; destruct (negb (bool_decide (v = _)) && _)%bool.
Qed.

Lemma fetch_experience_all k c kw sp v pc db :
  fetchTherapists k c kw sp v pc "all" db
  = fetchTherapists k c kw sp v pc EmptyString db.
Proof. reflexivity. Qed.

Lemma therapist_filter_noop (f v : string) query now db :
  f ∈ ["specialization"; "isVerified"; "isProfileComplete"; "experience"] ->
  v = "all" \/ v = EmptyString ->
  Js.prop f query = None ->
  same_answer (getTherapists (query ++ [(f, v)]) now ∅ db) (getTherapists query now ∅ db).
Proof.
  intros Hf Hv Hq. rewrite !getTherapists_cold.
  repeat (apply elem_of_cons in Hf as [->|Hf]); [| | | |by apply elem_of_nil in Hf].
  all: rewrite (prop_app_eq _ _ _ Hq), !prop_app_ne by done; rewrite Hq; simpl.
  all: destruct Hv as [->| ->];
    rewrite ?fetch_specialization_all, ?fetch_isVerified_all,
      ?fetch_isProfileComplete_all, ?fetch_experience_all.
  all: by destruct (fetchTherapists _ _ _ _ _ _ _ db) as [[?|? ?] ?].
Qed.

Lemma therapist_keyword_empty query now db :
  Js.prop "keyword" query = None ->
  same_answer (getTherapists (query ++ [("keyword", EmptyString)]) now ∅ db)
              (getTherapists query now ∅ db).
Proof.
  intros Hq. rewrite !getTherapists_cold.
  rewrite (prop_app_eq _ _ _ Hq), !prop_app_ne by done; rewrite Hq; simpl.
  by destruct (fetchTherapists _ _ _ _ _ _ _ db) as [[?|? ?] ?].
Qed.
End therapist_filters.

Lemma patient_filter_empty (f : string) query now cache db :
  f ∈ ["keyword"; "profileComplete"; "therapistId"] ->
  Js.prop f query = None ->
  PatientController.getPatients (query ++ [(f, EmptyString)]) now cache db
  = PatientController.getPatients query now cache db.
Proof.
  intros Hf Hq. unfold PatientController.getPatients.
  repeat (apply elem_of_cons in Hf as [->|Hf]); [| | |by apply elem_of_nil in Hf].
  all: rewrite (prop_app_eq _ _ _ Hq), !prop_app_ne by done; rewrite Hq; simpl.
  all: reflexivity.
Qed.

(** C5, as amended. For [specialization], [isVerified], [isProfileComplete]
    and [experience], the value [all], the empty string and the absence of
    the parameter give the same answer; so do the empty string and the
    absence of the parameter for [keyword] (both lists) and
    [profileComplete]. *)
Theorem filters_that_do_nothing :
  (forall (f v : string) (query : list (string * string)) (now : Z) (db : list user),
      f ∈ ["specialization"; "isVerified"; "isProfileComplete"; "experience"] ->
      v = "all" \/ v = EmptyString ->
      Js.prop f query = None ->
      same_answer (TherapistController.getTherapists (query ++ [(f, v)]) now ∅ db)
                  (TherapistController.getTherapists query now ∅ db))
  /\ (forall (query : list (string * string)) (now : Z) (db : list user),
      Js.prop "keyword" query = None ->
      same_answer
        (TherapistController.getTherapists (query ++ [("keyword", EmptyString)]) now ∅ db)
        (TherapistController.getTherapists query now ∅ db))
  /\ (forall (f : string) (query : list (string * string)) (now : Z)
             (cache : gmap string (entry PatientController.payload)) (db : list user),
      f ∈ ["keyword"; "profileComplete"] ->
      Js.prop f query = None ->
      PatientController.getPatients (query ++ [(f, EmptyString)]) now cache db
      = PatientController.getPatients query now cache db).
Proof.
  split; [|split].
  - apply therapist_filter_noop.
  - apply therapist_keyword_empty.
  - intros f query now cache db Hf. apply patient_filter_empty.
    apply elem_of_cons in Hf as [->|Hf]; [by apply elem_of_cons; left|].
    apply list_elem_of_singleton in Hf as ->.
    apply elem_of_cons; right. by apply elem_of_cons; left.
Qed.

(** The therapist list of the small clinic, with [specialization=all]. *)
Lemma filters_that_do_nothing_witness :
  same_answer
    (TherapistController.getTherapists [("pageSize", "2"); ("specialization", "all")]
       0 ∅ Scenario.clinic)
    (TherapistController.getTherapists [("pageSize", "2")] 0 ∅ Scenario.clinic).
Proof.
  apply (proj1 filters_that_do_nothing "specialization" "all" [("pageSize", "2")]
           0 Scenario.clinic).
  - apply elem_of_cons. by left.
  - by left.
  - reflexivity.
Defined.

(** C5, as stated, fails for [keyword]: [all] is searched for like any
    other term, and no therapist of the small clinic contains it. *)
Lemma keyword_all_is_searched_for :
  exists p q cache1 cache2 log1 log2,
    TherapistController.getTherapists [("keyword", "all")] 0 ∅ Scenario.clinic
    = (Ok (TherapistController.page_data p), cache1, log1)
    /\ TherapistController.getTherapists [] 0 ∅ Scenario.clinic
       = (Ok (TherapistController.page_data q), cache2, log2)
    /\ TherapistController.total p = 0%nat
    /\ TherapistController.total q = 3%nat
    /\ ~ same_answer
          (TherapistController.getTherapists [("keyword", "all")] 0 ∅ Scenario.clinic)
          (TherapistController.getTherapists [] 0 ∅ Scenario.clinic).
Proof.
  eexists _, _, _, _, _, _. split; [vm_compute; reflexivity|].
  split; [vm_compute; reflexivity|]. split; [reflexivity|]. split; [reflexivity|].
  intros [H _]. vm_compute in H. discriminate H.
Qed.

(** The value [all] of [profileComplete] is compared with [true] like any
    other value, so the patient list then selects the incomplete profiles. *)
Lemma profileComplete_all_selects_incomplete (therapistId : option string) :
  PatientController.list_query (Some "all") therapistId
  = PatientController.list_query (Some "false") therapistId.
Proof. reflexivity. Qed.

(** ** C9, C10, C2: writes *)

Lemma doc_update i (h : user -> user) db :
  (forall d, id (h d) = id d) ->
  Firestore.doc i (Firestore.update i h db) = h <$> Firestore.doc i db.
Proof.
  intros Hh. unfold Firestore.doc, Firestore.update.
  induction db as [|d db IH]; simpl; [done|].
  destruct (decide (id d = i)) as [Hd|Hd].
  - rewrite !bool_decide_eq_true_2; [done|done|by rewrite Hh].
  - rewrite !bool_decide_eq_false_2 by done. exact IH.
Qed.

Section flags.
Import PatientController.



Lemma occurrences_app f l1 l2 :
  occurrences f (l1 ++ l2) = (occurrences f l1 + occurrences f l2)%nat.
Proof. unfold occurrences. by rewrite List.filter_app, length_app. Qed.




End flags.



Section update.
Import PatientController.

Lemma changed_str_same x cur : same_string x cur -> changed_str x cur = None.
Proof.
  intros H. unfold changed_str. destruct x as [v|]; [|done].
  by rewrite (H v eq_refl), bool_decide_eq_true_2.
Qed.

Lemma changed_val_same x cur : same_value x cur -> changed_val x cur = None.
Proof.
  intros H. unfold changed_val. destruct x as [v|]; [|done].
  destruct (H v eq_refl) as (c & -> & ->). done.
Qed.

(** C10, as amended. When the request supplies none of the fields
    [assigned_therapist], [flags] and [documents], and each of [name],
    [email], [age], [gender], [concerns] and [emergencyContact] it
    supplies is strictly equal to the stored value, [updatePatient] writes
    nothing: the store is unchanged, and the response still carries the
    time of the request as [updatedAt] and [updated_at], which differs
    from the stored [updatedAt] unless they happen to coincide. *)
Theorem updatePatient_without_changes (i : string) (body : patientUpdate) (now : Z)
    (cache : gmap string (entry payload)) (db : list user) (d : user) :
  Firestore.doc i db = Some d ->
  role d = Some "patient" ->
  u_assigned_therapist body = None ->
  u_flags body = None ->
  u_documents body = None ->
  same_string (u_name body) (name d) ->
  same_string (u_email body) (email d) ->
  same_value (u_age body) (age d) ->
  same_value (u_gender body) (gender d) ->
  same_value (u_concerns body) (concerns d) ->
  same_value (u_emergencyContact body) (emergencyContact d) ->
  exists p cache',
    updatePatient i body now cache db = (Ok p, cache', db)
    /\ updated_at p = Some now
    /\ updatedAt (stored p) = Some now
    /\ (updatedAt d <> Some now -> updated_at p <> updatedAt d).
Proof.
  intros Hd Hr Ht Hf Hdoc Hn He Ha Hg Hc Hec.
  unfold updatePatient, is_patient. rewrite Hd, Hr. simpl.
  unfold updateData, keys_length. simpl.
  rewrite Ht, Hf, Hdoc, !changed_str_same, !changed_val_same by done. simpl.
  eexists _, _. split; [reflexivity|]. simpl. repeat split. congruence.
Qed.
End update.

(** The patient [P3] of the small clinic, with the stored name supplied. *)
Lemma updatePatient_without_changes_witness :
  exists p cache',
    PatientController.updatePatient "P3"
      (PatientController.PatientUpdate (Some "Farid") None None None None None None None None)
      99 ∅ Scenario.clinic
    = (Ok p, cache', Scenario.clinic)
    /\ PatientController.updated_at p = Some 99
    /\ updatedAt (PatientController.stored p) = Some 99
    /\ (Some 1 <> Some 99 -> PatientController.updated_at p <> Some 1).
Proof.
  apply (updatePatient_without_changes "P3"
           (PatientController.PatientUpdate (Some "Farid") None None None None None
              None None None)
           99 ∅ Scenario.clinic
           (Scenario.patient_doc "P3" "Farid" 1 None None [])).
  - reflexivity.
  - reflexivity.
  - reflexivity.
  - reflexivity.
  - reflexivity.
  - intros v. simpl. by intros [= <-].
  - intros v. simpl. discriminate.
  - intros v. simpl. discriminate.
  - intros v. simpl. discriminate.
  - intros v. simpl. discriminate.
  - intros v. simpl. discriminate.
Defined.

(** C10, as stated, fails: the stored flags of [P1], supplied again, are
    written, and the write changes the stored [updatedAt]. *)
Lemma updatePatient_writes_equal_flags :
  let body :=
    PatientController.PatientUpdate None None None None None None None
      (Some ["High Risk"]) None in
  flags <$> Firestore.doc "P1" Scenario.clinic = Some (Some ["High Risk"])
  /\ (PatientController.updatePatient "P1" body 99 ∅ Scenario.clinic).2 <> Scenario.clinic
  /\ updatedAt <$> Firestore.doc "P1" Scenario.clinic = Some (Some 3)
  /\ updatedAt
       <$> Firestore.doc "P1"
             (PatientController.updatePatient "P1" body 99 ∅ Scenario.clinic).2
     = Some (Some 99).
Proof.
  split; [reflexivity|]. split; [vm_compute; discriminate|].
  split; vm_compute; reflexivity.
Qed.

Section assignment.
Import TherapistController.

Lemma commit_map b db db' :
  Firestore.commit b db = Some db' -> db' = map (apply_writes b) db.
Proof.
  unfold Firestore.commit. destruct (forallb _ b); [|done]. intros [= <-].
  clear. revert db. induction b as [|w b IH]; intros db; simpl.
  - by rewrite map_id.
  - rewrite IH. unfold Firestore.update. rewrite map_map. done.
Qed.

Lemma commit_exists b db db' w :
  Firestore.commit b db = Some db' -> w ∈ b -> Firestore.exists_ w.1 db = true.
Proof.
  unfold Firestore.commit. destruct (forallb _ b) eqn:Hall; [|done]. intros _ Hw.
  rewrite forallb_forall in Hall. apply Hall. by apply list_elem_of_In.
Qed.

Lemma apply_writes_app b1 b2 d :
  apply_writes (b1 ++ b2) d = apply_writes b2 (apply_writes b1 d).
Proof. unfold apply_writes. by rewrite foldl_app. Qed.

Lemma apply_clears now (current : list user) d :
  let d' := apply_writes (map (fun x => (id x, unassign now)) current) d in
  id d' = id d /\ role d' = role d
  /\ assigned_therapist d' = assigned_therapist d
  /\ (id d ∈ map id current -> assignedTherapist d' = None)
  /\ (id d ∉ map id current -> d' = d).
Proof.
  revert d. induction current as [|x current IH]; intros d; simpl.
  - repeat split; try done. intros H. by apply elem_of_nil in H.
  - destruct (decide (id d = id x)) as [Hx|Hx].
    + destruct (IH (unassign now d)) as (Hi & Hr & Hs & Hin & Hout).
      split; [done|]. split; [done|]. split; [done|]. split.
      * intros _. destruct (decide (id d ∈ map id current)) as [Hc|Hc].
        -- by apply Hin.
        -- by rewrite Hout.
      * intros H. exfalso. apply H. apply elem_of_cons. by left.
    + destruct (IH d) as (Hi & Hr & Hs & Hin & Hout).
      split; [done|]. split; [done|]. split; [done|]. split.
      * intros H. apply elem_of_cons in H as [H|H]; [done|by apply Hin].
      * intros H. apply Hout. intros Hc. apply H. apply elem_of_cons. by right.
Qed.

Lemma apply_assigns u info now (ids : list string) d :
  let d' := apply_writes (map (fun p => (p, assign u info now)) ids) d in
  id d' = id d /\ role d' = role d
  /\ assigned_therapist d' = assigned_therapist d
  /\ (id d ∈ ids -> assignedTherapist d' = Some u)
  /\ (id d ∉ ids -> d' = d).
Proof.
  revert d. induction ids as [|p ids IH]; intros d; simpl.
  - repeat split; try done. intros H. by apply elem_of_nil in H.
  - destruct (decide (id d = p)) as [Hp|Hp].
    + destruct (IH (assign u info now d)) as (Hi & Hr & Hs & Hin & Hout).
      split; [done|]. split; [done|]. split; [done|]. split.
      * intros _. destruct (decide (id d ∈ ids)) as [Hc|Hc].
        -- by apply Hin.
        -- by rewrite Hout.
      * intros H. exfalso. apply H. apply elem_of_cons. by left.
    + destruct (IH d) as (Hi & Hr & Hs & Hin & Hout).
      split; [done|]. split; [done|]. split; [done|]. split.
      * intros H. apply elem_of_cons in H as [H|H]; [done|by apply Hin].
      * intros H. apply Hout. intros Hc. apply H. apply elem_of_cons. by right.
Qed.

Lemma currently_assigned_elem u db d :
  d ∈ Firestore.get (currently_assigned u) db
  <-> d ∈ db /\ role d = Some "patient" /\ assignedTherapist d = Some u.
Proof.
  unfold Firestore.get, currently_assigned. simpl.
  rewrite list_elem_of_In, filter_In, <- list_elem_of_In.
  unfold Firestore.matches. simpl.
  rewrite andb_true_r, andb_true_iff, !bool_decide_eq_true. tauto.
Qed.

(** What the reassignment does to the therapist-side field. *)
Lemma assignPatients_therapist_side i pids now cache db a cache' db' t u :
  assignPatientsToTherapist i pids now cache db = (Ok a, cache', db') ->
  Firestore.doc i db = Some t -> uid t = Some u ->
  exists g : user -> user,
    db' = map g db
    /\ (forall p, p ∈ default [] pids -> Firestore.exists_ p db = true)
    /\ forall d, d ∈ db ->
         id (g d) = id d /\ role (g d) = role d
         /\ assigned_therapist (g d) = assigned_therapist d
         /\ (id d ∈ default [] pids -> assignedTherapist (g d) = Some u)
         /\ (id d ∉ default [] pids -> role d = Some "patient" ->
             assignedTherapist (g d) <> Some u)
         /\ (id d ∉ default [] pids -> role d = Some "patient" ->
             assignedTherapist d = Some u -> assignedTherapist (g d) = None).
Proof.
  intros H Ht Hu. unfold assignPatientsToTherapist in H. rewrite Ht in H.
  destruct (negb _); [done|]. rewrite Hu in H.
  set (ids := default [] pids) in *.
  set (current := Firestore.get (currently_assigned u) db) in *.
  match type of H with
  | match ?x with _ => _ end = _ => destruct x as [assigns|] eqn:Ha; [|done]
  end.
  destruct (Firestore.commit _ db) as [db1|] eqn:Hc; [|done].
  injection H as _ _ <-.
  assert (exists info, assigns = map (fun p => (p, assign u info now)) ids) as [info ->].
  { destruct ids as [|p ids'].
    - injection Ha as <-. by exists (TherapistInfo u u u u u).
    - destruct (snapshot_of u t) as [info|]; [|done]. injection Ha as <-. by exists info. }
  exists (apply_writes (map (fun d => (id d, unassign now)) current
                        ++ map (fun p => (p, assign u info now)) ids ++ [(i, touch now)])).
  split; [by apply commit_map|]. split.
  - intros p Hp.
    apply (commit_exists _ _ _ (p, assign u info now) Hc).
    rewrite !elem_of_app. right. left.
    apply list_elem_of_fmap. by exists p.
  - intros d Hd. rewrite !apply_writes_app.
    destruct (apply_clears now current d) as (Hi1 & Hr1 & Hs1 & Hin1 & Hout1).
    set (d1 := apply_writes (map (fun x => (id x, unassign now)) current) d) in *.
    destruct (apply_assigns u info now ids d1) as (Hi2 & Hr2 & Hs2 & Hin2 & Hout2).
    set (d2 := apply_writes (map (fun p => (p, assign u info now)) ids) d1) in *.
    assert (id (apply_writes [(i, touch now)] d2) = id d2
            /\ role (apply_writes [(i, touch now)] d2) = role d2
            /\ assigned_therapist (apply_writes [(i, touch now)] d2)
               = assigned_therapist d2
            /\ assignedTherapist (apply_writes [(i, touch now)] d2)
               = assignedTherapist d2) as (Hi3 & Hr3 & Hs3 & Ha3).
    { unfold apply_writes. simpl. by destruct (decide (id d2 = i)). }
    rewrite Hi3, Hr3, Hs3, Ha3, Hi2, Hr2, Hs2, Hi1, Hr1, Hs1.
    split; [done|]. split; [done|]. split; [done|]. split; [|split].
    + intros Hin. apply Hin2. by rewrite Hi1.
    + intros Hout Hrole. rewrite Hout2 by (by rewrite Hi1).
      destruct (decide (id d ∈ map id current)) as [Hc1|Hc1].
      * by rewrite Hin1.
      * rewrite Hout1 by done. intros Hass. apply Hc1.
        apply list_elem_of_fmap. exists d. split; [done|].
        by apply currently_assigned_elem.
    + intros Hout Hrole Hass. rewrite Hout2 by (by rewrite Hi1).
      apply Hin1. apply list_elem_of_fmap. exists d. split; [done|].
      by apply currently_assigned_elem.
Qed.
End assignment.

(** C2. A patient assigned to therapist [T1] through the patient-side
    endpoint keeps that reference when [T1] is then given the new patient
    set [P2] through the therapist-side endpoint: the reassignment clears
    the patient [P1] it finds under [assignedTherapist] and sets [P2], but
    [P3], which is not in the new set, still names [T1] in
    [assigned_therapist]. *)
Theorem patient_side_assignment_survives_reassignment :
  let first :=
    PatientController.assignTherapistToPatient "P3" (Some "T1") 50 ∅ Scenario.clinic in
  let second :=
    TherapistController.assignPatientsToTherapist "T1" (Some ["P2"]) 60 ∅ first.2 in
  (exists p, first.1.1 = Ok p)
  /\ (exists a, second.1.1 = Ok a)
  /\ assignedTherapist <$> Firestore.doc "P1" Scenario.clinic = Some (Some "u1")
  /\ assignedTherapist <$> Firestore.doc "P1" second.2 = Some None
  /\ assignedTherapist <$> Firestore.doc "P2" second.2 = Some (Some "u1")
  /\ assigned_therapist <$> Firestore.doc "P3" second.2 = Some (Some "T1")
  /\ assignedTherapist <$> Firestore.doc "P3" second.2 = Some None.
Proof.
  vm_compute. split; [eexists; reflexivity|]. split; [eexists; reflexivity|].
  repeat split.
Qed.

(** * Further properties of the controllers, the middleware and the routes *)

(** ** Patient counts of the therapist list *)

Section counts.
Import TherapistController.

Lemma count_doc_lookup counts docs u :
  u <> EmptyString ->
  default 0%nat (foldl count_doc counts docs !! u)
  = (default 0%nat (counts !! u)
     + List.length
         (List.filter (fun d => bool_decide (assignedTherapist d = Some u)) docs))%nat.
Proof.
  intros Hu. revert counts. induction docs as [|d docs IH]; intros counts; simpl.
  - lia.
  - rewrite IH. unfold count_doc.
    destruct (assignedTherapist d) as [a|] eqn:Ha.
    + destruct (Js.truthy a) eqn:Ht.
      * destruct (decide (a = u)) as [->|Hne].
        -- rewrite lookup_insert_eq, bool_decide_eq_true_2 by done. simpl. lia.
        -- rewrite lookup_insert_ne by done.
           rewrite bool_decide_eq_false_2 by congruence. lia.
      * destruct a; [|done].
        rewrite bool_decide_eq_false_2 by congruence. lia.
    + rewrite bool_decide_eq_false_2 by done. lia.
Qed.

Lemma patients_of_assigned ids u db :
  List.filter (fun d => bool_decide (assignedTherapist d = Some u))
    (Firestore.get (patients_of ids) db)
  = if bool_decide (u ∈ ids) then Firestore.get (currently_assigned u) db else [].
Proof.
  unfold Firestore.get. simpl.
  induction db as [|d db IH]; simpl.
  - by case_bool_decide.
  - destruct (bool_decide (role d = Some "patient")) eqn:Hr; simpl; [|exact IH].
    destruct (assignedTherapist d) as [a|] eqn:Ha; simpl.
    + destruct (decide (a = u)) as [->|Hne].
      * rewrite (bool_decide_eq_true_2 (Some u = Some u)) by done.
        destruct (bool_decide (u ∈ ids)) eqn:Hin; simpl.
        -- rewrite Ha, bool_decide_eq_true_2 by done. by rewrite IH.
        -- exact IH.
      * rewrite (bool_decide_eq_false_2 (Some a = Some u)) by congruence.
        destruct (bool_decide (a ∈ ids)); simpl.
        -- rewrite Ha, bool_decide_eq_false_2 by congruence. exact IH.
        -- exact IH.
    + exact IH.
Qed.

Lemma assigned_in_batches (sent : list (list string)) u db :
  NoDup (List.concat sent) ->
  List.length
    (List.filter (fun d => bool_decide (assignedTherapist d = Some u))
       (List.concat (map (fun ids => Firestore.get (patients_of ids) db) sent)))
  = if bool_decide (u ∈ List.concat sent)
    then List.length (Firestore.get (currently_assigned u) db) else 0%nat.
Proof.
  induction sent as [|ids sent IH]; simpl; intros Hnd.
  - done.
  - apply NoDup_app in Hnd as (_ & Hdis & Hnd).
    rewrite List.filter_app, length_app, patients_of_assigned, (IH Hnd).
    destruct (bool_decide (u ∈ ids)) eqn:Hin.
    + apply bool_decide_eq_true in Hin.
      rewrite (bool_decide_eq_false_2 (u ∈ List.concat sent)) by auto.
      rewrite bool_decide_eq_true_2 by (apply elem_of_app; auto). lia.
    + apply bool_decide_eq_false in Hin. simpl.
      destruct (bool_decide (u ∈ List.concat sent)) eqn:Hin2.
      * apply bool_decide_eq_true in Hin2.
        by rewrite bool_decide_eq_true_2 by (apply elem_of_app; auto).
      * apply bool_decide_eq_false in Hin2.
        rewrite bool_decide_eq_false_2; [done|].
        rewrite elem_of_app. tauto.
Qed.

Lemma all_defined_fmap {A} (l : list (option A)) xs :
  all_defined l = Some xs -> l = Some <$> xs.
Proof.
  revert xs. induction l as [|[x|] l IH]; intros xs; simpl.
  - by intros [= <-].
  - destruct (all_defined l) as [ys|]; [|done]. intros [= <-].
    by rewrite (IH ys).
  - done.
Qed.

Lemma sent_concat {A} (chunks : list (list (option A))) sent :
  Forall2 (fun chunk ids => all_defined chunk = Some ids) chunks sent ->
  List.concat chunks = Some <$> List.concat sent.
Proof.
  induction 1 as [|chunk ids chunks sent H _ IH]; simpl; [done|].
  by rewrite fmap_app, IH, (all_defined_fmap _ _ H).
Qed.

Lemma fetchTherapists_counts k c kw sp v pc ex db p log :
  fetchTherapists (Some k) c kw sp v pc ex db = (Ok p, log) ->
  exists shown counts log0,
    therapists p = map (with_count counts) shown
    /\ count_patients (make_chunks (map t_uid shown)) db ∅ log0 = (Some counts, log).
Proof.
  unfold fetchTherapists.
  destruct (with_cursor c db (list_query sp v pc)) as [q0 log0]. simpl.
  destruct (cursor_refused c db (list_query sp v pc)); [done|].
  rewrite drop_extra_eq.
  destruct (count_patients _ db ∅ (log0 ++ _)) as [[counts|] log1] eqn:Hc; [|done].
  intros [= <- <-]. simpl. eauto.
Qed.

End counts.

(** X1. On every page the therapist list returns, the
    [assignedPatientsCount] of a therapist is the number of patient
    documents whose [assignedTherapist] holds that therapist's [uid], as
    long as the therapists of the page have pairwise different [uid]s and
    the [uid] is not the empty string (nor a property name that the
    object holding the counts inherits). *)
Theorem list_counts_are_exact k c kw sp v pc ex db p log t u :
  TherapistController.fetchTherapists (Some k) c kw sp v pc ex db = (Ok p, log) ->
  NoDup (map TherapistController.t_uid (TherapistController.therapists p)) ->
  t ∈ TherapistController.therapists p ->
  TherapistController.t_uid t = Some u -> u <> EmptyString ->
  u ∉ Js.object_prototype_keys ->
  TherapistController.assignedPatientsCount t
  = Some (List.length (Firestore.get (TherapistController.currently_assigned u) db)).
Proof.
  intros Hf Hnd Ht Hu Hne _.
  destruct (fetchTherapists_counts _ _ _ _ _ _ _ _ _ _ Hf)
    as (shown & counts & log0 & Hp & Hc).
  destruct (count_patients_merged _ _ _ _ _ _ Hc) as (sent & Hsent & Hcounts).
  pose proof (sent_concat _ _ Hsent) as Hcat.
  rewrite make_chunks_concat in Hcat.
  rewrite Hp in Ht, Hnd.
  apply list_elem_of_fmap in Ht as (t0 & -> & Ht0).
  simpl in Hu. simpl. f_equal.
  assert (map TherapistController.t_uid
            (map (TherapistController.with_count counts) shown)
          = map TherapistController.t_uid shown) as Huids.
  { rewrite map_map. by apply map_ext. }
  rewrite Huids, Hcat in Hnd.
  apply NoDup_fmap_1 in Hnd.
  assert (u ∈ List.concat sent) as Hin.
  { assert (Some u ∈ Some <$> List.concat sent) as H.
    { rewrite <- Hcat, <- Hu. apply list_elem_of_fmap. eauto. }
    apply list_elem_of_fmap in H as (u' & [= ->] & H). exact H. }
  unfold TherapistController.lookup_count. rewrite Hu. simpl.
  rewrite Hcounts, count_doc_lookup by done.
  rewrite lookup_empty. simpl.
  rewrite (assigned_in_batches _ _ _ Hnd).
  by rewrite bool_decide_eq_true_2.
Qed.

Lemma list_counts_are_exact_witness :
  exists p log t,
    TherapistController.fetchTherapists (Some 15%nat) None EmptyString EmptyString
      EmptyString EmptyString EmptyString Scenario.clinic = (Ok p, log)
    /\ TherapistController.t_id t = "T1"
    /\ TherapistController.assignedPatientsCount t
       = Some (List.length
                 (Firestore.get (TherapistController.currently_assigned "u1")
                    Scenario.clinic))
    /\ TherapistController.assignedPatientsCount t = Some 1%nat.
Proof.
  eexists _, _, _. split; [vm_compute; reflexivity|].
  split; [|split].
  2: { refine (list_counts_are_exact 15%nat None EmptyString EmptyString EmptyString
                 EmptyString EmptyString Scenario.clinic _ _ _ "u1" _ _ _ _ _ _).
       - vm_compute. reflexivity.
       - apply (bool_decide_unpack _). vm_compute. exact I.
       - apply list_elem_of_here.
       - reflexivity.
       - done.
       - apply (bool_decide_unpack _). vm_compute. exact I. }
  - reflexivity.
  - reflexivity.
Defined.

Lemma doc_Some i db d : Firestore.doc i db = Some d -> d ∈ db /\ id d = i.
Proof.
  unfold Firestore.doc. intros H. apply find_some in H as [Hin Hid].
  split; [by apply list_elem_of_In|by apply bool_decide_eq_true in Hid].
Qed.

(** X2. [getTherapistById] answers 404 for an identifier that names no
    document or a document that is not a therapist; for a therapist it
    reports at most twenty assigned patients: the count and the list are
    those of the first twenty patient documents whose [assignedTherapist]
    holds the therapist's [uid]. *)
Theorem detail_count_is_capped_at_twenty i db :
  (forall d u,
     Firestore.doc i db = Some d -> role d = Some "professional" -> uid d = Some u ->
     let assigned :=
       Firestore.get (TherapistController.currently_assigned u) db in
     exists r log,
       TherapistController.getTherapistById i db = (Ok r, log)
       /\ TherapistController.t_id (TherapistController.d_therapist r) = i
       /\ TherapistController.assignedPatientsCount (TherapistController.d_therapist r)
          = Some (Nat.min 20 (List.length assigned))
       /\ map TherapistController.pi_id (TherapistController.assignedPatientsInfo r)
          = map id (take 20 assigned))
  /\ ((forall d, Firestore.doc i db = Some d -> role d <> Some "professional") ->
      TherapistController.getTherapistById i db
      = (Failed 404 "Therapist not found", [doc_get i])).
Proof.
  split.
  - intros d u Hd Hr Hu assigned. unfold TherapistController.getTherapistById.
    rewrite Hd. simpl. rewrite Hr, Hu. simpl.
    eexists _, _. split; [reflexivity|]. simpl.
    split; [by apply doc_Some in Hd as [_ ?]|].
    rewrite (get_limit 20) by done. fold assigned.
    split; [by rewrite length_take|].
    by rewrite map_map.
  - intros H. unfold TherapistController.getTherapistById.
    destruct (Firestore.doc i db) as [d|] eqn:Hd; [|done].
    simpl. rewrite bool_decide_eq_false_2 by (by apply H). done.
Qed.

Lemma detail_count_is_capped_at_twenty_witness :
  exists r log,
    TherapistController.getTherapistById "T1" Scenario.clinic = (Ok r, log)
    /\ TherapistController.t_id (TherapistController.d_therapist r) = "T1"
    /\ TherapistController.assignedPatientsCount (TherapistController.d_therapist r)
       = Some (Nat.min 20
                 (List.length
                    (Firestore.get (TherapistController.currently_assigned "u1")
                       Scenario.clinic)))
    /\ map TherapistController.pi_id (TherapistController.assignedPatientsInfo r)
       = map id (take 20 (Firestore.get (TherapistController.currently_assigned "u1")
                            Scenario.clinic)).
Proof.
  apply (proj1 (detail_count_is_capped_at_twenty "T1" Scenario.clinic)
           (Scenario.therapist_doc "T1" "u1" "Alice" 1 30) "u1").
  - reflexivity.
  - reflexivity.
  - reflexivity.
Defined.

(** ** The therapist summary *)

Section summary.
Import TherapistController.

Lemma breakdown_sum_bump k m : breakdown_sum (bump k m) = S (breakdown_sum m).
Proof.
  unfold breakdown_sum, bump.
  assert (forall (j1 j2 : string) (z1 z2 y : nat),
            (z1 + (z2 + y) = z2 + (z1 + y))%nat) as Hcomm by (intros; lia).
  destruct (m !! k) as [n|] eqn:Hk; simpl.
  - rewrite <- (insert_delete_eq m k (S n)) at 1.
    rewrite map_fold_insert_L; [|intros; lia|by rewrite lookup_delete_eq].
    rewrite <- (insert_delete_id m k n Hk) at 2.
    rewrite map_fold_insert_L; [|intros; lia|by rewrite lookup_delete_eq]. lia.
  - rewrite map_fold_insert_L; [lia|intros; lia|done].
Qed.

Lemma tally_fold acc docs :
  let r := foldl tally acc docs in
  s_total r = (s_total acc + List.length docs)%nat
  /\ (s_verified r + s_unverified r
      = s_verified acc + s_unverified acc + List.length docs)%nat
  /\ (s_profileComplete r + s_profileIncomplete r
      = s_profileComplete acc + s_profileIncomplete acc + List.length docs)%nat
  /\ s_verified r
     = (s_verified acc
        + List.length (List.filter (fun d => bool_decide (isVerified d = Some true)) docs))%nat
  /\ s_profileComplete r
     = (s_profileComplete acc
        + List.length
            (List.filter (fun d => bool_decide (isProfileComplete d = Some true)) docs))%nat
  /\ breakdown_sum (s_specializationBreakdown r)
     = (breakdown_sum (s_specializationBreakdown acc) + List.length docs)%nat
  /\ forall sp,
       default 0%nat (s_specializationBreakdown r !! sp)
       = (default 0%nat (s_specializationBreakdown acc !! sp)
          + List.length
              (List.filter (fun d => bool_decide (specialization_key d = sp)) docs))%nat.
Proof.
  revert acc. induction docs as [|d docs IH]; intros acc; simpl.
  - repeat split; intros; lia.
  - destruct (IH (tally acc d)) as (H1 & H2 & H3 & H4 & H5 & H6 & H7).
    rewrite H1, H2, H3, H4, H5, H6. clear H1 H2 H3 H4 H5 H6.
    unfold tally at 1 2 3 4 5 6 7 8. simpl.
    rewrite breakdown_sum_bump.
    repeat split.
    + lia.
    + destruct (default false (isVerified d)); lia.
    + destruct (default false (isProfileComplete d)); lia.
    + destruct (isVerified d) as [[]|]; simpl; lia.
    + destruct (isProfileComplete d) as [[]|]; simpl; lia.
    + lia.
    + intros sp. rewrite H7. unfold tally. simpl.
      fold (specialization_key d). unfold bump.
      destruct (decide (specialization_key d = sp)) as [Heq|Hne].
      * rewrite Heq, lookup_insert_eq, bool_decide_eq_true_2 by done. simpl. lia.
      * rewrite lookup_insert_ne, bool_decide_eq_false_2 by done. lia.
Qed.

Lemma total_patients_sum chunks db n log n' log' :
  total_patients chunks db n log = (Some n', log') ->
  exists sent,
    Forall2 (fun chunk ids => all_defined chunk = Some ids) chunks sent
    /\ n' = (n + List.length
                   (List.concat
                      (map (fun ids => Firestore.get (patients_of ids) db) sent)))%nat.
Proof.
  revert n log. induction chunks as [|chunk chunks IH]; intros n log; simpl.
  - intros [= <- <-]. exists []. split; [constructor|simpl; lia].
  - destruct (all_defined chunk) as [ids|] eqn:Hids; [|done].
    intros H. destruct (IH _ _ H) as (sent & Hsent & ->).
    exists (ids :: sent). split; [by constructor|]. simpl. rewrite length_app. lia.
Qed.

Lemma patients_of_app a b db :
  (forall x, x ∈ a -> x ∉ b) ->
  List.length (Firestore.get (patients_of (a ++ b)) db)
  = (List.length (Firestore.get (patients_of a) db)
     + List.length (Firestore.get (patients_of b) db))%nat.
Proof.
  intros Hdis. unfold Firestore.get. simpl.
  induction db as [|d db IH]; simpl; [done|].
  destruct (bool_decide (role d = Some "patient")); simpl; [|exact IH].
  destruct (assignedTherapist d) as [t|]; simpl; [|exact IH].
  destruct (decide (t ∈ a)) as [Ha|Ha].
  - rewrite (bool_decide_eq_true_2 (t ∈ a ++ b)) by (apply elem_of_app; auto).
    rewrite (bool_decide_eq_true_2 (t ∈ a)) by done.
    rewrite (bool_decide_eq_false_2 (t ∈ b)) by auto. simpl. lia.
  - rewrite (bool_decide_eq_false_2 (t ∈ a)) by done.
    destruct (decide (t ∈ b)) as [Hb|Hb].
    + rewrite (bool_decide_eq_true_2 (t ∈ a ++ b)) by (apply elem_of_app; auto).
      rewrite (bool_decide_eq_true_2 (t ∈ b)) by done. simpl. lia.
    + rewrite (bool_decide_eq_false_2 (t ∈ a ++ b))
        by (rewrite elem_of_app; tauto).
      rewrite (bool_decide_eq_false_2 (t ∈ b)) by done. simpl. lia.
Qed.

Lemma patients_of_nil db : Firestore.get (patients_of []) db = [].
Proof.
  unfold Firestore.get. simpl. induction db as [|d db IH]; simpl; [done|].
  destruct (bool_decide (role d = Some "patient")); simpl; [|exact IH].
  destruct (assignedTherapist d); simpl; exact IH.
Qed.

Lemma batches_add_up (sent : list (list string)) db :
  NoDup (List.concat sent) ->
  List.length (List.concat (map (fun ids => Firestore.get (patients_of ids) db) sent))
  = List.length (Firestore.get (patients_of (List.concat sent)) db).
Proof.
  induction sent as [|ids sent IH]; simpl; intros Hnd.
  - by rewrite patients_of_nil.
  - apply NoDup_app in Hnd as (_ & Hdis & Hnd).
    by rewrite length_app, (IH Hnd), patients_of_app.
Qed.

End summary.

(** X3. A summary that [getTherapistsSummary] computes from the store
    counts every therapist once in each of its breakdowns: [total] is the
    number of therapist documents, verified and unverified add up to it,
    and so do complete and incomplete profiles and the counters of the
    specialization breakdown, where each specialization (or [Other]) has
    the number of therapists that carry it. The breakdown is a plain
    object: what is said about it leaves out the property names such an
    object inherits. *)
Theorem summary_counters_add_up now cache db s cache' log :
  TherapistController.getCachedData "therapists_summary" now cache = None ->
  TherapistController.getTherapistsSummary now cache db
  = (Ok (TherapistController.summary_data s), cache', log) ->
  TherapistController.s_total s = List.length (all_professionals db)
  /\ (TherapistController.s_verified s + TherapistController.s_unverified s
      = TherapistController.s_total s)%nat
  /\ (TherapistController.s_profileComplete s
      + TherapistController.s_profileIncomplete s
      = TherapistController.s_total s)%nat
  /\ TherapistController.s_verified s
     = List.length (List.filter (fun d => bool_decide (isVerified d = Some true))
                      (all_professionals db))
  /\ TherapistController.s_profileComplete s
     = List.length (List.filter (fun d => bool_decide (isProfileComplete d = Some true))
                      (all_professionals db))
  /\ (Forall (fun d => specialization_key d ∉ Js.object_prototype_keys)
         (all_professionals db) ->
      breakdown_sum (TherapistController.s_specializationBreakdown s)
      = TherapistController.s_total s)
  /\ forall sp,
       sp ∉ Js.object_prototype_keys ->
       default 0%nat (TherapistController.s_specializationBreakdown s !! sp)
       = List.length (List.filter (fun d => bool_decide (specialization_key d = sp))
                        (all_professionals db)).
Proof.
  intros Hmiss. unfold TherapistController.getTherapistsSummary. rewrite Hmiss.
  fold (all_professionals db).
  destruct (TherapistController.total_patients _ db 0 _) as [[n|] log1]; [|done].
  intros [= <- <- <-]. simpl.
  destruct (tally_fold (TherapistController.Summary 0 0 0 0 0 0 ∅) (all_professionals db))
    as (H1 & H2 & H3 & H4 & H5 & H6 & H7).
  simpl in *. unfold breakdown_sum in H6 at 2. rewrite map_fold_empty in H6.
  repeat split; try lia.
  intros sp _. rewrite H7, lookup_empty. simpl. lia.
Qed.

Lemma summary_counters_add_up_witness :
  exists s cache' log,
    TherapistController.getTherapistsSummary 0 ∅ Scenario.clinic
    = (Ok (TherapistController.summary_data s), cache', log)
    /\ TherapistController.s_total s = 3%nat
    /\ (TherapistController.s_verified s + TherapistController.s_unverified s
        = TherapistController.s_total s)%nat.
Proof.
  eexists _, _, _. split; [vm_compute; reflexivity|].
  split; [reflexivity|].
  refine (proj1 (proj2 (summary_counters_add_up 0 ∅ Scenario.clinic _ _ _ _ _))).
  - reflexivity.
  - vm_compute. reflexivity.
Defined.

(** X4. The [totalPatients] of a computed summary is the number of patient
    documents whose [assignedTherapist] is the [uid] of some therapist:
    sending the [uid]s in batches of ten counts no patient twice and
    misses none, as long as the therapists have pairwise different
    [uid]s. *)
Theorem summary_totalPatients_is_exact now cache db s cache' log :
  TherapistController.getCachedData "therapists_summary" now cache = None ->
  TherapistController.getTherapistsSummary now cache db
  = (Ok (TherapistController.summary_data s), cache', log) ->
  NoDup (map uid (all_professionals db)) ->
  exists uids,
    map uid (all_professionals db) = Some <$> uids
    /\ TherapistController.s_totalPatients s
       = List.length (Firestore.get (TherapistController.patients_of uids) db).
Proof.
  intros Hmiss. unfold TherapistController.getTherapistsSummary. rewrite Hmiss.
  fold (all_professionals db).
  destruct (TherapistController.total_patients _ db 0 _) as [[n|] log1] eqn:Ht; [|done].
  intros [= <- <- <-] Hnd. simpl.
  destruct (total_patients_sum _ _ _ _ _ _ Ht) as (sent & Hsent & ->).
  pose proof (sent_concat _ _ Hsent) as Hcat.
  rewrite make_chunks_concat in Hcat.
  exists (List.concat sent). split; [exact Hcat|].
  rewrite Hcat in Hnd. apply NoDup_fmap_1 in Hnd.
  by rewrite (batches_add_up _ _ Hnd).
Qed.

Lemma summary_totalPatients_is_exact_witness :
  exists s cache' log uids,
    TherapistController.getTherapistsSummary 0 ∅ Scenario.clinic
    = (Ok (TherapistController.summary_data s), cache', log)
    /\ map uid (all_professionals Scenario.clinic) = Some <$> uids
    /\ TherapistController.s_totalPatients s
       = List.length (Firestore.get (TherapistController.patients_of uids)
                        Scenario.clinic).
Proof.
  destruct (summary_totalPatients_is_exact 0 ∅ Scenario.clinic
              (TherapistController.Summary 3 3 0 3 0 1 {["CBT" := 3%nat]})
              (TherapistController.getTherapistsSummary 0 ∅ Scenario.clinic).1.2
              (TherapistController.getTherapistsSummary 0 ∅ Scenario.clinic).2)
    as (uids & H1 & H2).
  - reflexivity.
  - vm_compute. reflexivity.
  - apply (bool_decide_unpack _). vm_compute. exact I.
  - eexists _, _, _, uids. split; [vm_compute; reflexivity|]. split; [exact H1|exact H2].
Defined.

(** ** The controller caches behind the list endpoints *)

(** X5. A therapist list request that carries a cursor never touches the
    controller's cache: the cache is left as it was, and the answer and the
    reads of the store are the same whatever the cache holds. *)
Theorem cursor_pages_bypass_the_cache query now cache db :
  Js.truthy_opt (Js.prop "lastDocId" query) = true ->
  (TherapistController.getTherapists query now cache db).1.2 = cache
  /\ forall other,
       same_answer (TherapistController.getTherapists query now cache db)
                   (TherapistController.getTherapists query now other db).
Proof.
  intros Hc. unfold TherapistController.getTherapists, same_answer. rewrite Hc.
  destruct (TherapistController.fetchTherapists _ _ _ _ _ _ _ db) as [[p|st msg] log].
  - split; [by destruct (TherapistController.getCachedData _ now cache)|].
    intros other.
    by destruct (TherapistController.getCachedData _ now cache),
                (TherapistController.getCachedData _ now other).
  - split; [by destruct (TherapistController.getCachedData _ now cache)|].
    intros other.
    by destruct (TherapistController.getCachedData _ now cache),
                (TherapistController.getCachedData _ now other).
Qed.

Lemma cursor_pages_bypass_the_cache_witness :
  (TherapistController.getTherapists [("lastDocId", "T1")] 0 ∅ Scenario.clinic).1.2 = ∅.
Proof.
  apply (proj1 (cursor_pages_bypass_the_cache [("lastDocId", "T1")] 0 ∅ Scenario.clinic
                  eq_refl)).
Defined.

(** X6. A first page of therapists that was computed from the store at
    [t0] is answered from the controller's cache, without a read, to every
    request with the same query string in the next five minutes, whatever
    has happened to the store; from five minutes on the store is read
    again. *)
Theorem first_page_is_remembered_for_five_minutes query t0 cache db p cache1 log :
  Js.truthy_opt (Js.prop "lastDocId" query) = false ->
  TherapistController.getCachedData ("therapists_" +:+ Js.stringify query) t0 cache
  = None ->
  TherapistController.getTherapists query t0 cache db = (Ok p, cache1, log) ->
  forall t1 db',
    (t1 - t0 < 5 * 60 * 1000 ->
     TherapistController.getTherapists query t1 cache1 db' = (Ok p, cache1, []))
    /\ (5 * 60 * 1000 <= t1 - t0 ->
        same_answer (TherapistController.getTherapists query t1 cache1 db')
                    (TherapistController.getTherapists query t1 ∅ db')).
Proof.
  intros Hc Hmiss. unfold TherapistController.getTherapists at 1.
  rewrite Hc, Hmiss.
  destruct (TherapistController.fetchTherapists _ _ _ _ _ _ _ db) as [[r|st msg] log0];
    [|done].
  intros [= <- <- <-] t1 db'.
  unfold TherapistController.getTherapists, same_answer.
  rewrite Hc, therapist_getCachedData_set.
  change TherapistController.CACHE_TTL with (5 * 60 * 1000).
  split; intros Ht.
  - by rewrite (proj2 (Z.ltb_lt _ _)) by lia.
  - rewrite (proj2 (Z.ltb_ge _ _)) by lia.
    rewrite therapist_getCachedData_absent by apply lookup_empty.
    by destruct (TherapistController.fetchTherapists _ _ _ _ _ _ _ db') as [[r'|st msg] log1].
Qed.

Lemma first_page_is_remembered_for_five_minutes_witness :
  exists p cache1 log,
    TherapistController.getTherapists [] 0 ∅ Scenario.clinic = (Ok p, cache1, log)
    /\ TherapistController.getTherapists [] 299999 cache1 [] = (Ok p, cache1, []).
Proof.
  eexists _, _, _. split; [vm_compute; reflexivity|].
  refine (proj1 (first_page_is_remembered_for_five_minutes [] 0 ∅ Scenario.clinic
                   _ _ _ _ _ _ 299999 []) _).
  - reflexivity.
  - reflexivity.
  - vm_compute. reflexivity.
  - lia.
Defined.

(** ** Invalidation by the patient mutations *)

Section invalidation.
Import PatientController.

Lemma clearCache_lookup pattern (cache : gmap string (entry payload)) k :
  clearCache pattern cache !! k
  = if Js.includes k pattern then None else cache !! k.
Proof. apply clear_keys_lookup. Qed.

Lemma clearCache_cleared cache : lists_cleared (clearCache "patients" cache).
Proof. intros k Hk. by rewrite clearCache_lookup, Hk. Qed.

Lemma clear_patient_cleared i cache : lists_cleared (clear_patient i cache).
Proof. apply clearCache_cleared. Qed.

Lemma getCachedData_cold key fetched ttl now (cache : gmap string (entry payload)) :
  cache !! key = None ->
  same_answer (getCachedData key fetched ttl now cache)
              (getCachedData key fetched ttl now ∅).
Proof.
  intros Hk. rewrite !patient_getCachedData_miss.
  - by destruct fetched as [[d|st msg] log].
  - intros e He. by rewrite lookup_empty in He.
  - intros e He. by rewrite Hk in He.
Qed.

Lemma list_key_includes rest : Js.includes ("patients_" +:+ rest) "patients" = true.
Proof. apply includes_iff. by exists EmptyString, ("_" +:+ rest). Qed.

Lemma cleared_reads_store cache query now db :
  lists_cleared cache ->
  same_answer (getPatients query now cache db) (getPatients query now ∅ db)
  /\ same_answer (getPatientsSummary now cache db) (getPatientsSummary now ∅ db).
Proof.
  intros Hc. split.
  - unfold getPatients. apply getCachedData_cold, Hc.
    apply list_key_includes.
  - unfold getPatientsSummary. apply getCachedData_cold, Hc. reflexivity.
Qed.

End invalidation.

(** X7. After every successful patient mutation the patient list and the
    patient summary are computed from the store again: no entry the
    patient controller cached before the write is served, whatever the
    query and however soon the read follows. *)
Theorem patient_writes_invalidate_the_lists cache cache' db db' :
  (exists i body t r,
     PatientController.updatePatient i body t cache db = (Ok r, cache', db'))
  \/ (exists i th t r,
        PatientController.assignTherapistToPatient i th t cache db = (Ok r, cache', db'))
  \/ (exists i f t r,
        PatientController.flagPatient i f t cache db = (Ok r, cache', db'))
  \/ (exists i url t r,
        PatientController.uploadPatientDocument i url t cache db = (Ok r, cache', db'))
  \/ (exists i r, PatientController.deletePatient i cache db = (Ok r, cache', db'))
  \/ (exists body newId t r,
        PatientController.createPatient body newId t cache db = (Ok r, cache', db'))
  \/ (exists ids upd t r,
        PatientController.batchUpdatePatients ids upd t cache db = (Ok r, cache', db')) ->
  forall query now,
    same_answer (PatientController.getPatients query now cache' db')
                (PatientController.getPatients query now ∅ db')
    /\ same_answer (PatientController.getPatientsSummary now cache' db')
                   (PatientController.getPatientsSummary now ∅ db').
Proof.
  intros H query now. apply cleared_reads_store.
  destruct H as [(i & body & t & r & H)|[(i & th & t & r & H)|[(i & f & t & r & H)|
                [(i & url & t & r & H)|[(i & r & H)|[(body & newId & t & r & H)|
                 (ids & upd & t & r & H)]]]]]].
  - unfold PatientController.updatePatient in H.
    destruct (Firestore.doc i db); [|done].
    destruct (negb _); [done|]. injection H as _ <- _. apply clear_patient_cleared.
  - unfold PatientController.assignTherapistToPatient in H.
    destruct (Firestore.doc i db); [|done].
    destruct (negb _); [done|].
    destruct th as [[|a th]|]; [done| |done].
    destruct (Firestore.doc _ db); [|done].
    destruct (negb _); [done|]. injection H as _ <- _. apply clear_patient_cleared.
  - unfold PatientController.flagPatient in H.
    destruct (Firestore.doc i db); [|done].
    destruct (negb _); [done|]. injection H as _ <- _. apply clear_patient_cleared.
  - unfold PatientController.uploadPatientDocument in H.
    destruct (Firestore.doc i db); [|done].
    destruct (negb _); [done|]. injection H as _ <- _. apply clear_patient_cleared.
  - unfold PatientController.deletePatient in H.
    destruct (Firestore.doc i db); [|done].
    destruct (negb _); [done|]. injection H as _ <- _. apply clear_patient_cleared.
  - unfold PatientController.createPatient in H.
    destruct (PatientController.c_email body); [|done].
    destruct (Firestore.get _ db); [|done].
    destruct (PatientController.c_name body); [|done].
    injection H as _ <- _. apply clearCache_cleared.
  - unfold PatientController.batchUpdatePatients in H.
    destruct ids as [[|i ids]|]; [done| |done].
    destruct (Firestore.commit _ db); [|done].
    injection H as _ <- _. apply clearCache_cleared.
Qed.

Lemma patient_writes_invalidate_the_lists_witness :
  exists r cache' db',
    PatientController.flagPatient "P2" "Urgent" 5
      (PatientController.getPatients [] 0 ∅ Scenario.clinic).1.2 Scenario.clinic
    = (Ok r, cache', db')
    /\ same_answer (PatientController.getPatients [] 6 cache' db')
                   (PatientController.getPatients [] 6 ∅ db').
Proof.
  eexists _, _, _. split; [reflexivity|].
  refine (proj1 (patient_writes_invalidate_the_lists
                   (PatientController.getPatients [] 0 ∅ Scenario.clinic).1.2 _
                   Scenario.clinic _ _ [] 6)).
  right. right. left. eexists "P2", "Urgent", 5, _. reflexivity.
Defined.

(** ** Creating and deleting patients *)

Section patients.
Import PatientController.

Lemma doc_None i db : Firestore.doc i db = None -> forall d, d ∈ db -> id d <> i.
Proof.
  unfold Firestore.doc. intros H d Hd Hid.
  pose proof (find_none _ _ H d (proj1 (list_elem_of_In _ _) Hd)) as Hf.
  simpl in Hf. by apply bool_decide_eq_false in Hf.
Qed.

Lemma doc_fresh_app i db d :
  i ∉ map id db -> id d = i -> Firestore.doc i (db ++ [d]) = Some d.
Proof.
  unfold Firestore.doc. intros Hi Hd. induction db as [|x db IH]; simpl.
  - by rewrite bool_decide_eq_true_2.
  - simpl in Hi. apply not_elem_of_cons in Hi as [Hx Hi].
    rewrite bool_decide_eq_false_2 by done. by apply IH.
Qed.

Lemma delete_elem i db d : d ∈ Firestore.delete i db <-> d ∈ db /\ id d <> i.
Proof.
  unfold Firestore.delete. rewrite !list_elem_of_In, filter_In, <- list_elem_of_In.
  by rewrite negb_true_iff, bool_decide_eq_false.
Qed.

Lemma delete_fresh i db : i ∉ map id db -> Firestore.delete i db = db.
Proof.
  unfold Firestore.delete. induction db as [|x db IH]; simpl; intros Hi; [done|].
  apply not_elem_of_cons in Hi as [Hx Hi].
  rewrite bool_decide_eq_false_2 by done. simpl. by rewrite IH.
Qed.

Lemma delete_doc i db : Firestore.doc i (Firestore.delete i db) = None.
Proof.
  destruct (Firestore.doc i (Firestore.delete i db)) as [d|] eqn:Hd; [|done].
  apply doc_Some in Hd as [Hd Hid]. by apply delete_elem in Hd as [_ Hd].
Qed.

Lemma find_none_get q db :
  Firestore.orderBy q = None -> Firestore.startAfter q = None ->
  Firestore.limit q = None ->
  Firestore.get (Firestore.limit_ 1 q) db = [] ->
  forall d, d ∈ db -> Firestore.matches (Firestore.conditions q) d = false.
Proof.
  intros Ho Hs Hl. rewrite (get_limit 1) by done.
  unfold Firestore.get. rewrite Ho, Hs, Hl.
  intros Hnil d Hd.
  destruct (Firestore.matches (Firestore.conditions q) d) eqn:Hm; [|done].
  assert (d ∈ List.filter (Firestore.matches (Firestore.conditions q)) db) as Hin.
  { apply list_elem_of_In, filter_In. split; [by apply list_elem_of_In|done]. }
  destruct (List.filter _ db) as [|x l]; [by apply elem_of_nil in Hin|done].
Qed.

End patients.

(** X8. [createPatient] refuses, with status 400 and without writing, an
    email that a patient document already holds. When it succeeds it has
    added exactly one document: a patient with the name and email of the
    request, no flags, no documents and no therapist, whose email no other
    patient holds. A failed call changes neither the store nor the
    cache. *)
Theorem createPatient_checks_the_email body newId now cache db :
  (forall e d,
     PatientController.c_email body = Some e ->
     d ∈ db -> role d = Some "patient" -> email d = Some e ->
     PatientController.createPatient body newId now cache db
     = (Failed 400 "Patient with this email already exists", cache, db))
  /\ (forall r cache' db',
        PatientController.createPatient body newId now cache db = (Ok r, cache', db') ->
        db' = db ++ [r]
        /\ id r = newId /\ role r = Some "patient"
        /\ name r = PatientController.c_name body
        /\ email r = PatientController.c_email body
        /\ flags r = Some [] /\ documents r = Some []
        /\ assigned_therapist r = None /\ assignedTherapist r = None
        /\ createdAt r = Some now /\ updatedAt r = Some now
        /\ forall d, d ∈ db -> role d = Some "patient" -> email d <> email r)
  /\ (forall st msg cache' db',
        PatientController.createPatient body newId now cache db
        = (Failed st msg, cache', db') ->
        cache' = cache /\ db' = db).
Proof.
  split; [|split].
  - intros e d He Hd Hr Hem. unfold PatientController.createPatient. rewrite He.
    destruct (Firestore.get (PatientController.patient_with_email e) db) eqn:Hg; [|done].
    exfalso.
    pose proof (find_none_get
                  (Firestore.where_ (Firestore.where_email e)
                     (Firestore.where_ (Firestore.where_role "patient")
                        Firestore.collection))
                  db eq_refl eq_refl eq_refl Hg d Hd) as Hm.
    simpl in Hm. by rewrite !bool_decide_eq_true_2 in Hm.
  - intros r cache' db'. unfold PatientController.createPatient.
    destruct (PatientController.c_email body) as [e|]; [|done].
    destruct (Firestore.get (PatientController.patient_with_email e) db) eqn:Hg; [|done].
    destruct (PatientController.c_name body) as [n|]; [|done].
    intros [= <- _ <-]. simpl. do 11 (split; [reflexivity|]).
    intros d Hd Hr.
    pose proof (find_none_get
                  (Firestore.where_ (Firestore.where_email e)
                     (Firestore.where_ (Firestore.where_role "patient")
                        Firestore.collection))
                  db eq_refl eq_refl eq_refl Hg d Hd) as Hm.
    simpl in Hm. rewrite (bool_decide_eq_true_2 _ Hr) in Hm. simpl in Hm.
    rewrite andb_true_r in Hm. by apply bool_decide_eq_false in Hm.
  - intros st msg cache' db'. unfold PatientController.createPatient.
    destruct (PatientController.c_email body) as [e|]; [|by intros [= _ _ <- <-]].
    destruct (Firestore.get _ db); [|by intros [= _ _ <- <-]].
    destruct (PatientController.c_name body); [done|]. by intros [= _ _ <- <-].
Qed.

Lemma createPatient_checks_the_email_witness :
  PatientController.createPatient
    (PatientController.NewPatient (Some "Dana") (Some "Dana@mail.example")
       None None None None)
    "P9" 50 ∅ Scenario.clinic
  = (Failed 400 "Patient with this email already exists", ∅, Scenario.clinic).
Proof.
  apply (proj1 (createPatient_checks_the_email _ "P9" 50 ∅ Scenario.clinic)
           "Dana@mail.example"
           (Scenario.patient_doc "P1" "Dana" 3 (Some "u1") None ["High Risk"])).
  - reflexivity.
  - do 3 apply list_elem_of_further. apply list_elem_of_here.
  - reflexivity.
  - reflexivity.
Defined.

(** X9. Deleting the patient that [createPatient] has just added gives
    back the collection as it was before the creation (the store generates
    an identifier that no document has). *)
Theorem createPatient_then_deletePatient body newId now cache db r cache1 db1 :
  PatientController.createPatient body newId now cache db = (Ok r, cache1, db1) ->
  newId ∉ map id db ->
  (PatientController.deletePatient newId cache1 db1).1.1 = Ok "Patient removed"
  /\ (PatientController.deletePatient newId cache1 db1).2 = db.
Proof.
  intros Hc Hfresh.
  destruct (proj1 (proj2 (createPatient_checks_the_email body newId now cache db))
              _ _ _ Hc) as (-> & Hid & Hr & _).
  unfold PatientController.deletePatient.
  rewrite (doc_fresh_app newId db r Hfresh Hid).
  unfold PatientController.is_patient. rewrite bool_decide_eq_true_2 by done. simpl.
  split; [done|].
  unfold Firestore.delete. rewrite List.filter_app. simpl.
  rewrite bool_decide_eq_true_2 by done. simpl. rewrite app_nil_r.
  by apply delete_fresh.
Qed.

Lemma createPatient_then_deletePatient_witness :
  exists r cache1 db1,
    PatientController.createPatient
      (PatientController.NewPatient (Some "Gita") (Some "gita@mail.example")
         None None None None)
      "P9" 50 ∅ Scenario.clinic
    = (Ok r, cache1, db1)
    /\ (PatientController.deletePatient "P9" cache1 db1).2 = Scenario.clinic.
Proof.
  eexists _, _, _. split; [vm_compute; reflexivity|].
  refine (proj2 (createPatient_then_deletePatient
                   (PatientController.NewPatient (Some "Gita") (Some "gita@mail.example")
                      None None None None)
                   "P9" 50 ∅ Scenario.clinic _ _ _ _ _)).
  - vm_compute. reflexivity.
  - apply (bool_decide_unpack _). vm_compute. exact I.
Defined.

(** X10. [deletePatient] removes the patient document with the given
    identifier and nothing else: a document stays in the collection unless
    it is that patient, so an identifier that names a therapist (or
    nothing) deletes nothing and leaves the cache alone. *)
Theorem deletePatient_removes_one_patient i cache db r cache' db' :
  NoDup (map id db) ->
  PatientController.deletePatient i cache db = (r, cache', db') ->
  (forall d, d ∈ db' <-> d ∈ db /\ ~ (id d = i /\ role d = Some "patient"))
  /\ (forall msg, r = Ok msg ->
        Firestore.doc i db' = None
        /\ exists d, Firestore.doc i db = Some d /\ role d = Some "patient")
  /\ (forall st msg, r = Failed st msg -> db' = db /\ cache' = cache).
Proof.
  intros Hnd. unfold PatientController.deletePatient.
  destruct (Firestore.doc i db) as [p|] eqn:Hp.
  - destruct (doc_Some _ _ _ Hp) as [Hin Hid].
    unfold PatientController.is_patient.
    destruct (bool_decide (role p = Some "patient")) eqn:Hr; simpl.
    + apply bool_decide_eq_true in Hr. intros [= <- <- <-].
      split; [|split; [|done]].
      * intros d. rewrite delete_elem. split.
        -- intros [Hd Hne]. split; [done|]. by intros [? _].
        -- intros [Hd Hne]. split; [done|]. intros Heq. apply Hne. split; [done|].
           pose proof (doc_NoDup db d Hnd Hd) as H. rewrite Heq, Hp in H.
           by injection H as ->.
      * intros msg _. split; [apply delete_doc|eauto].
    + apply bool_decide_eq_false in Hr. intros [= <- <- <-].
      split; [|split; [done|by intros st msg _]].
      intros d. split; [|by intros [? _]].
      intros Hd. split; [done|]. intros [Heq Hrole].
      pose proof (doc_NoDup db d Hnd Hd) as H. rewrite Heq, Hp in H.
      injection H as ->. done.
  - intros [= <- <- <-].
    split; [|split; [done|by intros st msg _]].
    intros d. split; [|by intros [? _]].
    intros Hd. split; [done|]. intros [Heq _]. by apply (doc_None _ _ Hp d Hd).
Qed.

Lemma deletePatient_removes_one_patient_witness :
  (PatientController.deletePatient "T1" ∅ Scenario.clinic).2 = Scenario.clinic
  /\ (PatientController.deletePatient "T1" ∅ Scenario.clinic).1.2 = ∅.
Proof.
  refine (proj2 (proj2 (deletePatient_removes_one_patient "T1" ∅ Scenario.clinic
                          _ _ _ _ _)) 500%nat "Patient not found" _).
  - apply (bool_decide_unpack _). vm_compute. exact I.
  - reflexivity.
  - reflexivity.
Defined.

(** X11. [deleteTherapist] deletes exactly when the identifier names a
    therapist whose [uid] no patient document holds in
    [assignedTherapist]; it then removes that one document and empties the
    controller's cache. In every other case nothing changes, and the
    answer for a therapist with patients carries their number. *)
Theorem deleteTherapist_spares_therapists_with_patients i cache db r cache' db' :
  TherapistController.deleteTherapist i cache db = (r, cache', db') ->
  (r = TherapistController.deleted <->
   exists t u,
     Firestore.doc i db = Some t /\ role t = Some "professional" /\ uid t = Some u
     /\ forall d, d ∈ db -> role d = Some "patient" -> assignedTherapist d <> Some u)
  /\ (r = TherapistController.deleted -> db' = Firestore.delete i db /\ cache' = ∅)
  /\ (r <> TherapistController.deleted -> db' = db /\ cache' = cache)
  /\ (forall n, r = TherapistController.has_assigned_patients n ->
        (0 < n)%nat
        /\ exists t u,
             Firestore.doc i db = Some t /\ uid t = Some u
             /\ n = List.length
                      (Firestore.get (TherapistController.currently_assigned u) db)).
Proof.
  unfold TherapistController.deleteTherapist.
  destruct (Firestore.doc i db) as [t|] eqn:Ht.
  2: { intros [= <- <- <-]. repeat split; try done.
       intros (t & u & [=] & _). }
  destruct (bool_decide (role t = Some "professional")) eqn:Hr; simpl.
  2: { apply bool_decide_eq_false in Hr. intros [= <- <- <-].
       repeat split; try done. intros (t' & u & [= <-] & Hr' & _). done. }
  apply bool_decide_eq_true in Hr.
  destruct (uid t) as [u|] eqn:Hu.
  2: { intros [= <- <- <-]. repeat split; try done.
       intros (t' & u & [= <-] & _ & Hu' & _). congruence. }
  destruct (Firestore.get (TherapistController.currently_assigned u) db)
    as [|p ps] eqn:Hg.
  - intros [= <- <- <-]. split; [|by repeat split].
    split; [|done]. intros _. exists t, u. repeat split; try done.
    intros d Hd Hrole Ha.
    assert (d ∈ Firestore.get (TherapistController.currently_assigned u) db) as Hin
      by by apply currently_assigned_elem.
    rewrite Hg in Hin. by apply elem_of_nil in Hin.
  - intros [= <- <- <-]. split; [|split; [done|split; [done|]]].
    + split; [done|]. intros (t' & u' & [= <-] & _ & Hu' & Hnone).
      assert (u' = u) as -> by congruence.
      assert (p ∈ Firestore.get (TherapistController.currently_assigned u) db) as Hin
        by (rewrite Hg; apply list_elem_of_here).
      apply currently_assigned_elem in Hin as (Hp & Hrole & Ha).
      by destruct (Hnone p Hp Hrole).
    + intros n [= <-]. split; [simpl; lia|]. exists t, u. by rewrite Hg.
Qed.

Lemma deleteTherapist_spares_therapists_with_patients_witness :
  (TherapistController.deleteTherapist "T2" ∅ Scenario.clinic).2
  = Firestore.delete "T2" Scenario.clinic
  /\ (TherapistController.deleteTherapist "T2" ∅ Scenario.clinic).1.2 = ∅.
Proof.
  refine (proj1 (proj2 (deleteTherapist_spares_therapists_with_patients
                          "T2" ∅ Scenario.clinic _ _ _ _)) _).
  - reflexivity.
  - reflexivity.
Defined.

(** ** Writes to one patient *)

Lemma doc_update_ne i j (h : user -> user) db :
  (forall d, id (h d) = id d) -> j <> i ->
  Firestore.doc j (Firestore.update i h db) = Firestore.doc j db.
Proof.
  intros Hh Hne. unfold Firestore.doc, Firestore.update.
  induction db as [|d db IH]; simpl; [done|].
  destruct (decide (id d = i)) as [Hd|Hd].
  - rewrite Hh, !bool_decide_eq_false_2 by congruence. exact IH.
  - destruct (bool_decide (id d = j)); [done|exact IH].
Qed.



(** X13. [uploadPatientDocument] always appends: the stored list of
    documents grows by the given URL at its end, also when the list
    already holds that URL, which then occurs once more; [updatedAt] is
    set, the other fields of the patient and all other documents of the
    collection are unchanged. *)
Theorem uploadPatientDocument_always_appends i url now cache db d :
  Firestore.doc i db = Some d -> role d = Some "patient" ->
  exists d',
    Firestore.doc i (PatientController.uploadPatientDocument i url now cache db).2
    = Some d'
    /\ documents d' = Some (default [] (documents d) ++ [url])
    /\ occurrences url (default [] (documents d'))
       = S (occurrences url (default [] (documents d)))
    /\ updatedAt d' = Some now
    /\ d' = PatientController.set_documents (default [] (documents d) ++ [url])
              (Some now) d
    /\ forall j, j <> i ->
         Firestore.doc j (PatientController.uploadPatientDocument i url now cache db).2
         = Firestore.doc j db.
Proof.
  intros Hd Hr. unfold PatientController.uploadPatientDocument.
  rewrite Hd. unfold PatientController.is_patient.
  rewrite bool_decide_eq_true_2 by done. simpl.
  eexists. rewrite doc_update, Hd by done. simpl.
  split; [reflexivity|]. simpl. repeat split.
  - rewrite occurrences_app. unfold occurrences at 2. simpl.
    rewrite bool_decide_eq_true_2 by done. simpl. lia.
  - intros j Hj. by apply doc_update_ne.
Qed.

Lemma uploadPatientDocument_always_appends_witness :
  exists d',
    Firestore.doc "P2"
      (PatientController.uploadPatientDocument "P2" "scan.pdf" 9 ∅
         (PatientController.uploadPatientDocument "P2" "scan.pdf" 8 ∅ Scenario.clinic).2).2
    = Some d'
    /\ documents d' = Some ["scan.pdf"; "scan.pdf"].
Proof.
  destruct (uploadPatientDocument_always_appends "P2" "scan.pdf" 9 ∅
              (PatientController.uploadPatientDocument "P2" "scan.pdf" 8 ∅
                 Scenario.clinic).2
              (PatientController.set_documents ["scan.pdf"] (Some 8)
                 (Scenario.patient_doc "P2" "Emeka" 2 None None [])))
    as (d' & H1 & H2 & _).
  - reflexivity.
  - reflexivity.
  - exists d'. split; [exact H1|exact H2].
Defined.

(** ** Batch updates *)

Lemma apply_uniform (h : user -> user) (ids : list string) d :
  (forall x, id (h x) = id x) -> (forall x, h (h x) = h x) ->
  apply_writes (map (fun i => (i, h)) ids) d
  = if bool_decide (id d ∈ ids) then h d else d.
Proof.
  intros Hid Hidem. revert d. unfold apply_writes.
  induction ids as [|i ids IH]; intros d; simpl; [done|].
  rewrite IH. destruct (decide (id d = i)) as [Heq|Hne].
  - rewrite Hid, Hidem.
    rewrite (bool_decide_eq_true_2 (id d ∈ i :: ids))
      by (apply elem_of_cons; by left).
    by destruct (bool_decide (id d ∈ ids)).
  - destruct (bool_decide (id d ∈ ids)) eqn:Hin.
    + apply bool_decide_eq_true in Hin.
      by rewrite bool_decide_eq_true_2 by (apply elem_of_cons; by right).
    + apply bool_decide_eq_false in Hin.
      rewrite bool_decide_eq_false_2; [done|].
      rewrite elem_of_cons. intros [?|?]; done.
Qed.

Lemma forallb_compose {A B} (f : B -> bool) (g : A -> B) (l : list A) :
  forallb f (map g l) = forallb (fun x => f (g x)) l.
Proof. induction l as [|x l IH]; simpl; [done|]. by rewrite IH. Qed.

Lemma commit_uniform (h : user -> user) (ids : list string) db :
  (forall x, id (h x) = id x) -> (forall x, h (h x) = h x) ->
  Firestore.commit (map (fun i => (i, h)) ids) db
  = if forallb (fun i => Firestore.exists_ i db) ids
    then Some (map (fun d => if bool_decide (id d ∈ ids) then h d else d) db)
    else None.
Proof.
  intros Hid Hidem.
  destruct (Firestore.commit (map (fun i => (i, h)) ids) db) as [db'|] eqn:Hc.
  - rewrite (commit_map _ _ _ Hc).
    unfold Firestore.commit in Hc. rewrite forallb_compose in Hc. simpl in Hc.
    destruct (forallb _ ids); [|done]. f_equal. apply map_ext. intros d.
    by apply apply_uniform.
  - unfold Firestore.commit in Hc. rewrite forallb_compose in Hc. simpl in Hc.
    by destruct (forallb _ ids).
Qed.

Lemma forallb_exists ids db :
  forallb (fun i => Firestore.exists_ i db) ids = true
  <-> forall i, i ∈ ids -> Firestore.exists_ i db = true.
Proof.
  rewrite forallb_forall. split; intros H i Hi; apply H; by apply list_elem_of_In.
Qed.

Lemma merge_update_idem upd now d :
  PatientController.merge_update upd now (PatientController.merge_update upd now d)
  = PatientController.merge_update upd now d.
Proof.
  unfold PatientController.merge_update. simpl.
  destruct upd as [n e a g c ec at_ fl docs]. simpl.
  by destruct n, e, a, g, c, ec, at_, fl, docs.
Qed.

Lemma apply_update_idem upd now d :
  TherapistController.apply_update upd now (TherapistController.apply_update upd now d)
  = TherapistController.apply_update upd now d.
Proof.
  unfold TherapistController.apply_update. simpl.
  destruct upd as [n e t s b x v c]. simpl.
  by destruct n, e, t, s, b, x, v, c.
Qed.

(** X14. [batchUpdatePatients] is all or nothing. If one of the listed
    identifiers names no document, nothing is written and the cache is
    kept; otherwise every listed document, patient or not, gets the
    supplied fields and the new [updatedAt] (once, also when it is listed
    twice), every other document is unchanged, and [updatedCount] is the
    length of the list. Without identifiers the answer is 400. *)
Theorem batchUpdatePatients_is_all_or_nothing ids upd now cache db :
  ids <> [] ->
  (forall i, i ∈ ids -> Firestore.exists_ i db = false ->
     exists msg,
       PatientController.batchUpdatePatients (Some ids) upd now cache db
       = (Failed 500 msg, cache, db))
  /\ ((forall i, i ∈ ids -> Firestore.exists_ i db = true) ->
      exists r,
        PatientController.batchUpdatePatients (Some ids) upd now cache db
        = (Ok r, PatientController.clearCache "patients" cache,
           map (fun d =>
                  if bool_decide (id d ∈ ids)
                  then PatientController.merge_update
                         (default PatientController.no_update upd) now d
                  else d) db)
        /\ PatientController.updatedCount r = List.length ids)
  /\ PatientController.batchUpdatePatients (Some []) upd now cache db
     = (Failed 400 "Patient IDs array is required", cache, db)
  /\ PatientController.batchUpdatePatients None upd now cache db
     = (Failed 400 "Patient IDs array is required", cache, db).
Proof.
  intros Hne. unfold PatientController.batchUpdatePatients.
  destruct ids as [|i0 ids]; [done|].
  rewrite commit_uniform by (done || apply merge_update_idem).
  split; [|split; [|done]].
  - intros i Hi Hex.
    destruct (forallb _ (i0 :: ids)) eqn:Hall; [|by eexists].
    rewrite (proj1 (forallb_exists _ _) Hall i Hi) in Hex. done.
  - intros Hall. rewrite (proj2 (forallb_exists _ _) Hall). by eexists.
Qed.

Lemma batchUpdatePatients_is_all_or_nothing_witness :
  exists msg,
    PatientController.batchUpdatePatients (Some ["P1"; "P7"]) None 9 ∅ Scenario.clinic
    = (Failed 500 msg, ∅, Scenario.clinic).
Proof.
  refine (proj1 (batchUpdatePatients_is_all_or_nothing ["P1"; "P7"] None 9 ∅
                   Scenario.clinic _) "P7" _ _).
  - done.
  - apply list_elem_of_further, list_elem_of_here.
  - reflexivity.
Defined.

(** X15. [batchUpdateTherapists] is all or nothing as well, and does not
    look at the role of the documents it is given: with a missing
    identifier in the list, or without [updateData], it answers 500 and
    changes nothing; otherwise every listed document gets the supplied
    fields and the new [updatedAt], every other document is unchanged and
    the controller's cache is emptied. Without identifiers the answer is
    400. *)
Theorem batchUpdateTherapists_is_all_or_nothing ids upd now cache db :
  ids <> [] ->
  (forall i, i ∈ ids -> Firestore.exists_ i db = false ->
     TherapistController.batchUpdateTherapists (Some ids) (Some upd) now cache db
     = (Failed 500 TherapistController.batch_failure, cache, db))
  /\ ((forall i, i ∈ ids -> Firestore.exists_ i db = true) ->
      exists msg,
        TherapistController.batchUpdateTherapists (Some ids) (Some upd) now cache db
        = (Ok msg, ∅,
           map (fun d =>
                  if bool_decide (id d ∈ ids)
                  then TherapistController.apply_update upd now d
                  else d) db))
  /\ TherapistController.batchUpdateTherapists (Some ids) None now cache db
     = (Failed 500 TherapistController.batch_failure, cache, db)
  /\ TherapistController.batchUpdateTherapists (Some []) (Some upd) now cache db
     = (Failed 400 "Invalid therapist IDs provided", cache, db)
  /\ TherapistController.batchUpdateTherapists None (Some upd) now cache db
     = (Failed 400 "Invalid therapist IDs provided", cache, db).
Proof.
  intros Hne. unfold TherapistController.batchUpdateTherapists.
  destruct ids as [|i0 ids]; [done|].
  rewrite commit_uniform by (done || apply apply_update_idem).
  split; [|split; [|done]].
  - intros i Hi Hex.
    destruct (forallb _ (i0 :: ids)) eqn:Hall; [|done].
    rewrite (proj1 (forallb_exists _ _) Hall i Hi) in Hex. done.
  - intros Hall. rewrite (proj2 (forallb_exists _ _) Hall). by eexists.
Qed.

Lemma batchUpdateTherapists_is_all_or_nothing_witness :
  exists msg,
    TherapistController.batchUpdateTherapists (Some ["T1"; "P1"])
      (Some (TherapistController.TherapistUpdate None None None None None None
               (Some false) None))
      9 ∅ Scenario.clinic
    = (Ok msg, ∅,
       map (fun d =>
              if bool_decide (id d ∈ ["T1"; "P1"])
              then TherapistController.apply_update
                     (TherapistController.TherapistUpdate None None None None None None
                        (Some false) None) 9 d
              else d) Scenario.clinic).
Proof.
  refine (proj1 (proj2 (batchUpdateTherapists_is_all_or_nothing ["T1"; "P1"]
                          (TherapistController.TherapistUpdate None None None None None
                             None (Some false) None)
                          9 ∅ Scenario.clinic _)) _).
  - done.
  - intros i Hi. apply elem_of_cons in Hi as [->|Hi]; [reflexivity|].
    apply list_elem_of_singleton in Hi as ->. reflexivity.
Defined.

(** ** Writes of [updatePatient] *)

Lemma strict_eq_eq a b : Js.strict_eq a b = true -> a = b.
Proof.
  destruct a, b; simpl; try done; intros H; apply bool_decide_eq_true in H;
    by subst.
Qed.

Lemma over_changed_str x cur :
  PatientController.over (PatientController.changed_str x cur) cur
  = PatientController.over x cur.
Proof.
  unfold PatientController.changed_str. destruct x as [v|]; [|done]. simpl.
  case_bool_decide; [by subst|done].
Qed.

Lemma over_changed_val x cur :
  PatientController.over (PatientController.changed_val x cur) cur
  = PatientController.over x cur.
Proof.
  unfold PatientController.changed_val. destruct x as [v|]; [|done]. simpl.
  destruct cur as [c|]; [|done].
  destruct (Js.strict_eq v c) eqn:He; [|done]. simpl.
  by rewrite (strict_eq_eq _ _ He).
Qed.

(** X16. After [updatePatient] the patient document holds every supplied
    field with the value of the request and every other field as before;
    identifier, role, creation time and the therapist-side assignment are
    never changed, [updatedAt] is the time of the call or the document is
    the one stored before, and no other document of the collection is
    touched. *)
Theorem updatePatient_stores_what_is_supplied i body now cache db d :
  Firestore.doc i db = Some d -> role d = Some "patient" ->
  exists d',
    Firestore.doc i (PatientController.updatePatient i body now cache db).2 = Some d'
    /\ name d' = PatientController.over (PatientController.u_name body) (name d)
    /\ email d' = PatientController.over (PatientController.u_email body) (email d)
    /\ age d' = PatientController.over (PatientController.u_age body) (age d)
    /\ gender d' = PatientController.over (PatientController.u_gender body) (gender d)
    /\ concerns d'
       = PatientController.over (PatientController.u_concerns body) (concerns d)
    /\ emergencyContact d'
       = PatientController.over (PatientController.u_emergencyContact body)
           (emergencyContact d)
    /\ assigned_therapist d'
       = default (assigned_therapist d) (PatientController.u_assigned_therapist body)
    /\ flags d' = PatientController.over (PatientController.u_flags body) (flags d)
    /\ documents d'
       = PatientController.over (PatientController.u_documents body) (documents d)
    /\ (id d' = id d /\ role d' = role d /\ uid d' = uid d
        /\ createdAt d' = createdAt d
        /\ assignedTherapist d' = assignedTherapist d
        /\ assignedTherapistInfo d' = assignedTherapistInfo d)
    /\ (updatedAt d' = Some now \/ d' = d)
    /\ forall j, j <> i ->
         Firestore.doc j (PatientController.updatePatient i body now cache db).2
         = Firestore.doc j db.
Proof.
  intros Hd Hr. unfold PatientController.updatePatient.
  rewrite Hd. unfold PatientController.is_patient.
  rewrite bool_decide_eq_true_2 by done. simpl.
  destruct (1 <? PatientController.keys_length
                   (PatientController.updateData body d))%nat eqn:Hk.
  - eexists. rewrite doc_update, Hd by done. simpl. split; [reflexivity|]. simpl.
    rewrite !over_changed_str, !over_changed_val.
    repeat split; try done;
      try (by destruct (PatientController.u_assigned_therapist body));
      try (by left).
    intros j Hj. by apply doc_update_ne.
  - exists d. split; [done|].
    apply Nat.ltb_ge in Hk. unfold PatientController.keys_length in Hk. simpl in Hk.
    assert (forall A (o : option A), PatientController.count_if o = 0%nat -> o = None)
      as Hnone by (by intros A [x|]).
    pose proof (over_changed_str (PatientController.u_name body) (name d)) as H1.
    pose proof (over_changed_str (PatientController.u_email body) (email d)) as H2.
    pose proof (over_changed_val (PatientController.u_age body) (age d)) as H3.
    pose proof (over_changed_val (PatientController.u_gender body) (gender d)) as H4.
    pose proof (over_changed_val (PatientController.u_concerns body) (concerns d)) as H5.
    pose proof (over_changed_val (PatientController.u_emergencyContact body)
                  (emergencyContact d)) as H6.
    rewrite (Hnone _ (PatientController.changed_str _ (name d))) in H1 by lia.
    rewrite (Hnone _ (PatientController.changed_str _ (email d))) in H2 by lia.
    rewrite (Hnone _ (PatientController.changed_val _ (age d))) in H3 by lia.
    rewrite (Hnone _ (PatientController.changed_val _ (gender d))) in H4 by lia.
    rewrite (Hnone _ (PatientController.changed_val _ (concerns d))) in H5 by lia.
    rewrite (Hnone _ (PatientController.changed_val _ (emergencyContact d))) in H6 by lia.
    rewrite (Hnone _ (PatientController.u_assigned_therapist body)) by lia.
    rewrite (Hnone _ (PatientController.u_flags body)) by lia.
    rewrite (Hnone _ (PatientController.u_documents body)) by lia.
    simpl in *. repeat split; try done. by right.
Qed.

Lemma updatePatient_stores_what_is_supplied_witness :
  exists d',
    Firestore.doc "P2"
      (PatientController.updatePatient "P2"
         (PatientController.PatientUpdate (Some "Emeka O.") None None None None None
            None None None)
         9 ∅ Scenario.clinic).2 = Some d'
    /\ name d' = Some "Emeka O."
    /\ email d' = Some "Emeka@mail.example".
Proof.
  destruct (updatePatient_stores_what_is_supplied "P2"
              (PatientController.PatientUpdate (Some "Emeka O.") None None None None
                 None None None None)
              9 ∅ Scenario.clinic
              (Scenario.patient_doc "P2" "Emeka" 2 None None []))
    as (d' & H1 & H2 & H3 & _).
  - reflexivity.
  - reflexivity.
  - exists d'. split; [exact H1|]. split; [exact H2|exact H3].
Defined.

(** ** The patient summary *)

Lemma matches_app cs c d :
  Firestore.matches (cs ++ [c]) d = Firestore.matches cs d && Firestore.satisfies d c.
Proof.
  unfold Firestore.matches. rewrite forallb_app. simpl. by rewrite andb_true_r.
Qed.

Lemma get_where c q db :
  Firestore.orderBy q = None -> Firestore.startAfter q = None ->
  Firestore.limit q = None ->
  Firestore.get (Firestore.where_ c q) db
  = List.filter (fun d => Firestore.satisfies d c) (Firestore.get q db).
Proof.
  unfold Firestore.get. simpl. intros -> -> ->.
  induction db as [|d db IH]; [done|].
  cbn [List.filter]. rewrite matches_app.
  destruct (Firestore.matches (Firestore.conditions q) d); simpl.
  - destruct (Firestore.satisfies d c); simpl; by rewrite IH.
  - exact IH.
Qed.

Lemma filter_length_le {A} (f : A -> bool) (l : list A) :
  (List.length (List.filter f l) <= List.length l)%nat.
Proof. induction l as [|x l IH]; simpl; [done|]. destruct (f x); simpl; lia. Qed.

(** X17. A patient summary that is computed from the store is consistent:
    [total] is the number of patient documents, complete and incomplete
    profiles add up to it (as do active and inactive patients, which are
    the same two numbers), and the flagged patients are those of them
    that have at least one flag. *)
Theorem patient_summary_counters_add_up now cache db s cache' log :
  PatientController.getPatientsSummary now cache db
  = (Ok (PatientController.summary_data s), cache', log) ->
  log <> [] ->
  PatientController.s_total s = List.length (all_patients db)
  /\ PatientController.s_complete s
     = List.length (List.filter (fun d => bool_decide (isProfileComplete d = Some true))
                      (all_patients db))
  /\ (PatientController.s_complete s + PatientController.s_incomplete s
      = PatientController.s_total s)%nat
  /\ PatientController.s_active s = PatientController.s_complete s
  /\ PatientController.s_inactive s = PatientController.s_incomplete s
  /\ PatientController.s_flagged s
     = List.length (List.filter (fun d => match flags d with
                                          | Some (_ :: _) => true
                                          | _ => false
                                          end)
                      (all_patients db))
  /\ (PatientController.s_flagged s <= PatientController.s_total s)%nat.
Proof.
  unfold PatientController.getPatientsSummary, PatientController.getCachedData.
  assert (PatientController.fetchSummary db
          = (Ok (PatientController.summary_data
                   {| PatientController.s_total := List.length (all_patients db);
                      PatientController.s_complete :=
                        List.length
                          (List.filter
                             (fun d => bool_decide (isProfileComplete d = Some true))
                             (all_patients db));
                      PatientController.s_flagged :=
                        List.length
                          (List.filter (fun d => match flags d with
                                                 | Some (_ :: _) => true
                                                 | _ => false
                                                 end)
                             (all_patients db));
                      PatientController.s_incomplete :=
                        List.length (all_patients db)
                        - List.length
                            (List.filter
                               (fun d => bool_decide (isProfileComplete d = Some true))
                               (all_patients db));
                      PatientController.s_active :=
                        List.length
                          (List.filter
                             (fun d => bool_decide (isProfileComplete d = Some true))
                             (all_patients db));
                      PatientController.s_inactive :=
                        List.length (all_patients db)
                        - List.length
                            (List.filter
                               (fun d => bool_decide (isProfileComplete d = Some true))
                               (all_patients db)) |}),
             (PatientController.fetchSummary db).2)) as Hs.
  { unfold PatientController.fetchSummary, all_patients.
    rewrite (get_where (Firestore.where_isProfileComplete true)
               (Firestore.where_ (Firestore.where_role "patient") Firestore.collection))
      by done.
    rewrite (get_where Firestore.where_flags_not_empty
               (Firestore.where_ (Firestore.where_role "patient") Firestore.collection))
      by done.
    reflexivity. }
  rewrite Hs.
  pose proof (filter_length_le
                (fun d => bool_decide (isProfileComplete d = Some true))
                (all_patients db)) as Hle1.
  pose proof (filter_length_le
                (fun d => match flags d with Some (_ :: _) => true | _ => false end)
                (all_patients db)) as Hle2.
  destruct (cache !! "patients_summary") as [e|].
  - destruct (now - timestamp e <? 10 * 60 * 1000).
    + by intros [= _ _ <-].
    + intros [= <- _ _] _. simpl. repeat split; lia.
  - intros [= <- _ _] _. simpl. repeat split; lia.
Qed.

Lemma patient_summary_counters_add_up_witness :
  exists s cache' log,
    PatientController.getPatientsSummary 0 ∅ Scenario.clinic
    = (Ok (PatientController.summary_data s), cache', log)
    /\ PatientController.s_total s = 3%nat
    /\ PatientController.s_flagged s = 1%nat
    /\ PatientController.s_total s = List.length (all_patients Scenario.clinic).
Proof.
  eexists _, _, _. split; [vm_compute; reflexivity|].
  split; [reflexivity|]. split; [reflexivity|].
  refine (proj1 (patient_summary_counters_add_up 0 ∅ Scenario.clinic _ _ _ _ _)).
  - vm_compute. reflexivity.
  - done.
Defined.

(** ** Walking through the pages *)

Lemma page_cut {A} k (X : list A) :
  (if (k <? List.length (take (k + 1) X))%nat
   then removelast (take (k + 1) X) else take (k + 1) X)
  = take k X
  /\ (k <? List.length (take (k + 1) X))%nat = (k <? List.length X)%nat.
Proof.
  rewrite length_take. replace (k + 1)%nat with (S k) by lia.
  destruct (k <? List.length X)%nat eqn:Hk.
  - apply Nat.ltb_lt in Hk.
    rewrite (proj2 (Nat.ltb_lt k (Nat.min (S k) (List.length X)))) by lia.
    split; [|done]. by apply removelast_firstn.
  - apply Nat.ltb_ge in Hk.
    rewrite (proj2 (Nat.ltb_ge k (Nat.min (S k) (List.length X)))) by lia.
    split; [|done]. by rewrite !take_ge by lia.
Qed.

Section paging.
Import PatientController.

Variable db : list user.
Variables pc tid : option string.
Hypothesis Hnd : NoDup (map id db).
Hypothesis Hids : forall d, d ∈ db -> id d <> EmptyString.
Hypothesis Hnone : Forall no_therapist_reference (Firestore.get (list_query pc tid) db).

Lemma list_query_shape :
  Firestore.orderBy (list_query pc tid) = Some Firestore.createdAt_desc
  /\ Firestore.startAfter (list_query pc tid) = None
  /\ Firestore.limit (list_query pc tid) = None.
Proof.
  unfold list_query. destruct pc as [p|], tid as [t|]; simpl;
    repeat case_match; done.
Qed.

Lemma listed_eq :
  Firestore.get (list_query pc tid) db
  = List.filter (Firestore.matches (Firestore.conditions (list_query pc tid)))
      (Firestore.sort_desc Firestore.createdAt_desc db).
Proof. destruct list_query_shape as (Ho & Hs & Hl). by apply get_ordered. Qed.

Lemma listed_elem d : d ∈ Firestore.get (list_query pc tid) db -> d ∈ db.
Proof. apply get_elem. Qed.

(** The page a request gets when it starts at position [i] of the list:
    without a cursor at position 0, with the identifier of record [i - 1]
    as cursor otherwise. *)
Lemma page_at k (c : option string) (i : nat) :
  (c = None /\ i = 0%nat
   \/ exists j d, i = S j /\ Firestore.get (list_query pc tid) db !! j = Some d
                  /\ c = Some (id d)) ->
  let rest := drop i (Firestore.get (list_query pc tid) db) in
  exists p log,
    fetchPatients k c None pc tid db = (Ok (page_data p), log)
    /\ map stored (patients p) = take k rest
    /\ hasMore p = (k <? List.length rest)%nat
    /\ lastDocId p = id <$> last (take k rest).
Proof.
  intros Hc rest.
  destruct list_query_shape as (Ho & Hs & Hl).
  destruct Hc as [[-> ->]|(j & d & -> & Hd & ->)].
  - destruct (fetchPatients_ok k None None pc tid db (list_query pc tid) []
                (take (k + 1) rest))
      as (p & log & Hf & Hst & Hh & Hl' & _); [done|done| |done| |].
    { by rewrite get_limit. }
    { rewrite (proj1 (page_cut k rest)). by apply Forall_take, Forall_drop. }
    destruct (page_cut k rest) as [Hcut Hlen].
    rewrite Hcut in Hst, Hl'. rewrite Hlen in Hh. by exists p, log.
  - assert (d ∈ Firestore.sort_desc Firestore.createdAt_desc db) as Hsorted.
    { apply list_elem_of_lookup_2 in Hd. rewrite listed_eq in Hd.
      apply list_elem_of_In, filter_In in Hd as [Hd _]. by apply list_elem_of_In in Hd. }
    assert (d ∈ db) as Hin by (eapply listed_elem, list_elem_of_lookup_2, Hd).
    assert (Js.truthy (id d) = true) as Ht.
    { specialize (Hids _ Hin). by destruct (id d). }
    destruct (fetchPatients_ok k (Some (id d)) None pc tid db
                (Firestore.startAfter_ (id d) (list_query pc tid))
                [doc_get (id d)] (take (k + 1) rest))
      as (p & log & Hf & Hst & Hh & Hl' & _); [| | |done| |].
    { unfold with_cursor. by rewrite Ht, (doc_elem (id d) db d). }
    { by apply (patient_cursor_accepted db _ Firestore.createdAt_desc). }
    { rewrite get_limit by done.
      rewrite (get_startAfter _ Firestore.createdAt_desc) by done.
      rewrite (filter_after _ _ j d);
        [|by apply sort_desc_NoDup|by rewrite <- listed_eq].
      by rewrite <- listed_eq. }
    { rewrite (proj1 (page_cut k rest)). by apply Forall_take, Forall_drop. }
    destruct (page_cut k rest) as [Hcut Hlen].
    rewrite Hcut in Hst, Hl'. rewrite Hlen in Hh. by exists p, log.
Qed.

Lemma read_all_from (k : nat) :
  (1 <= k)%nat ->
  forall fuel c i,
    (c = None /\ i = 0%nat
     \/ exists j d, i = S j /\ Firestore.get (list_query pc tid) db !! j = Some d
                    /\ c = Some (id d)) ->
    (List.length (Firestore.get (list_query pc tid) db) - i < fuel)%nat ->
    read_all_patients fuel k c pc tid db
    = Some (drop i (Firestore.get (list_query pc tid) db)).
Proof.
  intros Hk. set (L := Firestore.get (list_query pc tid) db).
  induction fuel as [|fuel IH]; intros c i Hc Hfuel; [lia|].
  destruct (page_at k c i Hc) as (p & log & Hf & Hst & Hh & Hl).
  fold L in Hst, Hh, Hl.
  cbn [read_all_patients]. rewrite Hf, Hst, Hh, Hl.
  destruct (k <? List.length (drop i L))%nat eqn:Hmore.
  - apply Nat.ltb_lt in Hmore. rewrite length_drop in Hmore.
    assert (is_Some (L !! (i + k - 1)%nat)) as [d Hd]
      by (apply lookup_lt_is_Some_2; lia).
    assert (last (take k (drop i L)) = Some d) as Hlast.
    { rewrite last_lookup, length_take, length_drop.
      replace (Nat.pred (Nat.min k (List.length L - i))) with (k - 1)%nat by lia.
      rewrite lookup_take_lt by lia. rewrite lookup_drop.
      by replace (i + (k - 1))%nat with (i + k - 1)%nat by lia. }
    rewrite Hlast. simpl.
    rewrite (IH (Some (id d)) (i + k)%nat).
    + f_equal. rewrite <- (drop_drop L k i). apply take_drop.
    + right. exists (i + k - 1)%nat, d. split; [lia|done].
    + fold L. lia.
  - apply Nat.ltb_ge in Hmore. by rewrite take_ge.
Qed.

End paging.

(** X18. As long as no listed patient names a therapist under
    [assigned_therapist], the page [fetchPatients] returns for a page size
    [k] (a natural number) and the cursor of a record is made of the
    records that follow it in the list, at most [k] of them, with
    [hasMore] set exactly when more than [k] follow; without a cursor the
    page starts with the first record. The list is the patients that pass
    the store-level filters, newest first; the collection has pairwise
    different, non-empty identifiers and no keyword is given. *)
Theorem patient_page_follows_its_cursor k pc tid db :
  NoDup (map id db) -> (forall d, d ∈ db -> id d <> EmptyString) ->
  Forall no_therapist_reference (Firestore.get (PatientController.list_query pc tid) db) ->
  let listed := Firestore.get (PatientController.list_query pc tid) db in
  (exists p log,
     PatientController.fetchPatients k None None pc tid db
     = (Ok (PatientController.page_data p), log)
     /\ map PatientController.stored (PatientController.patients p) = take k listed
     /\ PatientController.hasMore p = (k <? List.length listed)%nat)
  /\ forall j d,
       listed !! j = Some d ->
       exists p log,
         PatientController.fetchPatients k (Some (id d)) None pc tid db
         = (Ok (PatientController.page_data p), log)
         /\ map PatientController.stored (PatientController.patients p)
            = take k (drop (S j) listed)
         /\ PatientController.hasMore p = (S j + k <? List.length listed)%nat.
Proof.
  intros Hnd Hids Hnone listed. split.
  - destruct (page_at db pc tid Hnd Hids Hnone k None 0)
      as (p & log & Hf & Hst & Hh & _); [by left|].
    exists p, log. by rewrite drop_0 in Hst, Hh.
  - intros j d Hd.
    destruct (page_at db pc tid Hnd Hids Hnone k (Some (id d)) (S j))
      as (p & log & Hf & Hst & Hh & _); [right; by exists j, d|].
    exists p, log. split; [done|]. split; [done|].
    rewrite Hh, length_drop. fold listed.
    destruct (k <? List.length listed - S j)%nat eqn:H1,
             (S j + k <? List.length listed)%nat eqn:H2; try done.
    + apply Nat.ltb_lt in H1. apply Nat.ltb_ge in H2. lia.
    + apply Nat.ltb_ge in H1. apply Nat.ltb_lt in H2. lia.
Qed.

Lemma patient_page_follows_its_cursor_witness :
  exists p log,
    PatientController.fetchPatients 2 None None None None Scenario.clinic
    = (Ok (PatientController.page_data p), log)
    /\ map PatientController.stored (PatientController.patients p)
       = take 2 (Firestore.get (PatientController.list_query None None) Scenario.clinic)
    /\ PatientController.hasMore p
       = (2 <? List.length
                 (Firestore.get (PatientController.list_query None None)
                    Scenario.clinic))%nat.
Proof.
  refine (proj1 (patient_page_follows_its_cursor 2 None None Scenario.clinic _ _ _)).
  - apply (bool_decide_unpack _). vm_compute. exact I.
  - intros d Hd.
    assert (Forall (fun d => id d <> EmptyString) Scenario.clinic) as H.
    { apply (bool_decide_unpack _). vm_compute. exact I. }
    by eapply Forall_forall in H.
  - unfold no_therapist_reference. apply (bool_decide_unpack _). vm_compute. exact I.
Defined.

(** X19. As long as no listed patient names a therapist under
    [assigned_therapist], a client that follows the cursors receives the
    whole patient list exactly once and in order: starting without a cursor
    and asking for the page after [lastDocId] as long as [hasMore] is set,
    it ends after at most one request per record with every patient that
    passes the store-level filters, newest first, none twice and none
    missing (page size a natural number, at least one; pairwise different
    non-empty identifiers; no keyword). *)
Theorem following_the_cursors_reads_every_patient_once k pc tid db :
  (1 <= k)%nat ->
  NoDup (map id db) -> (forall d, d ∈ db -> id d <> EmptyString) ->
  Forall no_therapist_reference (Firestore.get (PatientController.list_query pc tid) db) ->
  read_all_patients (S (List.length (Firestore.get (PatientController.list_query pc tid) db)))
    k None pc tid db
  = Some (Firestore.get (PatientController.list_query pc tid) db).
Proof.
  intros Hk Hnd Hids Hnone.
  rewrite (read_all_from db pc tid Hnd Hids Hnone k Hk _ None 0%nat); [done|by left|lia].
Qed.

Lemma following_the_cursors_reads_every_patient_once_witness :
  read_all_patients 12 2 None None None Scenario.eleven
  = Some (Firestore.get (PatientController.list_query None None) Scenario.eleven).
Proof.
  apply (following_the_cursors_reads_every_patient_once 2 None None Scenario.eleven).
  - lia.
  - apply eleven_NoDup.
  - apply eleven_ids.
  - unfold no_therapist_reference. apply (bool_decide_unpack _). vm_compute. exact I.
Defined.

(** ** The residual filters of the therapist list *)

Lemma field_includes_iff f kwl :
  TherapistController.field_includes f kwl = true
  <-> exists s, f = Some s /\ Js.includes (Js.toLowerCase s) kwl = true.
Proof.
  unfold TherapistController.field_includes. destruct f as [s|].
  - split; [eauto|]. by intros (s' & [= <-] & H).
  - split; [done|]. by intros (s' & [=] & _).
Qed.

Lemma keyword_filter_iff kw t :
  TherapistController.keyword_filter kw t = true
  <-> exists s, s ∈ searched_fields t /\ contains_ignoring_case s kw.
Proof.
  unfold TherapistController.keyword_filter, searched_fields, contains_ignoring_case.
  rewrite !orb_true_iff, !field_includes_iff. split.
  - intros [[[[(s & Hs & H)|(s & Hs & H)]|(s & Hs & H)]|H]|H].
    + exists s. rewrite Hs. split; [|by apply includes_iff].
      apply elem_of_app. left. apply list_elem_of_here.
    + exists s. rewrite Hs. split; [|by apply includes_iff].
      apply elem_of_app. right. apply elem_of_app. left. apply list_elem_of_here.
    + exists s. rewrite Hs. split; [|by apply includes_iff].
      do 2 (apply elem_of_app; right). apply elem_of_app. left. apply list_elem_of_here.
    + eexists. split; [|by apply includes_iff].
      do 3 (apply elem_of_app; right). apply list_elem_of_here.
    + eexists. split; [|by apply includes_iff].
      do 3 (apply elem_of_app; right). apply list_elem_of_further, list_elem_of_here.
  - intros (s & Hs & H). apply includes_iff in H.
    apply elem_of_app in Hs as [Hs|Hs].
    { destruct (TherapistController.t_name t) as [n|]; [|by apply elem_of_nil in Hs].
      apply list_elem_of_singleton in Hs as ->. left. left. left. left. eauto. }
    apply elem_of_app in Hs as [Hs|Hs].
    { destruct (TherapistController.t_email t) as [n|]; [|by apply elem_of_nil in Hs].
      apply list_elem_of_singleton in Hs as ->. left. left. left. right. eauto. }
    apply elem_of_app in Hs as [Hs|Hs].
    { destruct (TherapistController.t_specialization t) as [n|];
        [|by apply elem_of_nil in Hs].
      apply list_elem_of_singleton in Hs as ->. left. left. right. eauto. }
    apply elem_of_cons in Hs as [->|Hs]; [left; by right|].
    apply list_elem_of_singleton in Hs as ->. by right.
Qed.

Lemma fetchTherapists_shown k c kw sp v pc ex db p log :
  TherapistController.fetchTherapists (Some k) c kw sp v pc ex db = (Ok p, log) ->
  exists docs counts,
    TherapistController.therapists p
    = map (TherapistController.with_count counts)
        (TherapistController.residual_filter kw ex
           (map TherapistController.transformTherapistData docs)).
Proof.
  unfold TherapistController.fetchTherapists.
  destruct (TherapistController.with_cursor c db _) as [q0 log0]. simpl.
  destruct (TherapistController.cursor_refused c db _); [done|].
  rewrite drop_extra_eq.
  destruct (TherapistController.count_patients _ db ∅ (log0 ++ _))
    as [[counts|] log1] eqn:Hc; [|done].
  intros [= <- <-]. simpl. eauto.
Qed.

Lemma residual_filter_keyword kw ex ts t :
  Js.truthy kw = true ->
  t ∈ TherapistController.residual_filter kw ex ts ->
  TherapistController.keyword_filter kw t = true.
Proof.
  intros Hkw. unfold TherapistController.residual_filter. rewrite Hkw.
  destruct (_ && _)%bool; intros Ht.
  - apply list_elem_of_In, filter_In in Ht as [Ht _].
    by apply filter_In in Ht as [_ Ht].
  - by apply list_elem_of_In, filter_In in Ht as [_ Ht].
Qed.

(** X20. The keyword of the therapist list is a substring search that
    ignores letter case: every therapist on a page that was requested with
    a keyword has the keyword, whatever its capitals, inside its name,
    email, specialization, title or bio, whatever theirs. *)
Theorem keyword_pages_hold_only_matches k c kw sp v pc ex db p log t :
  TherapistController.fetchTherapists (Some k) c kw sp v pc ex db = (Ok p, log) ->
  kw <> EmptyString ->
  t ∈ TherapistController.therapists p ->
  exists s, s ∈ searched_fields t /\ contains_ignoring_case s kw.
Proof.
  intros Hf Hkw Ht.
  destruct (fetchTherapists_shown _ _ _ _ _ _ _ _ _ _ Hf) as (docs & counts & Hp).
  rewrite Hp in Ht. apply list_elem_of_fmap in Ht as (t0 & -> & Ht0).
  apply residual_filter_keyword in Ht0; [|by destruct kw].
  apply keyword_filter_iff in Ht0 as (s & Hs & Hc). by exists s.
Qed.

Lemma keyword_pages_hold_only_matches_witness :
  exists p log t,
    TherapistController.fetchTherapists (Some 15%nat) None "ALICE" EmptyString
      EmptyString EmptyString EmptyString Scenario.clinic = (Ok p, log)
    /\ TherapistController.therapists p = [t]
    /\ exists s, s ∈ searched_fields t /\ contains_ignoring_case s "ALICE".
Proof.
  eexists _, _, _. split; [vm_compute; reflexivity|]. split; [reflexivity|].
  refine (keyword_pages_hold_only_matches 15%nat None "ALICE" EmptyString EmptyString
            EmptyString EmptyString Scenario.clinic _ _ _ _ _ _).
  - vm_compute. reflexivity.
  - done.
  - apply list_elem_of_here.
Defined.

(** ** The specializations endpoint *)

Section specializations.
Import TherapistController.

Lemma add_specialization_fold acc docs :
  NoDup acc ->
  NoDup (foldl add_specialization acc docs)
  /\ forall x,
       x ∈ foldl add_specialization acc docs
       <-> x ∈ acc
           \/ exists d s, d ∈ docs /\ specialization d = Some s
                          /\ s <> EmptyString /\ Js.trim s = x.
Proof.
  revert acc. induction docs as [|d docs IH]; intros acc Hnd; simpl.
  - split; [done|]. intros x. split; [by left|].
    intros [H|(d & s & Hd & _)]; [done|by apply elem_of_nil in Hd].
  - assert (NoDup (add_specialization acc d)
            /\ forall x, x ∈ add_specialization acc d
                 <-> x ∈ acc \/ exists s, specialization d = Some s
                                          /\ s <> EmptyString /\ Js.trim s = x)
      as [Hnd' Hstep].
    { unfold add_specialization. destruct (specialization d) as [s|].
      - destruct (Js.truthy s) eqn:Hs.
        + unfold Js.set_add. case_bool_decide as Hin.
          * split; [done|]. intros x. split; [by left|].
            intros [H|(s' & [= <-] & _ & <-)]; done.
          * split.
            -- apply NoDup_app. repeat split; [done| |apply NoDup_singleton].
               intros x Hx Hx'. apply list_elem_of_singleton in Hx'. by subst.
            -- intros x. rewrite elem_of_app, list_elem_of_singleton. split.
               ++ intros [H| ->]; [by left|]. right. exists s.
                  split; [done|]. split; [by destruct s|done].
               ++ intros [H|(s' & [= <-] & _ & <-)]; [by left|by right].
        + split; [done|]. intros x. split; [by left|].
          intros [H|(s' & [= <-] & Hne & _)]; [done|by destruct s].
      - split; [done|]. intros x. split; [by left|].
        intros [H|(s' & [=] & _)]; done. }
    destruct (IH _ Hnd') as [Hnd'' Hrest]. split; [done|].
    intros x. rewrite Hrest, Hstep. split.
    + intros [[H|(s & Hs & Hne & Ht)]|(d' & s & Hd' & H)].
      * by left.
      * right. exists d, s. split; [apply list_elem_of_here|done].
      * right. exists d', s. split; [by apply list_elem_of_further|done].
    + intros [H|(d' & s & Hd' & Hs & Hne & Ht)]; [by left; left|].
      apply elem_of_cons in Hd' as [-> |Hd'].
      * left. right. by exists s.
      * right. by exists d', s.
Qed.

End specializations.

(** X22. The array [getTherapistSpecializations] computes is sorted in
    ascending order and has no element twice; it holds exactly the
    non-empty specializations of the therapist documents, with the white
    space around them removed, so two therapists whose specializations
    differ only in surrounding blanks contribute one element. *)
Theorem specializations_are_sorted_and_distinct db :
  StronglySorted String.le (TherapistController.fetchSpecializations db).1
  /\ NoDup (TherapistController.fetchSpecializations db).1
  /\ forall x,
       x ∈ (TherapistController.fetchSpecializations db).1
       <-> exists d s,
             d ∈ all_professionals db /\ specialization d = Some s
             /\ s <> EmptyString /\ Js.trim s = x.
Proof.
  unfold TherapistController.fetchSpecializations, Js.sort. simpl.
  fold (all_professionals db).
  destruct (add_specialization_fold [] (all_professionals db) (@NoDup_nil_2 string))
    as [Hnd Hin].
  split; [apply StronglySorted_merge_sort; apply _|].
  split; [by rewrite merge_sort_Permutation|].
  intros x. rewrite merge_sort_Permutation, Hin. split.
  - intros [H|H]; [by apply elem_of_nil in H|done].
  - by right.
Qed.

(** ** Creating therapists *)

Lemma get_nil_none q db :
  Firestore.orderBy q = None -> Firestore.startAfter q = None ->
  Firestore.limit q = None ->
  Firestore.get q db = [] ->
  forall d, d ∈ db -> Firestore.matches (Firestore.conditions q) d = false.
Proof.
  unfold Firestore.get. intros -> -> -> Hnil d Hd.
  destruct (Firestore.matches (Firestore.conditions q) d) eqn:Hm; [|done].
  assert (d ∈ List.filter (Firestore.matches (Firestore.conditions q)) db) as Hin.
  { apply list_elem_of_In, filter_In. split; [by apply list_elem_of_In|done]. }
  rewrite Hnil in Hin. by apply elem_of_nil in Hin.
Qed.

(** X23. When [createTherapist] succeeds it has added exactly one
    document: an unverified therapist with an incomplete profile, whose
    email no other document of the collection holds, patient or therapist,
    and whose [uid], when the request supplies one, no other document
    holds either; the controller's cache is emptied. A failed call
    changes neither the store nor the cache. *)
Theorem createTherapist_keeps_emails_unique body newId now cache db :
  (forall r cache' db',
     TherapistController.createTherapist body newId now cache db = (Ok r, cache', db') ->
     exists d,
       db' = db ++ [d] /\ cache' = ∅
       /\ r = TherapistController.transformTherapistData d
       /\ id d = newId /\ role d = Some "professional"
       /\ isVerified d = Some false /\ isProfileComplete d = Some false
       /\ email d = TherapistController.n_email body
       /\ (forall x, x ∈ db -> email x <> email d)
       /\ (forall u, TherapistController.n_uid body = Some u -> u <> EmptyString ->
             uid d = Some u /\ forall x, x ∈ db -> uid x <> Some u))
  /\ (forall st msg cache' db',
        TherapistController.createTherapist body newId now cache db
        = (Failed st msg, cache', db') ->
        cache' = cache /\ db' = db).
Proof.
  unfold TherapistController.createTherapist. split.
  - intros r cache' db'.
    destruct (TherapistController.n_email body) as [e|]; [|done].
    destruct (Firestore.get (Firestore.where_ (Firestore.where_email e)
                               Firestore.collection) db) eqn:Hg; [|done].
    set (taken := match TherapistController.n_uid body with
                  | Some u => _ | None => _ end).
    destruct taken eqn:Htaken; [done|].
    destruct (TherapistController.n_name body) as [n|]; [|done].
    destruct (TherapistController.n_specialization body) as [sp|]; [|done].
    intros [= <- <- <-]. eexists. split; [reflexivity|]. simpl.
    do 7 (split; [reflexivity|]). split.
    + intros x Hx.
      pose proof (get_nil_none
                    (Firestore.where_ (Firestore.where_email e) Firestore.collection)
                    db eq_refl eq_refl eq_refl Hg x Hx) as Hm.
      simpl in Hm. rewrite andb_true_r in Hm. by apply bool_decide_eq_false in Hm.
    + intros u Hu Hne. subst taken. rewrite Hu in Htaken. rewrite Hu. simpl.
      assert (Js.truthy u = true) as Ht by (by destruct u).
      rewrite Ht in Htaken. rewrite Ht. split; [done|].
      apply negb_false_iff, bool_decide_eq_true in Htaken.
      intros x Hx.
      pose proof (get_nil_none
                    (Firestore.where_ (Firestore.where_uid u) Firestore.collection)
                    db eq_refl eq_refl eq_refl Htaken x Hx) as Hm.
      simpl in Hm. rewrite andb_true_r in Hm. by apply bool_decide_eq_false in Hm.
  - intros st msg cache' db'.
    destruct (TherapistController.n_email body) as [e|]; [|by intros [= _ _ <- <-]].
    destruct (Firestore.get _ db); [|by intros [= _ _ <- <-]].
    destruct (match TherapistController.n_uid body with
              | Some u => _ | None => _ end); [by intros [= _ _ <- <-]|].
    destruct (TherapistController.n_name body) as [n|]; [|by intros [= _ _ <- <-]].
    destruct (TherapistController.n_specialization body) as [sp|];
      [done|by intros [= _ _ <- <-]].
Qed.

Lemma createTherapist_keeps_emails_unique_witness :
  (TherapistController.createTherapist
     (TherapistController.NewTherapist None (Some "Dana") (Some "Dana@mail.example")
        None (Some "CBT") None None)
     "T9" 50 ∅ Scenario.clinic).1.2 = ∅
  /\ (TherapistController.createTherapist
        (TherapistController.NewTherapist None (Some "Dana") (Some "Dana@mail.example")
           None (Some "CBT") None None)
        "T9" 50 ∅ Scenario.clinic).2 = Scenario.clinic.
Proof.
  refine (proj2 (createTherapist_keeps_emails_unique
                   (TherapistController.NewTherapist None (Some "Dana")
                      (Some "Dana@mail.example") None (Some "CBT") None None)
                   "T9" 50 ∅ Scenario.clinic)
            400%nat "Email already exists" _ _ _).
  reflexivity.
Defined.

(** ** Routes and roles *)

Lemma dispatch_elem routes method path r :
  Router.dispatch routes method path = Some r ->
  r ∈ routes /\ Router.r_method r = method.
Proof.
  unfold Router.dispatch. intros H. apply find_some in H as [Hin Hm].
  apply andb_true_iff in Hm as [Hm _]. apply bool_decide_eq_true in Hm.
  split; [by apply list_elem_of_In|done].
Qed.

(** X24. Access to the patient and therapist routes. A request reaches a
    handler only with the role [admin] or [super_admin], or with the role
    [professional] on one of the four reading patient routes (summary,
    search, list, detail); every therapist route and every route that
    writes is closed to professionals, and a request without an
    authenticated administrator is always refused. The routes without
    parameters are registered before [/:id] takes their path: each of
    them is reached under its own path. *)
Theorem routes_open_only_to_the_listed_roles :
  (forall routes method path user h,
     routes = Router.patientRoutes \/ routes = Router.therapistRoutes ->
     Router.serve routes method path user = Some (Ok h) ->
     user = Some "admin" \/ user = Some "super_admin"
     \/ (user = Some "professional" /\ routes = Router.patientRoutes
         /\ method = "GET" /\ h ∈ patient_reads))
  /\ (forall routes r path,
        routes = Router.patientRoutes \/ routes = Router.therapistRoutes ->
        r ∈ routes -> literal_path (Router.r_path r) = Some path ->
        Router.dispatch routes (Router.r_method r) path = Some r).
Proof.
  split.
  - intros routes method path user h Hroutes. unfold Router.serve.
    destruct (Router.dispatch routes method path) as [r|] eqn:Hd; [|done].
    destruct (dispatch_elem _ _ _ _ Hd) as [Hin Hm].
    unfold Router.authorize. destruct user as [u|]; [|done].
    case_bool_decide as Hu; [|done]. intros [= <-].
    assert (Router.r_roles r = Router.admins
            \/ (routes = Router.patientRoutes /\ Router.r_method r = "GET"
                /\ Router.r_roles r = Router.staff
                /\ Router.r_handler r ∈ patient_reads)) as [Hr|(-> & Hg & Hr & Hh)].
    { destruct Hroutes as [-> | ->].
      - unfold Router.patientRoutes in Hin.
        repeat (apply elem_of_cons in Hin as [-> | Hin];
                [first [by left
                       |right; repeat split; try done;
                        apply (bool_decide_unpack _); vm_compute; exact I]|]).
        by apply elem_of_nil in Hin.
      - unfold Router.therapistRoutes in Hin.
        repeat (apply elem_of_cons in Hin as [-> | Hin]; [by left|]).
        by apply elem_of_nil in Hin. }
    + rewrite Hr in Hu. unfold Router.admins in Hu.
      apply elem_of_cons in Hu as [-> | Hu]; [by left|].
      apply list_elem_of_singleton in Hu as ->. right. by left.
    + rewrite Hr in Hu. unfold Router.staff in Hu.
      apply elem_of_cons in Hu as [-> | Hu]; [by left|].
      apply elem_of_cons in Hu as [-> | Hu]; [right; by left|].
      apply list_elem_of_singleton in Hu as ->. right. right.
      repeat split; try done. congruence.
  - intros routes r path [-> | ->] Hin.
    + unfold Router.patientRoutes in Hin.
      repeat (apply elem_of_cons in Hin as [-> | Hin];
              [simpl; first [by intros [= <-]|done]|]).
      by apply elem_of_nil in Hin.
    + unfold Router.therapistRoutes in Hin.
      repeat (apply elem_of_cons in Hin as [-> | Hin];
              [simpl; first [by intros [= <-]|done]|]).
      by apply elem_of_nil in Hin.
Qed.

Lemma routes_open_only_to_the_listed_roles_witness :
  Router.dispatch Router.patientRoutes "GET" ["summary"]
  = Some (Router.Route "GET" [Router.lit "summary"] Router.staff "getPatientsSummary").
Proof.
  apply (proj2 routes_open_only_to_the_listed_roles Router.patientRoutes
           (Router.Route "GET" [Router.lit "summary"] Router.staff "getPatientsSummary")
           ["summary"]).
  - by left.
  - apply list_elem_of_here.
  - reflexivity.
Defined.

(** ** The cache middleware *)

(** X25. After a [GET] request has passed [cacheMiddleware], the cache
    holds, under the key of the request, the body that was sent; the
    entries of all other keys are as before, and either the handler has
    run or neither the cache nor the rest of the state has changed. A
    request with another method goes to the handler and leaves the cache
    alone. *)
Theorem cacheMiddleware_stores_what_it_sends {B S : Type} (ttl now : Z)
    (req : CacheMiddleware.request) (next : S -> B * S)
    (cache : gmap string (entry B)) (s : S) body cache' s' :
  CacheMiddleware.cacheMiddleware ttl req now next cache s = (body, cache', s') ->
  (CacheMiddleware.method req = "GET" ->
   (exists e, cache' !! CacheMiddleware.cache_key req = Some e /\ data e = body)
   /\ (forall k, k <> CacheMiddleware.cache_key req -> cache' !! k = cache !! k)
   /\ (next s = (body, s') \/ (cache' = cache /\ s' = s)))
  /\ (CacheMiddleware.method req <> "GET" -> next s = (body, s') /\ cache' = cache).
Proof.
  unfold CacheMiddleware.cacheMiddleware. intros H. split.
  - intros Hm. rewrite bool_decide_eq_true_2 in H by done. simpl in H.
    destruct (next s) as [b s1] eqn:Hn.
    assert ((body, cache', s')
            = (b, <[CacheMiddleware.cache_key req := Entry b now]> cache, s1) ->
            (exists e, cache' !! CacheMiddleware.cache_key req = Some e /\ data e = body)
            /\ (forall k, k <> CacheMiddleware.cache_key req -> cache' !! k = cache !! k)
            /\ ((b, s1) = (body, s') \/ (cache' = cache /\ s' = s))) as Hmiss.
    { intros [= -> -> ->]. split; [|split].
      - eexists. by rewrite lookup_insert_eq.
      - intros k Hk. by rewrite lookup_insert_ne.
      - by left. }
    destruct (cache !! CacheMiddleware.cache_key req) as [e|] eqn:He.
    + destruct (now - timestamp e <? ttl).
      * injection H as <- <- <-. split; [by exists e|]. split; [done|by right].
      * by apply Hmiss.
    + by apply Hmiss.
  - intros Hm. rewrite bool_decide_eq_false_2 in H by done. simpl in H.
    destruct (next s) as [b s1]. by injection H as <- <- <-.
Qed.

Lemma cacheMiddleware_stores_what_it_sends_witness :
  exists e,
    (CacheMiddleware.cacheMiddleware 300
       (CacheMiddleware.Request "GET" "/api/therapists" []) 0
       (fun s : nat => ("page", S s)) ∅ 0%nat).1.2
    !! CacheMiddleware.cache_key (CacheMiddleware.Request "GET" "/api/therapists" [])
    = Some e
    /\ data e = "page".
Proof.
  refine (proj1 (proj1 (cacheMiddleware_stores_what_it_sends 300 0
                          (CacheMiddleware.Request "GET" "/api/therapists" [])
                          (fun s : nat => ("page", S s)) ∅ 0%nat _ _ _ _) _)).
  - reflexivity.
  - reflexivity.
Defined.

(** ** Pages of the therapist list *)

Section therapist_paging.
Import TherapistController.

Variable db : list user.
Variables sp v pc : string.
Hypothesis Hnd : NoDup (map id db).
Hypothesis Hids : forall d, d ∈ db -> id d <> EmptyString.
Hypothesis Huid : Forall (fun d => is_Some (uid d)) db.

Lemma t_list_query_shape :
  Firestore.orderBy (list_query sp v pc) = Some Firestore.updatedAt_desc
  /\ Firestore.startAfter (list_query sp v pc) = None
  /\ Firestore.limit (list_query sp v pc) = None.
Proof. unfold list_query. repeat case_match; done. Qed.

Lemma t_listed_eq :
  Firestore.get (list_query sp v pc) db
  = List.filter (Firestore.matches (Firestore.conditions (list_query sp v pc)))
      (Firestore.sort_desc Firestore.updatedAt_desc db).
Proof. destruct t_list_query_shape as (Ho & Hs & Hl). by apply get_ordered. Qed.

Lemma t_page_at k (c : option string) (i : nat) :
  (c = None /\ i = 0%nat
   \/ exists j d, i = S j /\ Firestore.get (list_query sp v pc) db !! j = Some d
                  /\ c = Some (id d)) ->
  let rest := drop i (Firestore.get (list_query sp v pc) db) in
  exists p log,
    fetchTherapists (Some k) c EmptyString sp v pc EmptyString db = (Ok p, log)
    /\ map t_id (therapists p) = map id (take k rest)
    /\ hasMore p = (k <? List.length rest)%nat
    /\ lastDocId p = id <$> last (take k rest).
Proof.
  intros Hc rest.
  destruct t_list_query_shape as (Ho & Hs & Hl).
  assert (forall q0 log0,
            with_cursor c db (list_query sp v pc) = (q0, log0) ->
            cursor_refused c db (list_query sp v pc) = false ->
            Firestore.get (Firestore.limit_ (k + 1) q0) db = take (k + 1) rest ->
            exists p log,
              fetchTherapists (Some k) c EmptyString sp v pc EmptyString db = (Ok p, log)
              /\ map t_id (therapists p) = map id (take k rest)
              /\ hasMore p = (k <? List.length rest)%nat
              /\ lastDocId p = id <$> last (take k rest)) as Hpage.
  { intros q0 log0 Hq Hacc Hget.
    destruct (page_cut k rest) as [Hcut Hlen].
    destruct (fetchTherapists_ok k c EmptyString sp v pc EmptyString db q0 log0
                (take (k + 1) rest) Hq Hacc Hget) as (counts & log & Hf).
    { rewrite Hcut. simpl. apply Forall_fmap, Forall_forall. intros d Hd. simpl.
      rewrite Forall_forall in Huid. apply Huid.
      apply elem_of_take in Hd as (n & Hd & _).
      unfold rest in Hd. rewrite lookup_drop in Hd.
      apply list_elem_of_lookup_2 in Hd. by eapply get_elem. }
    rewrite Hcut, Hlen in Hf. simpl in Hf.
    eexists _, _. split; [exact Hf|]. simpl.
    split; [|done]. rewrite with_count_id.
    change (residual_filter EmptyString EmptyString
              (map transformTherapistData (take k rest)))
      with (map transformTherapistData (take k rest)).
    apply transform_id. }
  destruct Hc as [[-> ->]|(j & d & -> & Hd & ->)].
  - apply (Hpage (list_query sp v pc) []); [done|done|]. by rewrite get_limit.
  - assert (d ∈ Firestore.sort_desc Firestore.updatedAt_desc db) as Hsorted.
    { apply list_elem_of_lookup_2 in Hd. rewrite t_listed_eq in Hd.
      apply list_elem_of_In, filter_In in Hd as [Hd _]. by apply list_elem_of_In in Hd. }
    assert (d ∈ db) as Hin by (eapply get_elem, list_elem_of_lookup_2, Hd).
    assert (Js.truthy (id d) = true) as Ht.
    { specialize (Hids _ Hin). by destruct (id d). }
    apply (Hpage (Firestore.startAfter_ (id d) (list_query sp v pc)) [doc_get (id d)]).
    + unfold with_cursor. by rewrite Ht, (doc_elem (id d) db d).
    + by apply (therapist_cursor_accepted db _ Firestore.updatedAt_desc).
    + rewrite get_limit by done.
      rewrite (get_startAfter _ Firestore.updatedAt_desc) by done.
      rewrite (filter_after _ _ j d);
        [|by apply sort_desc_NoDup|by rewrite <- t_listed_eq].
      by rewrite <- t_listed_eq.
Qed.

End therapist_paging.

(** X26. The page [getTherapists] computes for the cursor of a record is
    made of the therapists that follow it in the list, at most [pageSize]
    of them, with [hasMore] set exactly when more than [pageSize] follow;
    without a cursor the page starts with the first therapist. The list
    is the therapists that pass the store-level filters, most recently
    updated first; the collection has pairwise different, non-empty
    identifiers, every document has a [uid], and no keyword or experience
    bucket is given. *)
Theorem therapist_page_follows_its_cursor k sp v pc db :
  NoDup (map id db) -> (forall d, d ∈ db -> id d <> EmptyString) ->
  Forall (fun d => is_Some (uid d)) db ->
  let listed := Firestore.get (TherapistController.list_query sp v pc) db in
  (exists p log,
     TherapistController.fetchTherapists (Some k) None EmptyString sp v pc
       EmptyString db = (Ok p, log)
     /\ map TherapistController.t_id (TherapistController.therapists p)
        = map id (take k listed)
     /\ TherapistController.hasMore p = (k <? List.length listed)%nat)
  /\ forall j d,
       listed !! j = Some d ->
       exists p log,
         TherapistController.fetchTherapists (Some k) (Some (id d)) EmptyString sp v pc
           EmptyString db = (Ok p, log)
         /\ map TherapistController.t_id (TherapistController.therapists p)
            = map id (take k (drop (S j) listed))
         /\ TherapistController.hasMore p = (S j + k <? List.length listed)%nat.
Proof.
  intros Hnd Hids Huid listed. split.
  - destruct (t_page_at db sp v pc Hnd Hids Huid k None 0)
      as (p & log & Hf & Hst & Hh & _); [by left|].
    exists p, log. by rewrite drop_0 in Hst, Hh.
  - intros j d Hd.
    destruct (t_page_at db sp v pc Hnd Hids Huid k (Some (id d)) (S j))
      as (p & log & Hf & Hst & Hh & _); [right; by exists j, d|].
    exists p, log. split; [done|]. split; [done|].
    rewrite Hh, length_drop. fold listed.
    destruct (k <? List.length listed - S j)%nat eqn:H1,
             (S j + k <? List.length listed)%nat eqn:H2; try done.
    + apply Nat.ltb_lt in H1. apply Nat.ltb_ge in H2. lia.
    + apply Nat.ltb_ge in H1. apply Nat.ltb_lt in H2. lia.
Qed.

Lemma therapist_page_follows_its_cursor_witness :
  exists p log,
    TherapistController.fetchTherapists (Some 2%nat) (Some "t2") EmptyString EmptyString
      EmptyString EmptyString EmptyString Scenario.staff = (Ok p, log)
    /\ map TherapistController.t_id (TherapistController.therapists p)
       = map id (take 2 (drop 24 (professionals Scenario.staff)))
    /\ TherapistController.hasMore p
       = (24 + 2 <? List.length (professionals Scenario.staff))%nat.
Proof.
  refine (proj2 (therapist_page_follows_its_cursor 2 EmptyString EmptyString EmptyString
                   Scenario.staff _ _ _) 23%nat
            (Scenario.therapist_doc "t2" "u2" "therapist2" 5 2) _).
  - apply (bool_decide_unpack _). vm_compute. exact I.
  - intros d Hd.
    assert (Forall (fun d => id d <> EmptyString) Scenario.staff) as H.
    { apply (bool_decide_unpack _). vm_compute. exact I. }
    by eapply Forall_forall in H.
  - apply (bool_decide_unpack _). vm_compute. exact I.
  - vm_compute. reflexivity.
Defined.

(** ** Assigning a therapist from the patient side *)

(** X27. [assignTherapistToPatient] checks both documents: it succeeds
    only for a patient and a therapist identifier that names a therapist
    document; it then sets [assigned_therapist] and [updatedAt] of that
    patient and leaves every other field, and every other document, as it
    was. A failed call changes neither the store nor the cache. *)
Theorem assignTherapistToPatient_checks_both_documents i th now cache db :
  (forall r cache' db',
     PatientController.assignTherapistToPatient i th now cache db = (Ok r, cache', db') ->
     exists d t td,
       Firestore.doc i db = Some d /\ role d = Some "patient"
       /\ th = Some t /\ t <> EmptyString
       /\ Firestore.doc t db = Some td /\ role td = Some "professional"
       /\ Firestore.doc i db'
          = Some (PatientController.set_assigned_therapist t (Some now) d)
       /\ (forall j, j <> i -> Firestore.doc j db' = Firestore.doc j db)
       /\ assigned_therapist (PatientController.stored r) = Some t
       /\ PatientController.updated_at r = Some now)
  /\ (forall st msg cache' db',
        PatientController.assignTherapistToPatient i th now cache db
        = (Failed st msg, cache', db') ->
        cache' = cache /\ db' = db).
Proof.
  unfold PatientController.assignTherapistToPatient, PatientController.is_patient. split.
  - intros r cache' db'.
    destruct (Firestore.doc i db) as [d|] eqn:Hd; [|done].
    destruct (bool_decide (role d = Some "patient")) eqn:Hr; [|done]. simpl.
    apply bool_decide_eq_true in Hr.
    destruct th as [[|a t]|]; [done| |done].
    destruct (Firestore.doc (String a t) db) as [td|] eqn:Htd; [|done].
    destruct (bool_decide (role td = Some "professional")) eqn:Hp; [|done]. simpl.
    apply bool_decide_eq_true in Hp.
    intros [= <- <- <-]. exists d, (String a t), td.
    do 6 (split; [done|]). split; [by rewrite doc_update, Hd|].
    split; [|done]. intros j Hj. by apply doc_update_ne.
  - intros st msg cache' db'.
    destruct (Firestore.doc i db) as [d|]; [|by intros [= _ _ <- <-]].
    destruct (negb _); [by intros [= _ _ <- <-]|].
    destruct th as [[|a t]|]; [by intros [= _ _ <- <-]| |by intros [= _ _ <- <-]].
    destruct (Firestore.doc (String a t) db) as [td|]; [|by intros [= _ _ <- <-]].
    destruct (negb _); [by intros [= _ _ <- <-]|done].
Qed.

Lemma assignTherapistToPatient_checks_both_documents_witness :
  (PatientController.assignTherapistToPatient "P2" (Some "P3") 9 ∅ Scenario.clinic).1.2
  = ∅
  /\ (PatientController.assignTherapistToPatient "P2" (Some "P3") 9 ∅ Scenario.clinic).2
     = Scenario.clinic.
Proof.
  refine (proj2 (assignTherapistToPatient_checks_both_documents "P2" (Some "P3") 9 ∅
                   Scenario.clinic)
            500%nat "Invalid therapist ID" _ _ _).
  reflexivity.
Defined.

(** ** The therapist attached to a listed patient *)

Section enrichment.
Import PatientController.

Lemma attach_empty p : attach ∅ p = p.
Proof.
  unfold attach. destruct (assigned_therapist (stored p)) as [t|]; [|done].
  destruct (Js.truthy t); [|done]. by rewrite lookup_empty.
Qed.

Lemma map_attach_empty ps : map (attach ∅) ps = ps.
Proof.
  rewrite <- (map_id ps) at 2. apply map_ext. intros p. apply attach_empty.
Qed.

(** The items of a served page are the records of the store page, as
    [to_patient] renders them, and none of the records names a therapist. *)
Lemma fetchPatients_served k c kw pc tid db p log x :
  fetchPatients k c kw pc tid db = (Ok (page_data p), log) ->
  x ∈ patients p ->
  exists d, x = to_patient d /\ no_therapist_reference d.
Proof.
  unfold fetchPatients.
  destruct (with_cursor c db (list_query pc tid)) as [q0 log0]. simpl.
  destruct (cursor_refused c db (list_query pc tid)); [done|].
  rewrite p_drop_extra_eq.
  set (docs := if (k <? _)%nat then _ else _).
  destruct (foldl collect [] docs) eqn:Hcol; [|done].
  apply collect_nil in Hcol as [_ Hnone].
  rewrite map_attach_empty.
  set (fp := match kw with Some _ => _ | None => _ end).
  destruct fp as [fp'|] eqn:Hfp; [|done].
  intros [= <- _] Hx. simpl in Hx.
  assert (sublist fp' (map to_patient docs)) as Hsub.
  { subst fp. destruct kw as [kw'|]; [destruct (Js.truthy kw')|].
    - by eapply filter_throwing_sublist.
    - by injection Hfp as <-.
    - by injection Hfp as <-. }
  apply (elem_of_sublist _ _ _ Hx) in Hsub as Hy.
  apply list_elem_of_fmap in Hy as (d & -> & Hd).
  exists d. split; [done|]. rewrite Forall_forall in Hnone. by apply Hnone.
Qed.

(** A record of the store page that names a therapist stops the fetch at
    [db.FieldPath]. *)
Lemma fetchPatients_stopped k c kw pc tid db d :
  cursor_refused c db (list_query pc tid) = false ->
  d ∈ (drop_extra k
         (Firestore.get
            (Firestore.limit_ (k + 1) (with_cursor c db (list_query pc tid)).1) db)).2 ->
  Js.truthy_opt (assigned_therapist d) = true ->
  fetchPatients k c kw pc tid db
  = (Failed 500 type_error,
     (with_cursor c db (list_query pc tid)).2
     ++ [query_get (Firestore.limit_ (k + 1) (with_cursor c db (list_query pc tid)).1)]).
Proof.
  intros Hacc. unfold fetchPatients. rewrite Hacc.
  destruct (with_cursor c db (list_query pc tid)) as [q0 log0]. simpl.
  rewrite p_drop_extra_eq. simpl.
  set (docs := if (k <? _)%nat then _ else _).
  intros Hd Ht.
  destruct (foldl collect [] docs) eqn:Hcol; [|done].
  apply collect_nil in Hcol as [_ Hnone].
  rewrite Forall_forall in Hnone. specialize (Hnone d Hd).
  unfold no_therapist_reference in Hnone. by rewrite Hnone in Ht.
Qed.

End enrichment.

(** X28. The patient list never attaches a therapist to a patient. A page
    that is served holds only patients that name no therapist under
    [assigned_therapist], and none of them carries an
    [assigned_therapist_info]. When one of the records of the store page
    (the extra record apart) names a therapist, the fetch is not served:
    it fails with status 500 at [db.FieldPath], after the page query and
    before any lookup of therapists (the cursor document, if there is one,
    has [createdAt]). *)
Theorem listed_patients_never_carry_a_therapist k c kw pc tid db :
  (forall p log x,
     PatientController.fetchPatients k c kw pc tid db
     = (Ok (PatientController.page_data p), log) ->
     x ∈ PatientController.patients p ->
     no_therapist_reference (PatientController.stored x)
     /\ PatientController.assigned_therapist_info x = None)
  /\ (forall d,
       (forall i d', c = Some i -> Firestore.doc i db = Some d' -> is_Some (createdAt d')) ->
       d ∈ (PatientController.drop_extra k
              (Firestore.get
                 (Firestore.limit_ (k + 1)
                    (PatientController.with_cursor c db
                       (PatientController.list_query pc tid)).1) db)).2 ->
       Js.truthy_opt (assigned_therapist d) = true ->
       PatientController.fetchPatients k c kw pc tid db
       = (Failed 500 PatientController.type_error,
          (PatientController.with_cursor c db (PatientController.list_query pc tid)).2
          ++ [query_get
                (Firestore.limit_ (k + 1)
                   (PatientController.with_cursor c db
                      (PatientController.list_query pc tid)).1)])).
Proof.
  split.
  - intros p log x Hf Hx.
    destruct (fetchPatients_served _ _ _ _ _ _ _ _ _ Hf Hx) as (d & -> & Hd).
    by split.
  - intros d Hc Hd Ht. apply (fetchPatients_stopped k c kw pc tid db d); [|done|done].
    by apply (patient_cursor_with_key _ _ _ Firestore.createdAt_desc).
Qed.

Lemma listed_patients_never_carry_a_therapist_witness :
  PatientController.fetchPatients 1 None None None None Scenario.ward
  = (Failed 500 PatientController.type_error,
     [query_get (Firestore.limit_ 2 (PatientController.list_query None None))]).
Proof.
  refine (proj2 (listed_patients_never_carry_a_therapist 1 None None None None
                   Scenario.ward)
            (Scenario.patient_doc "p25" "patient25" 25 None (Some "t25") []) _ _ _).
  - intros i d' [=].
  - vm_compute. apply list_elem_of_here.
  - reflexivity.
Defined.

(** ** Assigning patients from the therapist side *)

(** X29. [assignPatientsToTherapist] is all or nothing: when one of the
    listed patient identifiers names no document, the call fails and
    nothing is written, not even the clearing of the therapist's current
    assignments, and the controller's cache is kept. *)
Theorem assignPatients_is_all_or_nothing i pids now cache db p :
  p ∈ default [] pids -> Firestore.exists_ p db = false ->
  exists st msg,
    TherapistController.assignPatientsToTherapist i pids now cache db
    = (Failed st msg, cache, db).
Proof.
  intros Hp Hex. unfold TherapistController.assignPatientsToTherapist.
  destruct (Firestore.doc i db) as [t|]; [|by eexists _, _].
  destruct (negb _); [by eexists _, _|].
  destruct (uid t) as [u|]; [|by eexists _, _].
  destruct (default [] pids) as [|p0 ids] eqn:Hids; [by apply elem_of_nil in Hp|].
  destruct (TherapistController.snapshot_of u t) as [info|]; [|by eexists _, _].
  match goal with |- context [Firestore.commit ?b db] =>
    destruct (Firestore.commit b db) as [db'|] eqn:Hc end; [|by eexists _, _].
  exfalso.
  assert (Firestore.exists_ (p, TherapistController.assign u info now).1 db = true) as H.
  { eapply commit_exists; [exact Hc|].
    apply elem_of_app. right. apply elem_of_app. left.
    apply list_elem_of_fmap. by exists p. }
  simpl in H. congruence.
Qed.

Lemma assignPatients_is_all_or_nothing_witness :
  exists st msg,
    TherapistController.assignPatientsToTherapist "T1" (Some ["P2"; "P7"]) 9 ∅
      Scenario.clinic
    = (Failed st msg, ∅, Scenario.clinic).
Proof.
  apply (assignPatients_is_all_or_nothing "T1" (Some ["P2"; "P7"]) 9 ∅ Scenario.clinic
           "P7").
  - apply list_elem_of_further, list_elem_of_here.
  - reflexivity.
Defined.

Lemma doc_map i (g : user -> user) db :
  (forall d, id (g d) = id d) ->
  Firestore.doc i (map g db) = g <$> Firestore.doc i db.
Proof.
  intros Hg. unfold Firestore.doc. induction db as [|d db IH]; simpl; [done|].
  rewrite Hg. by destruct (bool_decide (id d = i)).
Qed.

Lemma apply_writes_keeps (Q : user -> Prop) (b : Firestore.batch) d :
  Q d -> Forall (fun w => forall x, Q x -> Q (w.2 x)) b -> Q (apply_writes b d).
Proof.
  unfold apply_writes. revert d. induction b as [|w b IH]; intros d Hd Hb; simpl; [done|].
  apply Forall_cons in Hb as [Hw Hb]. apply IH; [|done].
  destruct (decide (id d = w.1)); [by apply Hw|done].
Qed.

(** X30. Unassigning all patients makes the deletion possible: after
    [assignPatientsToTherapist] has succeeded with an empty list of
    patients, no patient document holds the therapist's [uid] in
    [assignedTherapist] any more, and [deleteTherapist] for the same
    therapist succeeds. *)
Theorem unassigning_all_patients_allows_deletion i pids now cache db a cache' db' :
  default [] pids = [] ->
  TherapistController.assignPatientsToTherapist i pids now cache db
  = (Ok a, cache', db') ->
  (forall t u d,
     Firestore.doc i db = Some t -> uid t = Some u ->
     d ∈ db' -> role d = Some "patient" -> assignedTherapist d <> Some u)
  /\ (TherapistController.deleteTherapist i cache' db').1.1
     = TherapistController.deleted.
Proof.
  intros Hids. unfold TherapistController.assignPatientsToTherapist.
  destruct (Firestore.doc i db) as [t|] eqn:Ht; [|done].
  destruct (bool_decide (role t = Some "professional")) eqn:Hr; [|done]. simpl.
  apply bool_decide_eq_true in Hr.
  destruct (uid t) as [u|] eqn:Hu; [|done].
  rewrite Hids.
  set (current := Firestore.get (TherapistController.currently_assigned u) db).
  set (b := map (fun d => (id d, TherapistController.unassign now)) current
            ++ [] ++ [(i, TherapistController.touch now)]).
  destruct (Firestore.commit b db) as [db1|] eqn:Hc; [|done].
  intros [= _ _ <-]. rewrite (commit_map _ _ _ Hc).
  assert (forall d, id (apply_writes b d) = id d /\ role (apply_writes b d) = role d
                    /\ uid (apply_writes b d) = uid d) as Hkeep.
  { intros d.
    apply (apply_writes_keeps (fun x => id x = id d /\ role x = role d /\ uid x = uid d));
      [done|].
    subst b. rewrite !Forall_app. split; [|split; [constructor|]].
    - apply Forall_fmap, Forall_forall. intros x _ y Hy. exact Hy.
    - constructor; [|constructor]. intros y Hy. exact Hy. }
  assert (forall d, d ∈ db -> role d = Some "patient" ->
                    assignedTherapist (apply_writes b d) <> Some u) as Hfree.
  { intros d Hd Hrole. subst b. rewrite !apply_writes_app.
    destruct (apply_clears now current d) as (Hid & _ & _ & Hin & Hout).
    set (d1 := apply_writes (map (fun x => (id x, TherapistController.unassign now))
                               current) d) in *.
    assert (assignedTherapist
              (apply_writes [(i, TherapistController.touch now)] (apply_writes [] d1))
            = assignedTherapist d1) as ->.
    { unfold apply_writes. simpl. by destruct (decide (id d1 = i)). }
    destruct (decide (id d ∈ map id current)) as [Hc1|Hc1].
    - by rewrite (Hin Hc1).
    - rewrite (Hout Hc1). intros Ha. apply Hc1.
      apply list_elem_of_fmap. exists d. split; [done|].
      by apply currently_assigned_elem. }
  split.
  - intros t' u' d Ht' Hu' Hd Hrole.
    injection Ht' as <-. rewrite Hu in Hu'. injection Hu' as <-.
    apply list_elem_of_fmap in Hd as (d0 & -> & Hd0).
    destruct (Hkeep d0) as (_ & Hr0 & _). rewrite Hr0 in Hrole.
    by apply Hfree.
  - unfold TherapistController.deleteTherapist.
    rewrite doc_map, Ht by (intros d; apply Hkeep). simpl.
    destruct (Hkeep t) as (_ & -> & ->). rewrite Hr, Hu. simpl.
    destruct (Firestore.get (TherapistController.currently_assigned u)
                (map (apply_writes b) db)) as [|p ps] eqn:Hg; [done|].
    exfalso.
    assert (p ∈ Firestore.get (TherapistController.currently_assigned u)
                  (map (apply_writes b) db)) as Hp
      by (rewrite Hg; apply list_elem_of_here).
    apply currently_assigned_elem in Hp as (Hp & Hrole & Ha).
    apply list_elem_of_fmap in Hp as (d0 & -> & Hd0).
    destruct (Hkeep d0) as (_ & Hr0 & _). rewrite Hr0 in Hrole.
    by apply (Hfree d0 Hd0 Hrole).
Qed.

Lemma unassigning_all_patients_allows_deletion_witness :
  exists a cache' db',
    TherapistController.assignPatientsToTherapist "T1" (Some []) 9 ∅ Scenario.clinic
    = (Ok a, cache', db')
    /\ (TherapistController.deleteTherapist "T1" cache' db').1.1
       = TherapistController.deleted.
Proof.
  eexists _, _, _. split; [vm_compute; reflexivity|].
  refine (proj2 (unassigning_all_patients_allows_deletion "T1" (Some []) 9 ∅
                   Scenario.clinic _ _ _ _ _)).
  - reflexivity.
  - vm_compute. reflexivity.
Defined.
